(** * Excelbot: the column normalizer, the table loader, the data query
      executor and the plot code sandbox

    A shallow embedding of [src/data_processor.py] (class [DataProcessor])
    and of [execute_plot_code] / [fix_column_names_in_code] from
    [src/app.py], followed by the properties of the specification that were
    checked against it.

    Conventions.
    - A Python [str] is a [string]; its 8-bit characters are read as the code
      points U+0000..U+00FF, and the character classes below are Python's
      (the Unicode database) restricted to that range.
    - pandas, the regular-expression engine and [exec] are external to the
      repository.  What the code asks of them is collected in the classes
      [Pandas], [Evaluator] and [Runtime]; results hold for every instance.
    - A Python exception of class [Exception] is the [Raise] branch of
      [res].  The two places that run a text they are given say so where
      they differ: [df.query] may raise an exception of any class, under a
      bare [except]; [exec] may raise one outside [Exception], which
      [except Exception] lets through. *)

From Stdlib Require Import String Ascii List Bool Arith NArith Lia.
From Stdlib Require Import DecimalString DecimalNat.
From stdpp Require Import base option list gmap strings.

Import ListNotations.
Local Open Scope string_scope.
Local Open Scope list_scope.

(* ===================================================================== *)
(** * Part I: the program                                                 *)
(* ===================================================================== *)

(** ** Python strings *)
Module PyStr.

Definition code (c : ascii) : N := N_of_ascii c.

Definition between (lo hi : N) (c : ascii) : bool :=
  ((lo <=? code c) && (code c <=? hi))%N.

Definition is_code (n : N) (c : ascii) : bool := (code c =? n)%N.

Definition ascii_upper (c : ascii) : bool := between 65 90 c.
Definition ascii_lower (c : ascii) : bool := between 97 122 c.
Definition ascii_digit (c : ascii) : bool := between 48 57 c.

(** [str.isspace] per character: TAB..CR, FS..US, SPACE, NEL, NBSP. *)
Definition isspace (c : ascii) : bool :=
  between 9 13 c || between 28 32 c || is_code 133 c || is_code 160 c.

(** [str.isdigit] per character: 0-9 and the superscripts 2, 3, 1. *)
Definition isdigit_char (c : ascii) : bool :=
  ascii_digit c || is_code 178 c || is_code 179 c || is_code 185 c.

(** [str.isalpha] per character: A-Z, a-z, the ordinal indicators, the
    micro sign and the Latin-1 letters (multiplication and division signs
    excluded). *)
Definition isalpha_char (c : ascii) : bool :=
  ascii_upper c || ascii_lower c
  || is_code 170 c || is_code 181 c || is_code 186 c
  || between 192 214 c || between 216 246 c || between 248 255 c.

(** [str.isalnum] per character; the vulgar fractions are numeric. *)
Definition isalnum_char (c : ascii) : bool :=
  isalpha_char c || isdigit_char c || between 188 190 c.

Definition underscore : ascii := "_"%char.
Definition is_underscore (c : ascii) : bool := is_code 95 c.

(** The class [\w] of [re] on [str] patterns. *)
Definition is_word (c : ascii) : bool := isalnum_char c || is_underscore c.

(** [str.lower] per character. *)
Definition lower_char (c : ascii) : ascii :=
  if ascii_upper c || between 192 214 c || between 216 222 c
  then ascii_of_N (code c + 32) else c.

Fixpoint smap (f : ascii -> ascii) (s : string) : string :=
  match s with
  | EmptyString => EmptyString
  | String c r => String (f c) (smap f r)
  end.

Fixpoint sall (p : ascii -> bool) (s : string) : bool :=
  match s with
  | EmptyString => true
  | String c r => p c && sall p r
  end.

Fixpoint sany (p : ascii -> bool) (s : string) : bool :=
  match s with
  | EmptyString => false
  | String c r => p c || sany p r
  end.

Definition is_empty (s : string) : bool :=
  match s with EmptyString => true | String _ _ => false end.

Definition lower (s : string) : string := smap lower_char s.

(** [s.lstrip], [s.rstrip] and [s.strip] for a set of characters [p]. *)
Fixpoint lstrip_by (p : ascii -> bool) (s : string) : string :=
  match s with
  | EmptyString => EmptyString
  | String c r => if p c then lstrip_by p r else s
  end.

Fixpoint rstrip_by (p : ascii -> bool) (s : string) : string :=
  match s with
  | EmptyString => EmptyString
  | String c r =>
      let r' := rstrip_by p r in
      if p c && is_empty r' then EmptyString else String c r'
  end.

Definition strip_by (p : ascii -> bool) (s : string) : string :=
  rstrip_by p (lstrip_by p s).

(** [s.strip()] *)
Definition strip (s : string) : string := strip_by isspace s.

(** [s.isdigit()] *)
Definition isdigit (s : string) : bool :=
  negb (is_empty s) && sall isdigit_char s.

(** [s.startswith(p)] *)
Fixpoint startswith (p s : string) : bool :=
  match p, s with
  | EmptyString, _ => true
  | String a p', String b s' => Ascii.eqb a b && startswith p' s'
  | String _ _, EmptyString => false
  end.

(** [p in s] *)
Fixpoint contains (p s : string) : bool :=
  startswith p s ||
  match s with
  | EmptyString => false
  | String _ r => contains p r
  end.

(** [s in l] for a list of strings *)
Definition str_in (s : string) (l : list string) : bool :=
  existsb (String.eqb s) l.

(** [str(n)] for a natural number *)
Definition str_of_nat (n : nat) : string :=
  NilEmpty.string_of_uint (Nat.to_uint n).

(** [sep.join(l)] *)
Fixpoint join (sep : string) (l : list string) : string :=
  match l with
  | [] => EmptyString
  | [x] => x
  | x :: r => x ++ sep ++ join sep r
  end.

Definition drop (n : nat) (s : string) : string :=
  String.substring n (String.length s - n) s.

(** [s.replace(old, new)] for the empty [old]: [new] before every
    character and at the end. *)
Fixpoint interleave (new s : string) : string :=
  match s with
  | EmptyString => new
  | String c r => new ++ String c (interleave new r)
  end.

(** [s.replace(old, new)]: every occurrence, left to right, without
    overlap. *)
Fixpoint replace_fuel (fuel : nat) (old new s : string) : string :=
  match fuel with
  | O => s
  | S k =>
      match s with
      | EmptyString => EmptyString
      | String c r =>
          if startswith old s
          then new ++ replace_fuel k old new (drop (String.length old) s)
          else String c (replace_fuel k old new r)
      end
  end.

Definition replace (old new s : string) : string :=
  if is_empty old then interleave new s
  else replace_fuel (S (String.length s)) old new s.

Definition newline : ascii := ascii_of_nat 10.

(** [s.split('\n')] *)
Fixpoint split_lines (s : string) : list string :=
  match s with
  | EmptyString => [EmptyString]
  | String c r =>
      match split_lines r with
      | [] => [EmptyString]
      | l :: ls => if Ascii.eqb c newline then EmptyString :: l :: ls
                   else String c l :: ls
      end
  end.

End PyStr.

(** ** 4.1 Column Normalizer *)
Module Normalizer.
Import PyStr.

(** The test of lines 44-47 on the trimmed header. *)
Definition is_missing (col_str : string) : bool :=
  startswith "Unnamed:" col_str
  || str_in col_str [""; "nan"; "NaN"; "None"]
  || isdigit col_str
  || (String.length col_str =? 0)%nat.

Definition placeholder (i : nat) : string := "Column " ++ str_of_nat (i + 1).

(** One turn of the loop of [_handle_missing_column_names]; a header is
    the text [str(col)]. *)
Definition repair (i : nat) (col : string) : string :=
  let col_str := strip col in
  if is_missing col_str then placeholder i else col_str.

(** [for i, col in enumerate(df.columns)], counting from [i]. *)
Fixpoint repair_from (i : nat) (cols : list string) : list string :=
  match cols with
  | [] => []
  | col :: rest => repair i col :: repair_from (S i) rest
  end.

Definition _handle_missing_column_names (cols : list string) : list string :=
  repair_from 0 cols.

(** [re.sub(r'[^\w]', '_', s)] *)
Definition sub_nonword (s : string) : string :=
  smap (fun c => if is_word c then c else underscore) s.

Definition heads_underscore (s : string) : bool :=
  match s with
  | EmptyString => false
  | String c _ => is_underscore c
  end.

(** [re.sub(r'_+', '_', s)]: one underscore is kept of every run. *)
Fixpoint squeeze (s : string) : string :=
  match s with
  | EmptyString => EmptyString
  | String c r =>
      if is_underscore c && heads_underscore r then squeeze r
      else String c (squeeze r)
  end.

(** The body of the loop of [_normalize_column_names]. *)
Definition canonicalize (col : string) : string :=
  let col_str := strip col in
  let col_normalized := sub_nonword (lower col_str) in
  let col_normalized := squeeze col_normalized in
  strip_by is_underscore col_normalized.

Definition _normalize_column_names (columns : list string) : list string :=
  List.map canonicalize columns.

(** Lines 23 and 26 of [_load_and_process_excel] on the headers. *)
Definition normalized_headers (raw : list string) : list string :=
  _normalize_column_names (_handle_missing_column_names raw).

(** *** The shape of a name *)

(** The class [[a-z0-9_]]. *)
Definition plain_char (c : ascii) : bool :=
  ascii_lower c || ascii_digit c || is_underscore c.

(** An underscore, or a word character that [lower] leaves alone. *)
Definition canonical_char (c : ascii) : bool :=
  is_underscore c || (isalnum_char c && Ascii.eqb (lower_char c) c).

Definition seven_bit (c : ascii) : bool := (code c <? 128)%N.

Fixpoint ends_underscore (s : string) : bool :=
  match s with
  | EmptyString => false
  | String c EmptyString => is_underscore c
  | String _ r => ends_underscore r
  end.

Fixpoint doubled_underscore (s : string) : bool :=
  match s with
  | EmptyString => false
  | String c r => (is_underscore c && heads_underscore r) || doubled_underscore r
  end.

(** A name in canonical form. *)
Definition is_canonical (s : string) : bool :=
  sall canonical_char s
  && negb (heads_underscore s) && negb (ends_underscore s)
  && negb (doubled_underscore s).

(** A name as the specification wants it: not empty, over [[a-z0-9_]],
    without an underscore in front, at the end or doubled. *)
Definition spec_name_ok (s : string) : bool :=
  negb (is_empty s) && sall plain_char s
  && negb (heads_underscore s) && negb (ends_underscore s)
  && negb (doubled_underscore s).

(** *** The header test in the words of the specification *)

(** The form [Unnamed: <k>]. *)
Definition unnamed_marker (s : string) : bool :=
  startswith "Unnamed: " s && isdigit (drop 9 s).

(** Empty, purely numeric, a case-insensitive match to one of the empty
    text, [nan] and [none], or of the form [Unnamed: <k>]; on the trimmed
    header. *)
Definition spec_missing (s : string) : bool :=
  is_empty s || isdigit s || str_in (lower s) [""; "nan"; "none"] || unnamed_marker s.

End Normalizer.

(** ** Results and exceptions *)

(** The outcome of a Python call: a value, or an exception of class
    [Exception] with the text [str(e)]. *)
Inductive res (A : Type) : Type :=
| Ok (a : A)
| Raise (msg : string).
Arguments Ok {A} a.
Arguments Raise {A} msg.

#[export] Instance res_ret : MRet res := fun A a => Ok a.
#[export] Instance res_bind : MBind res := fun A B f m =>
  match m with
  | Ok a => f a
  | Raise msg => Raise msg
  end.

(** [try: m except Exception as e: handler(str(e))] *)
Definition try_except {A} (m : res A) (handler : string -> res A) : res A :=
  match m with
  | Ok a => Ok a
  | Raise msg => handler msg
  end.

(** ** The pandas data model *)
Module Pd.
Import PyStr.

Inductive dtype : Type := DObject | DInt64 | DFloat64 | DBool | DDatetime.

Definition dtype_eqb (a b : dtype) : bool :=
  match a, b with
  | DObject, DObject | DInt64, DInt64 | DFloat64, DFloat64
  | DBool, DBool | DDatetime, DDatetime => true
  | _, _ => false
  end.

(** A cell: one of the three values [isna] reports, a Python [str], or
    another scalar (a number, a boolean, a timestamp), of which the
    program only ever reads the text that [astype(str)] gives it. *)
Inductive cell : Type :=
  | NaN
  | NaT
  | PyNone
  | Str (s : string)
  | Scalar (astext : string).

Definition isna (c : cell) : bool :=
  match c with
  | NaN | NaT | PyNone => true
  | Str _ | Scalar _ => false
  end.

Definition notna (c : cell) : bool := negb (isna c).

Record Series : Type := mkSeries { dtype_of : dtype; values : list cell }.

(** A frame: [len(df)] and the labelled columns in order.  Labels may
    repeat, as they may in pandas. *)
Record DataFrame : Type := mkFrame { nrows : nat; cols : list (string * Series) }.

Definition columns (df : DataFrame) : list string := List.map fst (cols df).

(** [pd.DataFrame()] *)
Definition empty_frame : DataFrame := mkFrame 0 [].

(** [df.columns = names] (the lengths agree wherever the program does
    this). *)
Definition set_columns (df : DataFrame) (names : list string) : DataFrame :=
  mkFrame (nrows df) (List.combine names (List.map snd (cols df))).

(** What [df[col]] is: a Series when the label occurs once, a DataFrame
    of the columns that carry it when it occurs more than once. *)
Inductive item : Type :=
  | OneColumn (s : Series)
  | SubFrame (ss : list Series).

Definition labelled (col : string) (df : DataFrame) : list Series :=
  List.map snd (List.filter (fun p => String.eqb (fst p) col) (cols df)).

Definition getitem (df : DataFrame) (col : string) : res item :=
  match labelled col df with
  | [] => Raise "KeyError"
  | [s] => Ok (OneColumn s)
  | ss => Ok (SubFrame ss)
  end.

(** [df[col] = s] for a label that is present. *)
Definition setitem (df : DataFrame) (col : string) (s : Series) : DataFrame :=
  mkFrame (nrows df)
    (List.map (fun p => if String.eqb (fst p) col then (fst p, s) else p) (cols df)).

(** [col in df.columns] *)
Definition has_column (df : DataFrame) (col : string) : bool :=
  str_in col (columns df).

(** The text [Series.astype(str)] gives a cell (pandas 2: a missing value
    becomes its name). *)
Definition astype_str (c : cell) : string :=
  match c with
  | NaN => "nan"
  | NaT => "NaT"
  | PyNone => "None"
  | Str s => s
  | Scalar t => t
  end.

(** JSON-like values of a data operation, as the language model sends
    them. *)
#[warnings="-register-all"] Inductive pyval : Type :=
  | VNone
  | VBool (b : bool)
  | VNum (repr : string)
  | VStr (s : string)
  | VList (l : list pyval)
  | VDict (d : list (string * pyval)).

Inductive cmp_op : Type := OpEq | OpNe | OpGt | OpLt | OpGe | OpLe.
Inductive agg_fun : Type := AggCount | AggSum | AggMean | AggMedian | AggSize.

(** The library calls of the program.  Each is a function of its
    arguments: it builds a new object and leaves its receiver alone. *)
Class Pandas : Type := {
  (** [pd.to_numeric(s, errors='coerce')] *)
  to_numeric : Series -> Series;
  (** [pd.to_datetime(s, errors='coerce')] *)
  to_datetime : Series -> res Series;
  (** [df.describe()] *)
  describe : DataFrame -> res DataFrame;
  (** [df[df[col] == v]], [df[df[col] != v]], [df[df[col] > v]], ... *)
  select_where : cmp_op -> DataFrame -> string -> pyval -> res DataFrame;
  (** [re.search(pat, text, re.IGNORECASE) is not None], once [pat]
      compiles *)
  re_search_ignorecase : string -> res (string -> bool);
  (** [str(v)] for a list or a dict *)
  str_of_container : pyval -> string;
  (** [df.groupby(g)[a].f().reset_index()], and
      [df.groupby(g).size().reset_index(name='count')] for [None] *)
  groupby : DataFrame -> string -> option string -> agg_fun -> res DataFrame;
  (** [df.corr()] *)
  corr : DataFrame -> res DataFrame;
  (** [s.value_counts().reset_index()] *)
  value_counts : string -> Series -> res DataFrame
}.

End Pd.

(** ** 4.2 Table Loader/Cleaner *)
Module Loader.
Import PyStr Pd Normalizer.

Section Cleaning.
Context `{Pandas}.

(** [(k / n) > 0.8] on counts.  The quotient of two counts below 2^50
    and the literal 0.8 round the same way, so the comparison of the
    doubles is the comparison of [5 * k] with [4 * n]. *)
Definition above_80_percent (k n : nat) : bool := (4 * n <? 5 * k)%nat.

Definition count_notna (s : Series) : nat :=
  List.length (List.filter notna (values s)).

(** Lines 79-85, for one label [col].  On a label that occurs more than
    once [df[col]] is a DataFrame, which has [dtypes] but no [dtype]:
    line 79 raises AttributeError. *)
Definition numeric_step (df : DataFrame) (col : string) : res DataFrame :=
  it ← getitem df col;
  match it with
  | SubFrame _ => Raise "'DataFrame' object has no attribute 'dtype'"
  | OneColumn s =>
      if dtype_eqb (dtype_of s) DObject then
        let numeric_series := to_numeric s in
        if negb (forallb isna (values numeric_series)) then
          if above_80_percent (count_notna numeric_series) (nrows df)
          then Ok (setitem df col numeric_series)
          else Ok df
        else Ok df
      else Ok df
  end.

(** Lines 89-93, for one label [col]; the bare [except] swallows what
    [df[col]] of a repeated label and [pd.to_datetime] raise. *)
Definition date_step (df : DataFrame) (col : string) : res DataFrame :=
  if contains "date" (lower col) || contains "time" (lower col) then
    try_except
      (it ← getitem df col;
       match it with
       | OneColumn s => s' ← to_datetime s; Ok (setitem df col s')
       | SubFrame _ => Raise "to assemble mappings requires at least that [year, month, day] be specified"
       end)
      (fun _ => Ok df)
  else Ok df.

(** [for col in labels: df = step(df, col)] *)
Fixpoint for_each (step : DataFrame -> string -> res DataFrame)
    (labels : list string) (df : DataFrame) : res DataFrame :=
  match labels with
  | [] => Ok df
  | col :: rest => df' ← step df col; for_each step rest df'
  end.

Definition _clean_data (df : DataFrame) : res DataFrame :=
  df ← for_each numeric_step (columns df) df;
  for_each date_step (columns df) df.

(** [pd.read_excel(uploaded_file)] is the frame the upload parses to;
    both reads of the program see the same one. *)
Definition _load_and_process_excel (uploaded_file : res DataFrame) : res DataFrame :=
  try_except
    (df ← uploaded_file;
     let df := set_columns df (_handle_missing_column_names (columns df)) in
     let df := set_columns df (_normalize_column_names (columns df)) in
     _clean_data df)
    (fun e => Raise ("Error loading Excel file: " ++ e)).

(** [dict(zip(keys, vals))]: a later pair replaces an earlier one. *)
Definition dict_zip (keys vals : list string) : gmap string string :=
  List.fold_left (fun m kv => <[kv.1 := kv.2]> m) (List.combine keys vals) ∅.

Definition _create_column_mapping (uploaded_file : res DataFrame)
    (df : DataFrame) : res (gmap string string) :=
  original ← uploaded_file;
  Ok (dict_zip (columns df) (columns original)).

Record DataProcessor : Type := mkProcessor {
    df : DataFrame;
    column_mapping : gmap string string
  }.

(** [DataProcessor.__init__] *)
Definition init (uploaded_file : res DataFrame) : res DataProcessor :=
  df ← _load_and_process_excel uploaded_file;
  column_mapping ← _create_column_mapping uploaded_file df;
  Ok (mkProcessor df column_mapping).

End Cleaning.
End Loader.

(** ** 4.3 Data Query Executor *)
Module Query.
Import PyStr Pd.

(** *** Objects and the state of a session *)

(** pandas objects live in a store; [self.df] is a reference into it, and
    so is every frame a method hands back. *)
Definition loc : Type := positive.

Record state : Type := mkState {
  heap : gmap loc DataFrame;
  self_df : loc;
  self_column_mapping : gmap string string;
  stdout : list string
}.

Definition M (A : Type) : Type := state -> res A * state.

#[export] Instance M_ret : MRet M := fun A a st => (Ok a, st).
#[export] Instance M_bind : MBind M := fun A B f m st =>
  match m st with
  | (Ok a, st') => f a st'
  | (Raise msg, st') => (Raise msg, st')
  end.

#[export] Instance M_fmap : FMap M := fun A B f m st =>
  match m st with
  | (Ok a, st') => (Ok (f a), st')
  | (Raise msg, st') => (Raise msg, st')
  end.

Definition pure {A} (a : A) : M A := fun st => (Ok a, st).

Definition lift {A} (r : res A) : M A := fun st => (r, st).

Definition try_catch {A} (m : M A) (handler : string -> M A) : M A :=
  fun st =>
    match m st with
    | (Ok a, st') => (Ok a, st')
    | (Raise msg, st') => handler msg st'
    end.

(** A new object. *)
Definition new (t : DataFrame) : M loc := fun st =>
  let l := fresh (dom (heap st)) in
  (Ok l, mkState (<[l := t]> (heap st)) (self_df st) (self_column_mapping st) (stdout st)).

Definition read (l : loc) : M DataFrame := fun st =>
  match heap st !! l with
  | Some t => (Ok t, st)
  | None => (Raise "dangling reference", st)
  end.

(** An update of the object at [l] in place. *)
Definition write (l : loc) (t : DataFrame) : M unit := fun st =>
  (Ok tt, mkState (<[l := t]> (heap st)) (self_df st) (self_column_mapping st) (stdout st)).

Definition get_self_df : M loc := fun st => (Ok (self_df st), st).

Definition print (line : string) : M unit := fun st =>
  (Ok tt, mkState (heap st) (self_df st) (self_column_mapping st) (stdout st ++ [line])).

(** *** The evaluation of a query text *)

(** [df.query(q)] evaluates the text with the names of the calling frame
    in scope: [@self], the processor, is one of them, so the text can
    call whatever the processor reaches.  An evaluation computes a table
    or raises (an exception of any class); on the way it may change
    objects in place or make new ones, bind [self.df] and
    [self.column_mapping] anew, and print. *)
Record evaluation : Type := mkEvaluation {
  returned : res DataFrame;
  written : gmap loc DataFrame;
  df_after : loc;
  mapping_after : gmap string string;
  printed : list string
}.

Class Evaluator : Type := {
  (** What the evaluation of a text does, for the object [df.query] is
      called on and the state it starts in. *)
  evaluate : loc -> string -> state -> evaluation
}.

(** [df.query(q)] on the object at [l]: the objects the evaluation wrote
    replace or join those of the store, none is unmade. *)
Definition query `{Evaluator} (l : loc) (q : string) : M DataFrame := fun st =>
  let ev := evaluate l q st in
  (returned ev,
   mkState (written ev ∪ heap st) (df_after ev) (mapping_after ev)
     (stdout st ++ printed ev)).

(** *** Values of an operation *)

Definition nonzero_digit (c : ascii) : bool := between 49 57 c.

Fixpoint mantissa (r : string) : string :=
  match r with
  | EmptyString => EmptyString
  | String c r' =>
      if Ascii.eqb c "e"%char || Ascii.eqb c "E"%char then EmptyString
      else String c (mantissa r')
  end.

(** A number is zero when its mantissa has digits and all are 0. *)
Definition num_is_zero (r : string) : bool :=
  sany ascii_digit (mantissa r) && negb (sany nonzero_digit (mantissa r)).

(** [bool(v)] *)
Definition truthy (v : pyval) : bool :=
  match v with
  | VNone => false
  | VBool b => b
  | VNum r => negb (num_is_zero r)
  | VStr s => negb (is_empty s)
  | VList l => match l with [] => false | _ => true end
  | VDict d => match d with [] => false | _ => true end
  end.

Fixpoint dict_lookup (k : string) (d : list (string * pyval)) : option pyval :=
  match d with
  | [] => None
  | (k', v) :: rest => if String.eqb k' k then Some v else dict_lookup k rest
  end.

(** [v.get(k, dflt)] *)
Definition get (v : pyval) (k : string) (dflt : pyval) : res pyval :=
  match v with
  | VDict d => Ok (default dflt (dict_lookup k d))
  | _ => Raise "object has no attribute 'get'"
  end.

(** [v == s] for a string literal [s] *)
Definition is_str (s : string) (v : pyval) : bool :=
  match v with
  | VStr s' => String.eqb s' s
  | _ => false
  end.

Fixpoint chars (s : string) : list pyval :=
  match s with
  | EmptyString => []
  | String c r => VStr (String c EmptyString) :: chars r
  end.

(** [for x in v] *)
Definition iter (v : pyval) : res (list pyval) :=
  match v with
  | VList l => Ok l
  | VStr s => Ok (chars s)
  | VDict d => Ok (List.map (fun kv => VStr (fst kv)) d)
  | _ => Raise "object is not iterable"
  end.

(** [v in df.columns]: the index hashes [v]. *)
Definition in_columns (df : DataFrame) (v : pyval) : res bool :=
  match v with
  | VStr s => Ok (has_column df s)
  | VList _ | VDict _ => Raise "unhashable type"
  | _ => Ok false
  end.

(** [str(v)] *)
Definition py_str `{Pandas} (v : pyval) : string :=
  match v with
  | VNone => "None"
  | VBool true => "True"
  | VBool false => "False"
  | VNum r => r
  | VStr s => s
  | VList _ | VDict _ => str_of_container v
  end.

(** *** Frames *)

Definition is_numeric (s : Series) : bool :=
  dtype_eqb (dtype_of s) DInt64 || dtype_eqb (dtype_of s) DFloat64.

(** [df.select_dtypes(include=[np.number]).columns.tolist()] *)
Definition numeric_columns (df : DataFrame) : list string :=
  List.map fst (List.filter (fun p => is_numeric (snd p)) (cols df)).

(** [df[names]] for a list of labels that are present *)
Definition take_columns (df : DataFrame) (names : list string) : DataFrame :=
  mkFrame (nrows df)
    (List.flat_map
       (fun n => List.filter (fun p => String.eqb (fst p) n) (cols df)) names).

Fixpoint mask_filter {A} (mask : list bool) (l : list A) : list A :=
  match mask, l with
  | true :: m, x :: r => x :: mask_filter m r
  | false :: m, _ :: r => mask_filter m r
  | _, _ => []
  end.

(** [df[mask]] for a boolean Series over the rows of [df] *)
Definition select_rows (df : DataFrame) (mask : list bool) : DataFrame :=
  mkFrame (List.length (List.filter id mask))
    (List.map
       (fun p => (fst p, mkSeries (dtype_of (snd p)) (mask_filter mask (values (snd p)))))
       (cols df)).

Section Methods.
Context `{Pandas} `{Evaluator}.

(** [[col for col in columns if col in df.columns]] *)
Fixpoint valid_columns (df : DataFrame) (columns : list pyval) : res (list string) :=
  match columns with
  | [] => Ok []
  | col :: rest =>
      b ← in_columns df col;
      valid ← valid_columns df rest;
      Ok (match col with
          | VStr s => if b : bool then s :: valid else valid
          | _ => valid
          end)
  end.

Definition _get_statistical_summary (columns : pyval) : M loc :=
  self ← get_self_df;
  df ← read self;
  let columns :=
    if negb (truthy columns) then VList (List.map VStr (numeric_columns df))
    else columns in
  items ← lift (iter columns);
  valid ← lift (valid_columns df items);
  match valid with
  | [] => new empty_frame
  | _ => r ← lift (describe (take_columns df valid)); new r
  end.

(** [s.astype(str).str.contains(pat, case=False, na=False)]: [pat] is a
    regular expression; [na] decides for cells that are missing after the
    conversion to text, and there is none. *)
Definition str_contains (s : Series) (pat : string) : res (list bool) :=
  found ← re_search_ignorecase pat;
  Ok (List.map (fun c => found (astype_str c)) (values s)).

Definition operator_of (v : pyval) : option cmp_op :=
  if is_str "==" v then Some OpEq
  else if is_str "!=" v then Some OpNe
  else if is_str ">" v then Some OpGt
  else if is_str "<" v then Some OpLt
  else if is_str ">=" v then Some OpGe
  else if is_str "<=" v then Some OpLe
  else None.

(** The body of the loop of [_filter_data] for one entry of [conditions];
    [self_t] is [self.df] and [filtered] the working frame. *)
Definition filter_step (self_t : DataFrame) (filtered : loc)
    (entry : string * pyval) : M loc :=
  let '(column, condition) := entry in
  if negb (has_column self_t column) then pure filtered
  else
    operator ← lift (get condition "operator" (VStr "=="));
    value ← lift (get condition "value" VNone);
    match operator_of operator with
    | Some op =>
        t ← read filtered;
        r ← lift (select_where op t column value);
        new r
    | None =>
        if is_str "contains" operator then
          t ← read filtered;
          it ← lift (getitem t column);
          match it with
          | OneColumn s =>
              mask ← lift (str_contains s (py_str value));
              new (select_rows t mask)
          | SubFrame _ => lift (Raise "'DataFrame' object has no attribute 'str'")
          end
        else pure filtered
    end.

Fixpoint filter_loop (self_t : DataFrame) (filtered : loc)
    (entries : list (string * pyval)) : M loc :=
  match entries with
  | [] => pure filtered
  | entry :: rest =>
      filtered' ← filter_step self_t filtered entry;
      filter_loop self_t filtered' rest
  end.

Definition _filter_data (conditions : pyval) : M loc :=
  self ← get_self_df;
  df ← read self;
  filtered_df ← new df;
  match conditions with
  | VDict entries => filter_loop df filtered_df entries
  | _ => lift (Raise "object has no attribute 'items'")
  end.

Definition agg_of (agg_function : pyval) : agg_fun :=
  if is_str "count" agg_function then AggCount
  else if is_str "sum" agg_function then AggSum
  else if is_str "mean" agg_function then AggMean
  else if is_str "median" agg_function then AggMedian
  else AggCount.

Definition _group_by_analysis (group_column agg_column agg_function : pyval) : M loc :=
  self ← get_self_df;
  df ← read self;
  present ← lift (in_columns df group_column);
  match group_column, present with
  | VStr g, true =>
      agg_present ← (if truthy agg_column then lift (in_columns df agg_column)
                     else pure false);
      match agg_column, agg_present with
      | VStr a, true => r ← lift (groupby df g (Some a) (agg_of agg_function)); new r
      | _, _ => r ← lift (groupby df g None AggSize); new r
      end
  | _, _ => new empty_frame
  end.

(** [col in df.columns and df[col].dtype in ['int64', 'float64']] *)
Definition correlates (df : DataFrame) (col : pyval) : res (option string) :=
  b ← in_columns df col;
  match col, b with
  | VStr s, true =>
      it ← getitem df s;
      match it with
      | OneColumn x => Ok (if is_numeric x then Some s else None)
      | SubFrame _ => Raise "'DataFrame' object has no attribute 'dtype'"
      end
  | _, _ => Ok None
  end.

Fixpoint correlating (df : DataFrame) (columns : list pyval) : res (list string) :=
  match columns with
  | [] => Ok []
  | col :: rest =>
      o ← correlates df col;
      tl ← correlating df rest;
      Ok (match o with Some s => s :: tl | None => tl end)
  end.

Definition _get_correlation_analysis (columns : pyval) : M loc :=
  self ← get_self_df;
  df ← read self;
  numeric_cols ←
    (if negb (truthy columns) then pure (numeric_columns df)
     else items ← lift (iter columns); lift (correlating df items));
  if (List.length numeric_cols <? 2)%nat then new empty_frame
  else r ← lift (corr (take_columns df numeric_cols)); new r.

Definition _get_value_counts (column : pyval) : M loc :=
  self ← get_self_df;
  df ← read self;
  present ← lift (in_columns df column);
  match column, present with
  | VStr c, true =>
      it ← lift (getitem df c);
      match it with
      | OneColumn s =>
          r ← lift (value_counts c s);
          value_counts ← new r;
          if (List.length (cols r) =? 2)%nat
          then write value_counts (set_columns r [c; "count"]);; pure value_counts
          else lift (Raise "Length mismatch")
      | SubFrame _ => lift (Raise "Length mismatch")
      end
  | _, _ => new empty_frame
  end.

Definition forbidden_keywords : list string :=
  ["drop"; "delete"; "insert"; "update"; "exec"; "eval"].

(** The handler of line 276 is a bare [except]: it takes an exception of
    any class. *)
Definition _execute_custom_query (query_text : pyval) : M loc :=
  try_catch
    (match query_text with
     | VStr q =>
         if existsb (fun keyword => contains keyword (lower q)) forbidden_keywords
         then new empty_frame
         else
           self ← get_self_df;
           result ← query self q;
           new result
     | _ => lift (Raise "object has no attribute 'lower'")
     end)
    (fun _ => new empty_frame).

Definition execute_data_query (operation : pyval) : M (option loc) :=
  try_catch
    (operation_type ← lift (get operation "type" (VStr ""));
     if is_str "statistical_summary" operation_type then
       columns ← lift (get operation "columns" (VList []));
       Some <$> _get_statistical_summary columns
     else if is_str "filter" operation_type then
       conditions ← lift (get operation "conditions" (VDict []));
       Some <$> _filter_data conditions
     else if is_str "group_by" operation_type then
       group_column ← lift (get operation "group_column" (VStr ""));
       agg_column ← lift (get operation "agg_column" (VStr ""));
       agg_function ← lift (get operation "agg_function" (VStr "count"));
       Some <$> _group_by_analysis group_column agg_column agg_function
     else if is_str "correlation" operation_type then
       columns ← lift (get operation "columns" (VList []));
       Some <$> _get_correlation_analysis columns
     else if is_str "value_counts" operation_type then
       column ← lift (get operation "column" (VStr ""));
       Some <$> _get_value_counts column
     else if is_str "custom_query" operation_type then
       query_text ← lift (get operation "query" (VStr ""));
       Some <$> _execute_custom_query query_text
     else pure None)
    (fun e => print ("Error executing data query: " ++ e);; pure None).

End Methods.

(** *** Frame conditions *)

(** From [st] to [st'] the fields of [self] are the same and every object
    that existed is as it was. *)
Definition stable (st st' : state) : Prop :=
  self_df st' = self_df st
  /\ self_column_mapping st' = self_column_mapping st
  /\ forall l, is_Some (heap st !! l) -> heap st' !! l = heap st !! l.

Definition preserves {A} (m : M A) : Prop :=
  forall st r st', m st = (r, st') -> stable st st'.

End Query.

(** ** 4.5 Plot Code Sandbox *)
Module Sandbox.
Import PyStr Pd.

(** A Python object bound by a snippet: [None], or anything else (a
    figure, a frame, a number) under an opaque name. *)
Inductive pyobj : Type :=
| NoneObj
| Object (name : string).

(** How [exec(code, safe_globals, local_vars)] ends: it completes, with
    the local bindings and what the snippet printed; or it raises, an
    exception of class [Exception] or one outside that class
    ([SystemExit], [KeyboardInterrupt], [GeneratorExit], or any class the
    snippet reaches below [BaseException]).  [text] is [str(e)]. *)
Inductive ending : Type :=
| Completes (local_vars : gmap string pyobj) (output : string)
| RaisesException (text : string)
| RaisesOther (text : string).

(** What the interpreter contributes.  [exec code df] stands for
    [exec(code, safe_globals, local_vars)] with [df] in [safe_globals].
    What a snippet does to the objects it reaches is not part of
    [ending]: the triple the sandbox returns does not depend on it. *)
Class Runtime : Type := {
  upper : string -> string;
  title : string -> string;
  exec : string -> DataFrame -> ending
}.

(** What [sys.stdout] is bound to: the stream of the caller, or the
    [StringIO] of line 92. *)
Inductive stream : Type :=
| Caller
| Buffer.

(** How a call ends for its caller: with a value, or with an exception
    that nothing in the call has caught. *)
Inductive call (A : Type) : Type :=
| Returns (a : A)
| Propagates (text : string).
Arguments Returns {A} a.
Arguments Propagates {A} text.

Definition dquote : string := String (ascii_of_nat 34) EmptyString.

(** [d[k] = v] on a dict in insertion order: a key that is present keeps
    its place. *)
Fixpoint dict_set (k v : string) (d : list (string * string)) : list (string * string) :=
  match d with
  | [] => [(k, v)]
  | (k', v') :: rest =>
      if String.eqb k' k then (k', v) :: rest else (k', v') :: dict_set k v rest
  end.

Section Sandbox.
Context `{Runtime}.

(** The filter of lines 32-37 on a trimmed line. *)
Definition keep_line (line : string) : bool :=
  negb (startswith "import" line)
  && negb (startswith "from" line)
  && negb (startswith "```" line)
  && negb (is_empty line)
  && negb (String.eqb line "python")
  && negb (String.eqb line "json").

(** Lines 27-41. *)
Definition clean (code : string) : string :=
  let code_lines := split_lines (strip code) in
  let clean_lines := List.filter keep_line (List.map strip code_lines) in
  if (1 <? List.length clean_lines)%nat then join "; " clean_lines
  else join "" clean_lines.

Definition variations (actual_col : string) : list string :=
  [ actual_col;
    lower actual_col;
    upper actual_col;
    title actual_col;
    title (replace "_" " " actual_col);
    upper (replace "_" " " actual_col);
    lower (replace "_" " " actual_col) ].

(** Lines 122-136. *)
Definition build_mapping (actual_columns : list string) : list (string * string) :=
  List.fold_left
    (fun column_mapping actual_col =>
       List.fold_left
         (fun column_mapping variation => dict_set variation actual_col column_mapping)
         (variations actual_col) column_mapping)
    actual_columns [].

Definition patterns (wrong_name : string) : list string :=
  [ "'" +:+ wrong_name +:+ "'";
    dquote +:+ wrong_name +:+ dquote;
    "['" +:+ wrong_name +:+ "']";
    "[" +:+ dquote +:+ wrong_name +:+ dquote +:+ "]" ].

(** Lines 140-152 for one item of the mapping. *)
Definition fix_one (fixed_code : string) (entry : string * string) : string :=
  let '(wrong_name, correct_name) := entry in
  if negb (String.eqb wrong_name correct_name) then
    List.fold_left
      (fun fixed_code pattern =>
         let replacement := replace wrong_name correct_name pattern in
         replace pattern replacement fixed_code)
      (patterns wrong_name) fixed_code
  else fixed_code.

(** No call of the body raises on labels that are strings, so the handler
    of line 156 is never entered. *)
Definition fix_column_names_in_code (code : string) (df : DataFrame) : string :=
  let actual_columns := columns df in
  let column_mapping := build_mapping actual_columns in
  List.fold_left fix_one column_mapping code.

(** The snippet that reaches [exec]. *)
Definition rewritten (code : string) (df : DataFrame) : string :=
  fix_column_names_in_code (clean code) df.

Definition no_fig_message : string :=
  "No 'fig' variable found in the generated code. Code executed: ".

Definition error_message (e code : string) : string :=
  "Error executing plot code: " ++ e ++ String newline "Code attempted: " ++ code.

(** The triple [(fig, output, error)]. *)
Definition outcome : Type := pyobj * string * option string.

(** Lines 25-113, with [sys.stdout] as it is on entry and on exit.  The
    handler of line 109 is [except Exception]: it restores [sys.stdout]
    and returns the triple of an error.  An exception outside that class
    passes it, and line 99 has not run. *)
Definition execute_plot_code (code : string) (df : DataFrame) (sys_stdout : stream)
    : call outcome * stream :=
  let cleaned_code := clean code in
  let cleaned_code := fix_column_names_in_code cleaned_code df in
  let old_stdout := sys_stdout in
  match exec cleaned_code df with
  | Completes local_vars output =>
      match local_vars !! "fig" with
      | Some fig => (Returns (fig, output, None), old_stdout)
      | None =>
          (Returns (NoneObj, output, Some (no_fig_message +:+ cleaned_code)), old_stdout)
      end
  | RaisesException e =>
      (Returns (NoneObj, EmptyString, Some (error_message e code)), old_stdout)
  | RaisesOther e => (Propagates e, Buffer)
  end.

End Sandbox.
End Sandbox.

(** ** Stand-ins for the library on the inputs of the examples *)
Module Demo.
Import PyStr Pd Sandbox.

Definition is_zero_digit (c : ascii) : bool := is_code 48 c.

(** [pd.to_numeric(s, errors='coerce')] on a column of short texts: a
    text of decimal digits becomes that number as a float, any other text
    becomes NaN. *)
Definition digits_to_numeric (s : Series) : Series :=
  mkSeries DFloat64
    (List.map
       (fun c =>
          match c with
          | Str t =>
              if negb (is_empty t) && sall ascii_digit t then
                let m := lstrip_by is_zero_digit t in
                Scalar ((if is_empty m then "0" else m) +:+ ".0")
              else NaN
          | Scalar t => Scalar t
          | NaN | NaT | PyNone => NaN
          end)
       (values s)).

Definition literal_char (c : ascii) : bool :=
  ascii_upper c || ascii_lower c || ascii_digit c || is_code 32 c.

(** [re.search] with [re.IGNORECASE] for a pattern of letters, digits and
    spaces: such a pattern matches itself, in any case. *)
Definition literal_search (pat : string) : res (string -> bool) :=
  if sall literal_char pat
  then Ok (fun text => contains (lower pat) (lower text))
  else Raise "pattern outside the literal fragment".

Definition demo_pandas : Pandas := {|
  to_numeric := digits_to_numeric;
  to_datetime := fun _ => Raise "not in the examples";
  describe := fun _ => Raise "not in the examples";
  select_where := fun _ _ _ _ => Raise "not in the examples";
  re_search_ignorecase := literal_search;
  str_of_container := fun _ => "[...]";
  groupby := fun _ _ _ _ => Raise "not in the examples";
  corr := fun _ => Raise "not in the examples";
  value_counts := fun _ _ => Raise "not in the examples"
|}.

Definition upper_char (c : ascii) : ascii :=
  if ascii_lower c then ascii_of_N (code c - 32) else c.

(** [str.title] on 7-bit text: a letter after a non-letter is raised, a
    letter after a letter is lowered. *)
Fixpoint title_from (after_letter : bool) (s : string) : string :=
  match s with
  | EmptyString => EmptyString
  | String c r =>
      let letter := ascii_upper c || ascii_lower c in
      String (if after_letter then lower_char c else upper_char c)
             (title_from letter r)
  end.

(** A snippet that raises [BaseException('stop')]: the class is found
    among the subclasses of [object], no name of it is needed. *)
Definition raise_base_exception : string :=
  "raise [c for c in ().__class__.__base__.__subclasses__() if c.__name__ == 'BaseException'][0]('stop')".

(** What CPython does with four snippets. *)
Definition exec_table (code : string) (df : DataFrame) : ending :=
  if String.eqb code "x = 1; y = undefined_name"
  then RaisesException "name 'undefined_name' is not defined"
  else if String.eqb code "x = 1"
  then Completes {[ "x" := Object "1" ]} EmptyString
  else if String.eqb code "fig = None"
  then Completes {[ "fig" := NoneObj ]} EmptyString
  else if String.eqb code raise_base_exception
  then RaisesOther "stop"
  else RaisesException "invalid syntax".

Definition demo_runtime : Runtime := {|
  upper := smap upper_char;
  title := title_from false;
  exec := exec_table
|}.

(** [df.pop(col)] on the table: the column leaves it, in place. *)
Definition pop_column (col : string) (t : DataFrame) : DataFrame :=
  mkFrame (nrows t) (List.filter (fun p => negb (String.eqb (fst p) col)) (cols t)).

Definition pop_name : string := "@self.df.pop('name')".

(** What the evaluation does with one text.  [@self.df.pop('name')]
    takes the column [name] out of the table of the processor; the cells
    it hands back are then looked up as row labels, which raises.  Any
    other text is outside the examples. *)
Definition evaluate_table (l : Query.loc) (q : string) (st : Query.state)
    : Query.evaluation :=
  let unchanged (e : string) :=
    Query.mkEvaluation (Raise e) ∅ (Query.self_df st) (Query.self_column_mapping st) [] in
  if String.eqb q pop_name then
    match Query.heap st !! Query.self_df st with
    | Some t =>
        if has_column t "name" then
          Query.mkEvaluation (Raise "KeyError")
            {[ Query.self_df st := pop_column "name" t ]}
            (Query.self_df st) (Query.self_column_mapping st) []
        else unchanged "KeyError: 'name'"
    | None => unchanged "dangling reference"
    end
  else unchanged "not in the examples".

Definition demo_evaluator : Query.Evaluator := {|
  Query.evaluate := evaluate_table
|}.

(** Frames of the examples, as [pd.read_excel] returns them. *)

(** One textual column of five cells, four of them numbers. *)
Definition scores : DataFrame :=
  mkFrame 5
    [("score", mkSeries DObject [Str "1"; Str "2"; Str "3"; Str "4"; Str "x"])].

Definition survey : DataFrame :=
  mkFrame 3
    [("Country", mkSeries DObject [Str "FR"; Str "DE"; Str "IT"]);
     ("Total Score", mkSeries DObject [Str "10"; Str "20"; Str "30"])].

(** Two headers of one canonical name. *)
Definition clash : DataFrame :=
  mkFrame 1
    [("A B", mkSeries DObject [Str "u"]);
     ("a_b", mkSeries DObject [Str "v"])].

(** A textual column with a missing cell. *)
Definition people : DataFrame :=
  mkFrame 2 [("name", mkSeries DObject [Str "Ann"; NaN])].

End Demo.

(** ** More frames for the examples *)
Module Examples.
Import PyStr Pd.

(** A numeric column and a textual column with a date in its name. *)
Definition sales : DataFrame :=
  mkFrame 2
    [("Units", mkSeries DInt64 [Scalar "3"; Scalar "5"]);
     ("Order Date", mkSeries DObject [Str "2024-01-05"; Str "n/a"])].

End Examples.

(** ** Conditions on the methods of the executor *)
Module QueryConditions.
Import Pd Query.

(** A computation that leaves the standard output as it is. *)
Definition quiet {A} (m : M A) : Prop :=
  forall st r st', m st = (r, st') -> stdout st' = stdout st.

(** The object a computation returns was made during it, unless it is one
    of those [keep] allows. *)
Definition returns_new (keep : loc -> Prop) (m : M loc) : Prop :=
  forall st l st', m st = (Ok l, st') ->
    (heap st !! l = None /\ is_Some (heap st' !! l)) \/ keep l.

(** A computation that unmakes no object. *)
Definition grows {A} (m : M A) : Prop :=
  forall st r st' l, m st = (r, st') -> is_Some (heap st !! l) -> is_Some (heap st' !! l).

(** The same for a computation that may return no object. *)
Definition returns_new_or_none (m : M (option loc)) : Prop :=
  forall st l st', m st = (Ok (Some l), st') ->
    heap st !! l = None /\ is_Some (heap st' !! l).

End QueryConditions.

(** ** Lists as the program reads them *)
Module PyList.

(** [bool(l)] *)
Definition nonempty {A : Type} (l : list A) : bool :=
  match l with [] => false | _ :: _ => true end.

(** [l[i]] at an index that the program has checked to be in range *)
Definition item_at (i : nat) (l : list string) : string := nth i l EmptyString.

End PyList.

(** ** Summary and context of the table (data_processor.py, lines 97-142) *)
Module Summary.
Import PyStr Pd Loader.

(** [str(dtype)] *)
Definition dtype_name (d : dtype) : string :=
  match d with
  | DObject => "object"
  | DInt64 => "int64"
  | DFloat64 => "float64"
  | DBool => "bool"
  | DDatetime => "datetime64[ns]"
  end.

Definition is_object (s : Series) : bool := dtype_eqb (dtype_of s) DObject.
Definition is_datetime (s : Series) : bool := dtype_eqb (dtype_of s) DDatetime.

(** [df.select_dtypes(include=...).columns.tolist()] for the columns
    that [keep] accepts *)
Definition select_dtypes (keep : Series -> bool) (df : DataFrame) : list string :=
  List.map fst (List.filter (fun p => keep (snd p)) (cols df)).

(** A dict built from pairs in order: a later pair replaces an earlier
    one of the same key. *)
Definition dict_of {V : Type} (pairs : list (string * V)) : gmap string V :=
  List.fold_left (fun m kv => <[fst kv := snd kv]> m) pairs ∅.

(** [s.isnull().sum()] *)
Definition count_missing (s : Series) : nat :=
  List.length (List.filter isna (values s)).

(** The dict that [get_data_summary] returns, one field per key
    ([n_columns] for the key ['columns']). *)
Record summary : Type := mkSummary {
    rows : nat;
    n_columns : nat;
    dtypes : gmap string string;
    missing_values : gmap string nat;
    numeric_columns : list string;
    categorical_columns : list string;
    datetime_columns : list string
  }.

Definition get_data_summary (self : DataProcessor) : summary :=
  let df := df self in
  mkSummary
    (nrows df)
    (List.length (columns df))
    (dict_of (List.map (fun p => (fst p, dtype_name (dtype_of (snd p)))) (cols df)))
    (dict_of (List.map (fun p => (fst p, count_missing (snd p))) (cols df)))
    (Query.numeric_columns df)
    (select_dtypes is_object df)
    (select_dtypes is_datetime df).

(** What the library prints for the cells of a column. *)
Class Display : Type := {
  (** [[str(v) for v in s.dropna().unique()[:5]]] *)
  sample_values : Series -> list string;
  (** [str(df[col].min())] *)
  min_text : item -> string;
  (** [str(df[col].max())] *)
  max_text : item -> string
}.

Definition nl : string := String newline EmptyString.

(** [d[k]] *)
Definition subscript {V : Type} (d : gmap string V) (k : string) : res V :=
  match d !! k with
  | Some v => Ok v
  | None => Raise "KeyError"
  end.

Section Describing.
Context `{Display}.

(** Lines 114-120: the text before the first column. *)
Definition context_header (summary : summary) : string :=
  nl +:+ "        Dataset Information:" +:+
  nl +:+ "        - Total rows: " +:+ str_of_nat (rows summary) +:+
  nl +:+ "        - Total columns: " +:+ str_of_nat (n_columns summary) +:+
  nl +:+ "        " +:+
  nl +:+ "        Column Details:" +:+
  nl +:+ "        ".

(** Lines 123-140: the body of the loop for one label. *)
Definition context_step (self : DataProcessor) (summary : summary)
    (context col : string) : res string :=
  let original_name := default col (column_mapping self !! col) in
  dtype ← subscript (dtypes summary) col;
  missing ← subscript (missing_values summary) col;
  let context :=
    context +:+ nl +:+ "- " +:+ original_name +:+ " (" +:+ col +:+ "): " +:+ dtype in
  let context :=
    if (0 <? missing)%nat
    then context +:+ " - " +:+ str_of_nat missing +:+ " missing values"
    else context in
  if String.eqb dtype "object" && str_in col (categorical_columns summary) then
    it ← getitem (df self) col;
    match it with
    | OneColumn s =>
        Ok (context +:+ " - Sample values: " +:+ join ", " (sample_values s))
    | SubFrame _ => Raise "'DataFrame' object has no attribute 'unique'"
    end
  else if str_in col (numeric_columns summary) then
    it ← getitem (df self) col;
    Ok (context +:+ " - Range: " +:+ min_text it +:+ " to " +:+ max_text it)
  else Ok context.

Fixpoint context_loop (self : DataProcessor) (summary : summary)
    (labels : list string) (context : string) : res string :=
  match labels with
  | [] => Ok context
  | col :: rest =>
      context ← context_step self summary context col;
      context_loop self summary rest context
  end.

Definition get_data_context (self : DataProcessor) : res string :=
  let summary := get_data_summary self in
  context_loop self summary (columns (df self)) (context_header summary).

(** The line of one column, for a label that occurs once. *)
Definition column_line (self : DataProcessor) (p : string * Series) : string :=
  "- " +:+ default (fst p) (column_mapping self !! fst p) +:+ " (" +:+ fst p +:+ "): "
  +:+ dtype_name (dtype_of (snd p))
  +:+ (if (0 <? count_missing (snd p))%nat
       then " - " +:+ str_of_nat (count_missing (snd p)) +:+ " missing values"
       else EmptyString)
  +:+ (if is_object (snd p)
       then " - Sample values: " +:+ join ", " (sample_values (snd p))
       else if Query.is_numeric (snd p)
       then " - Range: " +:+ min_text (OneColumn (snd p)) +:+ " to "
            +:+ max_text (OneColumn (snd p))
       else EmptyString).

(** The lines before the first column. *)
Definition header_lines (self : DataProcessor) : list string :=
  [ EmptyString;
    "        Dataset Information:";
    "        - Total rows: " +:+ str_of_nat (nrows (df self));
    "        - Total columns: " +:+ str_of_nat (List.length (columns (df self)));
    "        ";
    "        Column Details:";
    "        " ].

End Describing.
End Summary.

(** ** A printed table for the examples *)
Module ContextExamples.
Import PyStr Pd Loader Summary.

(** Stand-in for what the library prints, on the columns of the
    examples: the distinct texts in order of appearance; the first and
    the last cell of a column whose cells increase. *)
Definition demo_display : Display := {|
  sample_values := fun s =>
    firstn 5 (nodup string_dec (List.map astype_str (List.filter notna (values s))));
  min_text := fun it =>
    match it with
    | OneColumn s => astype_str (List.hd NaN (values s))
    | SubFrame _ => "..."
    end;
  max_text := fun it =>
    match it with
    | OneColumn s => astype_str (List.last (values s) NaN)
    | SubFrame _ => "..."
    end
|}.

(** The processor that [Demo.survey] loads to. *)
Definition survey_processor : DataProcessor :=
  mkProcessor
    (mkFrame 3
       [("country", mkSeries DObject [Str "FR"; Str "DE"; Str "IT"]);
        ("total_score", mkSeries DFloat64 [Scalar "10.0"; Scalar "20.0"; Scalar "30.0"])])
    (dict_zip ["country"; "total_score"] ["Country"; "Total Score"]).

(** A numeric column whose header names a unit between parentheses,
    and the processor it loads to. *)
Definition priced : DataFrame :=
  mkFrame 2 [("Price (USD)", mkSeries DInt64 [Scalar "3"; Scalar "5"])].

Definition priced_processor : DataProcessor :=
  mkProcessor
    (mkFrame 2 [("price_usd", mkSeries DInt64 [Scalar "3"; Scalar "5"])])
    (dict_zip ["price_usd"] ["Price (USD)"]).

End ContextExamples.

(** ** Rule-based answers (llm_handler.py, lines 323-548) *)
Module Fallback.
Import PyStr PyList Pd Sandbox.

Definition open_paren : ascii := "("%char.
Definition close_paren : ascii := ")"%char.

(** The longest run of characters other than [)] at the head of [s],
    when a [)] ends it. *)
Fixpoint until_close (s : string) : option string :=
  match s with
  | EmptyString => None
  | String c r =>
      if Ascii.eqb c close_paren then Some EmptyString
      else option_map (String c) (until_close r)
  end.

(** [re.search(r'\(([^)]+)\)', s)] and its group 1: the leftmost [(]
    followed by a non-empty run without [)] that a [)] ends. *)
Fixpoint search_paren (s : string) : option string :=
  match s with
  | EmptyString => None
  | String c r =>
      if Ascii.eqb c open_paren then
        match until_close r with
        | Some g => if is_empty g then search_paren r else Some g
        | None => search_paren r
        end
      else search_paren r
  end.

(** Lines 528-538. *)
Definition _extract_columns_from_context (data_context : string) : list string :=
  List.flat_map
    (fun line =>
       if contains " - " line && contains "(" line && contains ")" line then
         match search_paren line with
         | Some g => [g]
         | None => []
         end
       else [])
    (split_lines data_context).

(** Lines 540-548. *)
Definition _extract_numeric_columns_from_context (data_context : string) : list string :=
  List.flat_map
    (fun line =>
       if contains "int64" line || contains "float64" line then
         match search_paren line with
         | Some g => [g]
         | None => []
         end
       else [])
    (split_lines data_context).

(** The dict of an answer, one field per key; a section of a dashboard
    is its title and its description. *)
Record response : Type := mkResponse {
    answer : string;
    requires_plot : bool;
    requires_data : bool;
    requires_multiple_plots : bool;
    requires_dashboard : bool;
    data_operation : pyval;
    plot_code : string;
    plot_codes : list string;
    dashboard_sections : list (string * string)
  }.

(** [any(word in query_lower for word in words)] *)
Definition any_word (words : list string) (query_lower : string) : bool :=
  existsb (fun word => contains word query_lower) words.

Definition statistical_summary_of (numeric_columns : list string) : pyval :=
  VDict [("type", VStr "statistical_summary");
         ("columns", VList (List.map VStr numeric_columns))].

Section Rules.
Context `{Runtime}.

(** [col.replace('_', ' ').title()] *)
Definition spaced_title (col : string) : string := title (replace "_" " " col).

Definition histogram_code (col : string) : string :=
  "fig = px.histogram(df, x='" +:+ col +:+ "', title='Distribution of "
  +:+ spaced_title col +:+ "')".

Definition bar_code (heading col : string) : string :=
  "counts = df['" +:+ col
  +:+ "'].value_counts().head(10); fig = px.bar(x=counts.index, y=counts.values, title='"
  +:+ heading +:+ spaced_title col +:+ "')".

(** Lines 402-466. *)
Definition _create_fallback_dashboard (columns numeric_columns categorical_columns : list string)
    : response :=
  let plot_codes : list string := [] in
  let dashboard_sections : list (string * string) := [] in
  let '(plot_codes, dashboard_sections) :=
    if nonempty numeric_columns then
      let col := item_at 0 numeric_columns in
      (plot_codes ++ [histogram_code col],
       dashboard_sections ++
         [("Numeric Distribution", "Distribution analysis of " +:+ spaced_title col)])
    else (plot_codes, dashboard_sections) in
  let '(plot_codes, dashboard_sections) :=
    if nonempty categorical_columns then
      let col := item_at 0 categorical_columns in
      (plot_codes ++ [bar_code "Top Categories in " col],
       dashboard_sections ++
         [("Categorical Analysis", "Most frequent values in " +:+ spaced_title col)])
    else (plot_codes, dashboard_sections) in
  let '(plot_codes, dashboard_sections) :=
    if (1 <? List.length numeric_columns)%nat then
      let numeric_cols_str := "['" +:+ join "', '" numeric_columns +:+ "']" in
      (plot_codes ++
         ["numeric_df = df[" +:+ numeric_cols_str
          +:+ "]; corr_matrix = numeric_df.corr(); fig = px.imshow(corr_matrix, title='Correlation Heatmap', text_auto=True, color_continuous_scale='RdBu')"],
       dashboard_sections ++
         [("Correlation Analysis", "Relationships between numeric variables")])
    else (plot_codes, dashboard_sections) in
  let '(plot_codes, dashboard_sections) :=
    if nonempty numeric_columns then
      let col := item_at 0 numeric_columns in
      (plot_codes ++
         ["fig = px.box(df, y='" +:+ col +:+ "', title='Outlier Detection - "
          +:+ spaced_title col +:+ "')"],
       dashboard_sections ++
         [("Outlier Detection", "Box plot analysis for " +:+ spaced_title col)])
    else (plot_codes, dashboard_sections) in
  let '(plot_codes, dashboard_sections) :=
    if (2 <=? List.length numeric_columns)%nat then
      let col1 := item_at 0 numeric_columns in
      let col2 := item_at 1 numeric_columns in
      (plot_codes ++
         ["fig = px.scatter(df, x='" +:+ col1 +:+ "', y='" +:+ col2
          +:+ "', title='Relationship: " +:+ spaced_title col2 +:+ " vs "
          +:+ spaced_title col1 +:+ "')"],
       dashboard_sections ++
         [("Relationship Analysis",
           "Scatter plot showing relationship between key variables")])
    else (plot_codes, dashboard_sections) in
  mkResponse
    ("I'll create a comprehensive dashboard with " +:+ str_of_nat (List.length plot_codes)
     +:+ " key visualizations analyzing your data from multiple perspectives.")
    false true true true
    (statistical_summary_of numeric_columns)
    EmptyString plot_codes dashboard_sections.

(** Lines 468-503. *)
Definition _create_fallback_multiple_plots (query_lower : string)
    (columns numeric_columns categorical_columns : list string) : response :=
  let plot_codes : list string := [] in
  let plot_codes :=
    if contains "histogram" query_lower && nonempty numeric_columns
    then plot_codes ++ List.map histogram_code (firstn 2 numeric_columns)
    else plot_codes in
  let plot_codes :=
    if contains "bar" query_lower && nonempty categorical_columns
    then plot_codes ++ List.map (bar_code "Top Values in ") (firstn 2 categorical_columns)
    else plot_codes in
  let plot_codes :=
    if negb (nonempty plot_codes) then
      let plot_codes :=
        if nonempty numeric_columns
        then plot_codes ++ [histogram_code (item_at 0 numeric_columns)]
        else plot_codes in
      let plot_codes :=
        if nonempty categorical_columns
        then plot_codes ++ [bar_code "Categories in " (item_at 0 categorical_columns)]
        else plot_codes in
      if (2 <=? List.length numeric_columns)%nat then
        let col1 := item_at 0 numeric_columns in
        let col2 := item_at 1 numeric_columns in
        plot_codes ++
          ["fig = px.scatter(df, x='" +:+ col1 +:+ "', y='" +:+ col2
           +:+ "', title='Relationship Analysis')"]
      else plot_codes
    else plot_codes in
  mkResponse
    ("I'll create " +:+ str_of_nat (List.length plot_codes)
     +:+ " different visualizations to show various aspects of your data.")
    false false true false (VDict []) EmptyString plot_codes [].

(** Lines 505-526. *)
Definition _generate_fallback_plot_code (query_lower : string)
    (columns numeric_columns : list string) : string :=
  if negb (nonempty columns) then
    "fig = px.bar(x=['No Data'], y=[0], title='No data available for plotting')"
  else if contains "bar" query_lower && (1 <=? List.length columns)%nat then
    bar_code "Distribution of " (item_at 0 columns)
  else if contains "histogram" query_lower && nonempty numeric_columns then
    histogram_code (item_at 0 numeric_columns)
  else if contains "scatter" query_lower && (2 <=? List.length numeric_columns)%nat then
    let col1 := item_at 0 numeric_columns in
    let col2 := item_at 1 numeric_columns in
    "fig = px.scatter(df, x='" +:+ col1 +:+ "', y='" +:+ col2
    +:+ "', title='" +:+ spaced_title col2 +:+ " vs " +:+ spaced_title col1 +:+ "')"
  else
    bar_code "Top 10 values in " (item_at 0 columns).

Definition dashboard_words : list string :=
  ["dashboard"; "overview"; "summary"; "comprehensive"; "all analysis"; "complete analysis"].
Definition multiple_words : list string :=
  ["multiple"; "several"; "various"; "different charts"; "compare"].
Definition statistics_words : list string :=
  ["average"; "mean"; "median"; "sum"; "total"; "statistics"; "summary"].
Definition plot_words : list string :=
  ["chart"; "plot"; "graph"; "visualization"; "show"].
Definition filter_words : list string :=
  ["filter"; "where"; "under"; "over"; "above"; "below"].

(** Lines 323-400. *)
Definition _fallback_response (user_query data_context : string) : response :=
  let query_lower := lower user_query in
  let columns := _extract_columns_from_context data_context in
  let numeric_columns := _extract_numeric_columns_from_context data_context in
  let categorical_columns :=
    List.filter (fun col => negb (str_in col numeric_columns)) columns in
  if any_word dashboard_words query_lower then
    _create_fallback_dashboard columns numeric_columns categorical_columns
  else if any_word multiple_words query_lower then
    _create_fallback_multiple_plots query_lower columns numeric_columns categorical_columns
  else if any_word statistics_words query_lower then
    mkResponse
      "I'll calculate statistical summaries for the numeric columns in your dataset."
      false true false false
      (statistical_summary_of numeric_columns)
      EmptyString [] []
  else if any_word plot_words query_lower then
    let plot_code := _generate_fallback_plot_code query_lower columns numeric_columns in
    mkResponse
      "I'll create a visualization for your data using the available columns."
      true false false false (VDict []) plot_code [] []
  else if any_word filter_words query_lower then
    mkResponse
      "I'll filter the data based on your criteria. However, I need more specific conditions to apply the filter properly."
      false true false false
      (VDict [("type", VStr "filter"); ("conditions", VDict [])])
      EmptyString [] []
  else
    mkResponse
      "I understand you want to analyze your data, but I'm currently running in fallback mode. Please ensure the Gemini API is properly configured for more advanced query processing."
      false false false false (VDict []) EmptyString [] [].

End Rules.
End Fallback.

(** ** Plots for failed dashboard items (app.py, lines 186-212) *)
Module Dashboard.
Import PyStr PyList Pd Loader Summary.

Definition simple_histogram (col heading : string) : string :=
  "fig = px.histogram(df, x='" +:+ col +:+ "', title='" +:+ heading +:+ "')".

Definition simple_bar (col heading : string) : string :=
  "counts = df['" +:+ col
  +:+ "'].value_counts().head(5); fig = px.bar(x=counts.index, y=counts.values, title='"
  +:+ heading +:+ "')".

(** The calls of the body do not raise on a processor, so the handler of
    line 211 is never entered. *)
Definition _create_simple_fallback_plot (plot_index : nat)
    (data_processor : DataProcessor) : option string :=
  let summary := get_data_summary data_processor in
  let numeric_columns := numeric_columns summary in
  let categorical_columns := categorical_columns summary in
  if (plot_index =? 0)%nat && nonempty numeric_columns then
    Some (simple_histogram (item_at 0 numeric_columns) "Data Distribution")
  else if (plot_index =? 1)%nat && nonempty categorical_columns then
    Some (simple_bar (item_at 0 categorical_columns) "Category Distribution")
  else if (plot_index =? 2)%nat && (2 <=? List.length numeric_columns)%nat then
    Some ("fig = px.scatter(df, x='" +:+ item_at 0 numeric_columns +:+ "', y='"
          +:+ item_at 1 numeric_columns +:+ "', title='Data Relationship')")
  else if nonempty numeric_columns then
    Some (simple_histogram (item_at 0 numeric_columns) "Data Analysis")
  else if nonempty categorical_columns then
    Some (simple_bar (item_at 0 categorical_columns) "Data Analysis")
  else None.

End Dashboard.

(* ===================================================================== *)
(** * Part II: properties                                                 *)
(* ===================================================================== *)

(** ** Facts about Python strings *)
Module PyStrFacts.
Import PyStr.

(** A statement about one character is settled on the 256 of them. *)
Ltac each_char c :=
  destruct c as [[] [] [] [] [] [] [] []]; vm_compute; try reflexivity; try discriminate; auto.

Lemma sall_smap (p : ascii -> bool) (f : ascii -> ascii) (s : string) :
  sall p (smap f s) = sall (fun c => p (f c)) s.
Proof. induction s as [|c r IH]; simpl; [reflexivity | now rewrite IH]. Qed.

Lemma smap_smap (f g : ascii -> ascii) (s : string) :
  smap f (smap g s) = smap (fun c => f (g c)) s.
Proof. induction s as [|c r IH]; simpl; [reflexivity | now rewrite IH]. Qed.

Lemma smap_fixed (f : ascii -> ascii) (s : string) :
  sall (fun c => Ascii.eqb (f c) c) s = true -> smap f s = s.
Proof.
  induction s as [|c r IH]; simpl; [reflexivity|].
  intros [Hc Hr]%andb_true_iff. apply Ascii.eqb_eq in Hc. now rewrite Hc, IH.
Qed.

Lemma smap_app (f : ascii -> ascii) (a b : string) :
  smap f (a +:+ b) = smap f a +:+ smap f b.
Proof. induction a as [|c r IH]; simpl; [reflexivity | now rewrite IH]. Qed.

Lemma sall_impl (p q : ascii -> bool) (s : string) :
  (forall c, p c = true -> q c = true) -> sall p s = true -> sall q s = true.
Proof.
  intros Hpq. induction s as [|c r IH]; simpl; [reflexivity|].
  intros [Hc Hr]%andb_true_iff. rewrite (Hpq _ Hc). now apply IH.
Qed.

Lemma sany_negb_sall (p : ascii -> bool) (s : string) :
  sall (fun c => negb (p c)) s = negb (sany p s).
Proof.
  induction s as [|c r IH]; simpl; [reflexivity|].
  now rewrite IH, negb_orb.
Qed.

(** *** Stripping *)

Lemma sall_lstrip (p q : ascii -> bool) (s : string) :
  sall q s = true -> sall q (lstrip_by p s) = true.
Proof.
  induction s as [|c r IH]; simpl; [reflexivity|].
  intros Hs. destruct (p c); [|exact Hs].
  apply andb_true_iff in Hs as [_ Hr]. now apply IH.
Qed.

Lemma sall_rstrip (p q : ascii -> bool) (s : string) :
  sall q s = true -> sall q (rstrip_by p s) = true.
Proof.
  induction s as [|c r IH]; simpl; [reflexivity|].
  intros [Hc Hr]%andb_true_iff.
  destruct (p c && is_empty (rstrip_by p r)); simpl; [reflexivity|].
  now rewrite Hc, IH.
Qed.

Lemma sall_strip (p q : ascii -> bool) (s : string) :
  sall q s = true -> sall q (strip_by p s) = true.
Proof. intros Hs. unfold strip_by. now apply sall_rstrip, sall_lstrip. Qed.

Lemma rstrip_empty (p : ascii -> bool) (s : string) :
  is_empty (rstrip_by p s) = sall p s.
Proof.
  induction s as [|c r IH]; simpl; [reflexivity|].
  rewrite IH. destruct (p c), (sall p r); reflexivity.
Qed.

Lemma sall_self_lstrip (p : ascii -> bool) (s : string) :
  sall p (lstrip_by p s) = sall p s.
Proof.
  induction s as [|c r IH]; simpl; [reflexivity|].
  destruct (p c) eqn:Hc; simpl; [exact IH | now rewrite Hc].
Qed.

Lemma strip_empty (p : ascii -> bool) (s : string) :
  is_empty (strip_by p s) = sall p s.
Proof. unfold strip_by. now rewrite rstrip_empty, sall_self_lstrip. Qed.

Lemma is_empty_true (s : string) : is_empty s = true <-> s = EmptyString.
Proof. destruct s; simpl; split; congruence. Qed.

Lemma lstrip_none (p : ascii -> bool) (s : string) :
  sall (fun c => negb (p c)) s = true -> lstrip_by p s = s.
Proof.
  destruct s as [|c r]; simpl; [reflexivity|].
  intros [Hc _]%andb_true_iff. apply negb_true_iff in Hc. now rewrite Hc.
Qed.

Lemma rstrip_none (p : ascii -> bool) (s : string) :
  sall (fun c => negb (p c)) s = true -> rstrip_by p s = s.
Proof.
  induction s as [|c r IH]; simpl; [reflexivity|].
  intros [Hc Hr]%andb_true_iff. apply negb_true_iff in Hc.
  now rewrite Hc, IH.
Qed.

Lemma strip_none (p : ascii -> bool) (s : string) :
  sall (fun c => negb (p c)) s = true -> strip_by p s = s.
Proof. intros Hs. unfold strip_by. now rewrite lstrip_none, rstrip_none. Qed.

Lemma sany_lstrip (p q : ascii -> bool) (s : string) :
  (forall c, p c = true -> q c = false) ->
  sany q (lstrip_by p s) = sany q s.
Proof.
  intros Hpq. induction s as [|c r IH]; simpl; [reflexivity|].
  destruct (p c) eqn:Hc; [|reflexivity].
  now rewrite IH, (Hpq _ Hc).
Qed.

Lemma sany_rstrip (p q : ascii -> bool) (s : string) :
  (forall c, p c = true -> q c = false) ->
  sany q (rstrip_by p s) = sany q s.
Proof.
  intros Hpq. induction s as [|c r IH]; simpl; [reflexivity|].
  destruct (p c) eqn:Hc; simpl.
  - destruct (is_empty (rstrip_by p r)) eqn:He; simpl.
    + rewrite (Hpq _ Hc). simpl. rewrite <- IH.
      apply is_empty_true in He. now rewrite He.
    + now rewrite IH.
  - now rewrite IH.
Qed.

Lemma sany_strip (p q : ascii -> bool) (s : string) :
  (forall c, p c = true -> q c = false) ->
  sany q (strip_by p s) = sany q s.
Proof.
  intros Hpq. unfold strip_by. now rewrite sany_rstrip, sany_lstrip.
Qed.

(** *** Substrings *)

Lemma startswith_app (p s : string) : startswith p (p +:+ s) = true.
Proof.
  induction p as [|c r IH]; simpl; [reflexivity|].
  now rewrite Ascii.eqb_refl, IH.
Qed.

Lemma contains_prefix (p s : string) :
  startswith p s = true -> contains p s = true.
Proof. intros Hp. destruct s; simpl; now rewrite Hp. Qed.

Lemma contains_app (pre p post : string) :
  contains p (pre +:+ p +:+ post) = true.
Proof.
  induction pre as [|c r IH].
  - change (contains p (p +:+ post) = true).
    apply contains_prefix. apply startswith_app.
  - change (contains p (String c (r +:+ p +:+ post)) = true).
    simpl. rewrite IH. apply orb_true_r.
Qed.

Lemma sapp_cons (x : ascii) (r b : string) : String x r +:+ b = String x (r +:+ b).
Proof. reflexivity. Qed.

Lemma sapp_assoc (a b c : string) : (a +:+ b) +:+ c = a +:+ b +:+ c.
Proof.
  induction a as [|x r IH]; [reflexivity|].
  now rewrite !sapp_cons, IH.
Qed.

Lemma sapp_nil_r (a : string) : a +:+ EmptyString = a.
Proof.
  induction a as [|x r IH]; [reflexivity|].
  now rewrite sapp_cons, IH.
Qed.

Lemma contains_suffix (pre p : string) : contains p (pre +:+ p) = true.
Proof.
  rewrite <- (sapp_nil_r p) at 2. apply contains_app.
Qed.

End PyStrFacts.

(** ** The Column Normalizer *)
Module NormalizerFacts.
Import PyStr PyStrFacts Normalizer.

(** The character that canonicalization puts in place of [c]. *)
Local Abbreviation canon_char :=
  (fun c => if is_word (lower_char c) then lower_char c else underscore).

Lemma canon_char_canonical (c : ascii) : canonical_char (canon_char c) = true.
Proof. each_char c. Qed.

Lemma canon_char_plain (c : ascii) :
  seven_bit c = true -> plain_char (canon_char c) = true.
Proof. each_char c. Qed.

Lemma canon_char_underscore (c : ascii) :
  is_underscore (canon_char c) = negb (isalnum_char c).
Proof. each_char c. Qed.

Lemma space_not_alnum (c : ascii) : isspace c = true -> isalnum_char c = false.
Proof. each_char c. Qed.

Lemma sub_lower (s : string) : sub_nonword (lower s) = smap canon_char s.
Proof. unfold sub_nonword, lower. now rewrite smap_smap. Qed.

(** *** Runs of underscores *)

Lemma squeeze_head (s : string) :
  heads_underscore (squeeze s) = heads_underscore s.
Proof.
  induction s as [|c r IH]; simpl; [reflexivity|].
  destruct (is_underscore c) eqn:Hc; simpl.
  - destruct (heads_underscore r) eqn:Hr; simpl; [now rewrite IH | exact Hc].
  - exact Hc.
Qed.

Lemma squeeze_no_double (s : string) : doubled_underscore (squeeze s) = false.
Proof.
  induction s as [|c r IH]; simpl; [reflexivity|].
  destruct (is_underscore c && heads_underscore r) eqn:E; [exact IH|].
  simpl. now rewrite squeeze_head, E, IH.
Qed.

Lemma squeeze_id (s : string) : doubled_underscore s = false -> squeeze s = s.
Proof.
  induction s as [|c r IH]; simpl; [reflexivity|].
  intros [E Hr]%orb_false_iff. now rewrite E, IH.
Qed.

Lemma sall_squeeze (q : ascii -> bool) (s : string) :
  sall q s = true -> sall q (squeeze s) = true.
Proof.
  induction s as [|c r IH]; simpl; [reflexivity|].
  intros [Hc Hr]%andb_true_iff.
  destruct (is_underscore c && heads_underscore r); simpl; [now apply IH|].
  now rewrite Hc, IH.
Qed.

Lemma squeeze_all_underscore (s : string) :
  sall is_underscore (squeeze s) = sall is_underscore s.
Proof.
  induction s as [|c r IH]; simpl; [reflexivity|].
  destruct (is_underscore c) eqn:Hc; simpl.
  - destruct (heads_underscore r); simpl; [exact IH | now rewrite Hc, IH].
  - now rewrite Hc.
Qed.

(** *** Underscores at the ends *)

Lemma lstrip_head (s : string) :
  heads_underscore (lstrip_by is_underscore s) = false.
Proof.
  induction s as [|c r IH]; simpl; [reflexivity|].
  destruct (is_underscore c) eqn:Hc; simpl; [exact IH | exact Hc].
Qed.

Lemma rstrip_head (p : ascii -> bool) (s : string) :
  heads_underscore s = false -> heads_underscore (rstrip_by p s) = false.
Proof.
  destruct s as [|c r]; simpl; [reflexivity|].
  intros Hc. now destruct (p c && is_empty (rstrip_by p r)).
Qed.

Lemma rstrip_end (s : string) :
  ends_underscore (rstrip_by is_underscore s) = false.
Proof.
  induction s as [|c r IH]; [reflexivity|].
  cbn [rstrip_by].
  destruct (is_underscore c) eqn:Hc, (rstrip_by is_underscore r) as [|d t] eqn:Hr;
    simpl; try reflexivity; try exact Hc; exact IH.
Qed.

Lemma lstrip_no_double (p : ascii -> bool) (s : string) :
  doubled_underscore s = false -> doubled_underscore (lstrip_by p s) = false.
Proof.
  induction s as [|c r IH]; simpl; [reflexivity|].
  intros Hs. destruct (p c); [|exact Hs].
  apply orb_false_iff in Hs as [_ Hr]. now apply IH.
Qed.

Lemma rstrip_head_true (p : ascii -> bool) (s : string) :
  heads_underscore (rstrip_by p s) = true -> heads_underscore s = true.
Proof.
  destruct s as [|c r]; simpl; [discriminate|].
  now destruct (p c && is_empty (rstrip_by p r)).
Qed.

Lemma rstrip_no_double (p : ascii -> bool) (s : string) :
  doubled_underscore s = false -> doubled_underscore (rstrip_by p s) = false.
Proof.
  induction s as [|c r IH]; simpl; [reflexivity|].
  intros [E Hr]%orb_false_iff.
  destruct (p c && is_empty (rstrip_by p r)); simpl; [reflexivity|].
  rewrite (IH Hr), orb_false_r.
  destruct (is_underscore c); [|reflexivity]. simpl in *.
  destruct (heads_underscore (rstrip_by p r)) eqn:Hh; [|reflexivity].
  apply rstrip_head_true in Hh. congruence.
Qed.

Lemma lstrip_underscore_id (s : string) :
  heads_underscore s = false -> lstrip_by is_underscore s = s.
Proof. destruct s as [|c r]; simpl; [reflexivity | now intros ->]. Qed.

Lemma rstrip_underscore_id (s : string) :
  ends_underscore s = false -> rstrip_by is_underscore s = s.
Proof.
  induction s as [|c r IH]; [reflexivity|].
  cbn [rstrip_by]. destruct r as [|d t].
  - simpl. now intros ->.
  - intros He. rewrite IH by exact He.
    now rewrite andb_false_r.
Qed.

(** *** The shape of a canonical name *)

Lemma canonicalize_chars (q : ascii -> bool) (col : string) :
  sall (fun c => q (canon_char c)) (strip col) = true ->
  sall q (canonicalize col) = true.
Proof.
  intros Hq. unfold canonicalize. rewrite sub_lower.
  apply sall_strip, sall_squeeze. now rewrite sall_smap.
Qed.

Lemma sall_true (q : ascii -> bool) (s : string) :
  (forall c, q c = true) -> sall q s = true.
Proof. intros Hq. induction s; simpl; [reflexivity | now rewrite Hq]. Qed.

Lemma canonicalize_head (col : string) : heads_underscore (canonicalize col) = false.
Proof. unfold canonicalize, strip_by. apply rstrip_head, lstrip_head. Qed.

Lemma canonicalize_end (col : string) : ends_underscore (canonicalize col) = false.
Proof. unfold canonicalize, strip_by. apply rstrip_end. Qed.

Lemma canonicalize_no_double (col : string) :
  doubled_underscore (canonicalize col) = false.
Proof.
  unfold canonicalize, strip_by.
  apply rstrip_no_double, lstrip_no_double, squeeze_no_double.
Qed.

Lemma canonicalize_empty (col : string) :
  is_empty (canonicalize col) = negb (sany isalnum_char col).
Proof.
  unfold canonicalize. rewrite sub_lower, strip_empty, squeeze_all_underscore, sall_smap.
  rewrite <- (sany_strip isspace isalnum_char col space_not_alnum).
  fold (strip col). rewrite <- sany_negb_sall.
  induction (strip col) as [|c r IH]; simpl; [reflexivity|].
  now rewrite canon_char_underscore, IH.
Qed.

Lemma canonical_char_word (c : ascii) :
  canonical_char c = true -> is_word c = true.
Proof. each_char c. Qed.

Lemma canonical_char_lower (c : ascii) :
  canonical_char c = true -> Ascii.eqb (lower_char c) c = true.
Proof. each_char c. Qed.

Lemma canonical_char_no_space (c : ascii) :
  canonical_char c = true -> negb (isspace c) = true.
Proof. each_char c. Qed.

Lemma canonicalize_canonical (col : string) : is_canonical (canonicalize col) = true.
Proof.
  unfold is_canonical.
  rewrite canonicalize_head, canonicalize_end, canonicalize_no_double.
  rewrite canonicalize_chars; [reflexivity|].
  apply sall_true, canon_char_canonical.
Qed.

(** A name in canonical form is a fixed point of every step. *)
Lemma canonical_fixed (name : string) :
  is_canonical name = true -> canonicalize name = name.
Proof.
  unfold is_canonical.
  intros [[[Hc Hh%negb_true_iff]%andb_true_iff He%negb_true_iff]%andb_true_iff
            Hd%negb_true_iff]%andb_true_iff.
  unfold canonicalize, strip.
  rewrite (strip_none isspace) by (eapply sall_impl; [apply canonical_char_no_space | exact Hc]).
  unfold lower.
  rewrite smap_fixed by (eapply sall_impl; [apply canonical_char_lower | exact Hc]).
  unfold sub_nonword.
  rewrite smap_fixed.
  2:{ eapply sall_impl; [|exact Hc]. intros c Hcc.
      rewrite (canonical_char_word c Hcc). apply Ascii.eqb_refl. }
  rewrite squeeze_id by exact Hd.
  unfold strip_by.
  rewrite lstrip_underscore_id by exact Hh.
  now apply rstrip_underscore_id.
Qed.

(** *** Positions *)

Lemma map_lookup {A B} (f : A -> B) (l : list A) (i : nat) :
  List.map f l !! i = f <$> l !! i.
Proof.
  revert i. induction l as [|x l IH]; intros [|i]; simpl; try reflexivity.
  apply IH.
Qed.

Lemma repair_from_lookup (cols : list string) (k i : nat) :
  repair_from k cols !! i = repair (k + i) <$> cols !! i.
Proof.
  revert k i. induction cols as [|col rest IH]; intros k [|i]; simpl; try reflexivity.
  - now rewrite Nat.add_0_r.
  - rewrite IH. now rewrite Nat.add_succ_r.
Qed.

Lemma normalized_lookup (raw : list string) (i : nat) :
  normalized_headers raw !! i = (fun h => canonicalize (repair i h)) <$> raw !! i.
Proof.
  unfold normalized_headers, _normalize_column_names, _handle_missing_column_names.
  rewrite map_lookup, repair_from_lookup. simpl.
  now destruct (raw !! i).
Qed.

Lemma uint_seven_bit (d : Decimal.uint) :
  sall seven_bit (NilEmpty.string_of_uint d) = true.
Proof. induction d; simpl; auto. Qed.

Lemma placeholder_seven_bit (i : nat) : sall seven_bit (placeholder i) = true.
Proof. unfold placeholder, str_of_nat. simpl. apply uint_seven_bit. Qed.

Lemma placeholder_alnum (i : nat) : sany isalnum_char (placeholder i) = true.
Proof. reflexivity. Qed.

(** A header without a letter or a digit is taken for missing only when
    it is empty. *)
Lemma missing_without_alnum (s : string) :
  sany isalnum_char s = false -> is_missing s = is_empty s.
Proof.
  destruct s as [|c r]; [reflexivity|].
  simpl. intros [Hc _]%orb_false_iff. revert Hc.
  destruct c as [[] [] [] [] [] [] [] []]; vm_compute; intros Hc;
    try discriminate Hc; reflexivity.
Qed.

Lemma repair_cases (i : nat) (col : string) :
  (is_missing (strip col) = true /\ repair i col = placeholder i)
  \/ (is_missing (strip col) = false /\ repair i col = strip col).
Proof. unfold repair. destruct (is_missing (strip col)); auto. Qed.

(** *** Claims *)

(** C3, as stated, fails: the header [---] is not taken for missing and
    loses every character, so the pipeline yields the empty name. *)
Lemma names_shape_counterexample :
  ~ (forall (raw : list string) (name : string),
        In name (normalized_headers raw) -> spec_name_ok name = true).
Proof.
  intros Hall. specialize (Hall ["---"] "" (or_introl eq_refl)).
  vm_compute in Hall. discriminate Hall.
Qed.

(** C3, amended.  Every name the pipeline yields consists of underscores
    and of word characters in their lower-case form, of [[a-z0-9_]] alone
    when the header is 7-bit, and has no underscore in front, at the end
    or doubled.  It is empty exactly when the header is not blank and has
    neither a letter nor a digit. *)
Theorem names_shape (raw : list string) (i : nat) (header name : string) :
  raw !! i = Some header ->
  normalized_headers raw !! i = Some name ->
  sall canonical_char name = true
  /\ (sall seven_bit header = true -> sall plain_char name = true)
  /\ heads_underscore name = false
  /\ ends_underscore name = false
  /\ doubled_underscore name = false
  /\ (name = EmptyString <->
      strip header <> EmptyString /\ sany isalnum_char header = false).
Proof.
  intros Hh Hn. rewrite normalized_lookup, Hh in Hn. simpl in Hn.
  injection Hn as <-.
  split; [|split; [|split; [|split; [|split]]]].
  - apply canonicalize_chars, sall_true, canon_char_canonical.
  - intros H7. apply canonicalize_chars.
    apply (sall_impl seven_bit); [apply canon_char_plain|].
    apply sall_strip.
    destruct (repair_cases i header) as [[_ ->]|[_ ->]].
    + apply placeholder_seven_bit.
    + now apply sall_strip.
  - apply canonicalize_head.
  - apply canonicalize_end.
  - apply canonicalize_no_double.
  - rewrite <- is_empty_true, canonicalize_empty, negb_true_iff.
    assert (Hs : sany isalnum_char (strip header) = sany isalnum_char header)
      by apply (sany_strip isspace isalnum_char header space_not_alnum).
    destruct (repair_cases i header) as [[Hm ->]|[Hm ->]].
    + rewrite placeholder_alnum. split; [discriminate|].
      intros [Hne Ha]. rewrite <- Hs in Ha.
      rewrite (missing_without_alnum _ Ha) in Hm.
      now apply is_empty_true in Hm.
    + rewrite Hs. split; [|tauto].
      intros Ha. split; [|exact Ha].
      intros He. rewrite He in Hm. discriminate Hm.
Qed.

Lemma names_shape_witness :
  sall canonical_char "total_score" = true
  /\ (sall seven_bit "  Total Score " = true -> sall plain_char "total_score" = true)
  /\ heads_underscore "total_score" = false
  /\ ends_underscore "total_score" = false
  /\ doubled_underscore "total_score" = false
  /\ ("total_score" = EmptyString <->
      strip "  Total Score " <> EmptyString
      /\ sany isalnum_char "  Total Score " = false).
Proof.
  apply (names_shape ["Unnamed: 0"; "  Total Score "] 1 "  Total Score " "total_score");
    reflexivity.
Defined.

(** C4.  Canonicalization is idempotent, on a name and on a list of
    names. *)
Theorem canonicalize_idempotent :
  (forall x : string, canonicalize (canonicalize x) = canonicalize x)
  /\ (forall columns : list string,
        _normalize_column_names (_normalize_column_names columns)
        = _normalize_column_names columns).
Proof.
  assert (Hx : forall x, canonicalize (canonicalize x) = canonicalize x)
    by (intros x; apply canonical_fixed, canonicalize_canonical).
  split; [exact Hx|].
  intros columns. unfold _normalize_column_names.
  induction columns as [|c r IH]; simpl; [reflexivity|].
  now rewrite Hx, IH.
Qed.

(** C5, as stated, fails: the code compares the trimmed header with the
    four texts of line 45 as they are written, and [none] is not among
    them. *)
Lemma header_repair_counterexample :
  ~ (forall (cols : list string) (i : nat) (col : string),
        cols !! i = Some col ->
        _handle_missing_column_names cols !! i
        = Some (if spec_missing (strip col) then placeholder i else strip col)).
Proof.
  intros Hall. specialize (Hall ["none"] 0 "none" eq_refl).
  vm_compute in Hall. discriminate Hall.
Qed.

(** C5, amended.  The header at position [i] becomes [Column i+1] exactly
    when its trimmed text starts with [Unnamed:], is empty, is one of
    [nan], [NaN], [None] as written, or consists of digits; every other
    header is kept, trimmed. *)
Theorem header_repair (cols : list string) (i : nat) (col : string) :
  cols !! i = Some col ->
  let s := strip col in
  let generic :=
    startswith "Unnamed:" s = true
    \/ s = EmptyString \/ s = "nan" \/ s = "NaN" \/ s = "None"
    \/ (s <> EmptyString /\ sall isdigit_char s = true) in
  (generic ->
   _handle_missing_column_names cols !! i = Some ("Column " +:+ str_of_nat (i + 1)))
  /\ (~ generic -> _handle_missing_column_names cols !! i = Some s).
Proof.
  intros Hc s generic.
  unfold _handle_missing_column_names. rewrite repair_from_lookup, Hc. simpl.
  unfold repair. fold s.
  assert (Hg : is_missing s = true <-> generic).
  { unfold is_missing, generic, str_in, isdigit. cbn [existsb].
    rewrite orb_false_r, !orb_true_iff, andb_true_iff, negb_true_iff.
    rewrite !String.eqb_eq, Nat.eqb_eq.
    assert (He : is_empty s = false <-> s <> EmptyString)
      by (destruct s; simpl; split; congruence).
    assert (Hl : String.length s = 0 <-> s = EmptyString)
      by (destruct s; simpl; split; congruence).
    rewrite He, Hl. tauto. }
  split.
  - intros G. apply Hg in G. now rewrite G.
  - intros G. destruct (is_missing s) eqn:E; [|reflexivity].
    exfalso. apply G, Hg. reflexivity.
Qed.

Lemma header_repair_witness :
  let s := strip "Unnamed: 0" in
  let generic :=
    startswith "Unnamed:" s = true
    \/ s = EmptyString \/ s = "nan" \/ s = "NaN" \/ s = "None"
    \/ (s <> EmptyString /\ sall isdigit_char s = true) in
  (generic ->
   _handle_missing_column_names ["Unnamed: 0"; " Name "] !! 0
   = Some ("Column " +:+ str_of_nat (0 + 1)))
  /\ (~ generic ->
      _handle_missing_column_names ["Unnamed: 0"; " Name "] !! 0 = Some s).
Proof.
  apply (header_repair ["Unnamed: 0"; " Name "] 0 "Unnamed: 0"). reflexivity.
Defined.

End NormalizerFacts.

(** ** The Table Loader/Cleaner *)
Module LoaderFacts.
Import PyStr PyStrFacts Pd Normalizer NormalizerFacts Loader.

Section Cleaning.
Context `{Pandas}.

(** What the first loop leaves of a column of a frame of [n] rows. *)
Local Abbreviation numeric_pass n :=
  (fun (_ : string) (s : Series) =>
     if dtype_eqb (dtype_of s) DObject
        && negb (forallb isna (values (to_numeric s)))
        && above_80_percent (count_notna (to_numeric s)) n
     then to_numeric s else s).

(** What the second loop leaves of a column. *)
Local Abbreviation date_pass :=
  (fun (name : string) (s : Series) =>
     if contains "date" (lower name) || contains "time" (lower name)
     then match to_datetime s with Ok s' => s' | Raise _ => s end
     else s).

(** [f] applied to the columns labelled [col]. *)
Local Abbreviation update col f df :=
  (mkFrame (nrows df)
     (List.map (fun p => if String.eqb (fst p) col then (fst p, f (fst p) (snd p)) else p)
        (cols df))).

Lemma labelled_count (df : DataFrame) (col : string) :
  List.length (labelled col df) = count_occ string_dec (columns df) col.
Proof.
  unfold labelled, columns. induction (cols df) as [|[n s] r IH]; simpl; [reflexivity|].
  destruct (string_dec n col) as [->|Hne].
  - rewrite String.eqb_refl. simpl. now rewrite IH.
  - apply String.eqb_neq in Hne. now rewrite Hne.
Qed.

Lemma columns_update col f df : columns (update col f df) = columns df.
Proof.
  unfold columns. simpl. rewrite List.map_map. apply List.map_ext.
  intros p. now destruct (String.eqb (fst p) col).
Qed.

Lemma setitem_update (df : DataFrame) (col : string) (s x : Series) f :
  labelled col df = [s] -> f col s = x -> setitem df col x = update col f df.
Proof.
  intros Hl Hx. unfold setitem. f_equal.
  unfold labelled in Hl. induction (cols df) as [|[n y] r IH]; simpl in *; [reflexivity|].
  destruct (String.eqb n col) eqn:E; simpl in *.
  - apply String.eqb_eq in E. subst n. injection Hl as -> Hr.
    rewrite Hx. f_equal.
    clear IH. induction r as [|[n' y'] r IH]; simpl in *; [reflexivity|].
    destruct (String.eqb n' col); simpl in *; [discriminate Hr|].
    now rewrite IH.
  - now rewrite IH.
Qed.

Lemma same_update (df : DataFrame) (col : string) (s : Series) f :
  labelled col df = [s] -> f col s = s -> df = update col f df.
Proof.
  intros Hl Hx. destruct df as [n cs]. simpl. f_equal.
  unfold labelled in Hl. simpl in Hl.
  induction cs as [|[n' y] r IH]; simpl in *; [reflexivity|].
  destruct (String.eqb n' col) eqn:E; simpl in *.
  - apply String.eqb_eq in E. subst n'. injection Hl as -> Hr.
    rewrite Hx. f_equal.
    clear IH. induction r as [|[n' y'] r IH]; simpl in *; [reflexivity|].
    destruct (String.eqb n' col); simpl in *; [discriminate Hr|].
    now rewrite <- IH.
  - now rewrite <- IH.
Qed.

(** One turn of the first loop: it raises on a repeated label and
    rewrites the column otherwise. *)
Lemma numeric_step_once (df : DataFrame) (col : string) (s : Series) :
  labelled col df = [s] ->
  numeric_step df col = Ok (update col (numeric_pass (nrows df)) df).
Proof.
  intros Hl. unfold numeric_step, getitem. rewrite Hl. simpl.
  destruct (dtype_eqb (dtype_of s) DObject) eqn:Ed; simpl.
  2:{ f_equal. apply (same_update df col s (numeric_pass (nrows df))); [exact Hl|].
      simpl. now rewrite Ed. }
  destruct (forallb isna (values (to_numeric s))) eqn:Ea; simpl.
  { f_equal. apply (same_update df col s (numeric_pass (nrows df))); [exact Hl|].
    simpl. now rewrite Ed, Ea. }
  destruct (above_80_percent (count_notna (to_numeric s)) (nrows df)) eqn:Eb.
  - f_equal. apply (setitem_update df col s _ (numeric_pass (nrows df))); [exact Hl|].
    simpl. now rewrite Ed, Ea, Eb.
  - f_equal. apply (same_update df col s (numeric_pass (nrows df))); [exact Hl|].
    simpl. now rewrite Ed, Ea, Eb.
Qed.

Lemma numeric_step_repeated (df : DataFrame) (col : string) :
  (1 < List.length (labelled col df))%nat ->
  exists msg, numeric_step df col = Raise msg.
Proof.
  intros Hl. unfold numeric_step, getitem.
  destruct (labelled col df) as [|s [|s' r]]; simpl in Hl; try lia.
  simpl. eauto.
Qed.

Lemma date_step_once (df : DataFrame) (col : string) (s : Series) :
  labelled col df = [s] ->
  date_step df col = Ok (update col date_pass df).
Proof.
  intros Hl. unfold date_step, getitem. rewrite Hl.
  destruct (contains "date" (lower col) || contains "time" (lower col)) eqn:E.
  - simpl. destruct (to_datetime s) as [s'|msg] eqn:Et; simpl.
    + f_equal. apply (setitem_update df col s _ date_pass); [exact Hl|].
      simpl. now rewrite E, Et.
    + f_equal. apply (same_update df col s date_pass); [exact Hl|].
      simpl. now rewrite E, Et.
  - f_equal. apply (same_update df col s date_pass); [exact Hl|]. simpl. now rewrite E.
Qed.

(** *** The loops *)

Lemma str_in_In (x : string) (l : list string) : str_in x l = true <-> In x l.
Proof.
  unfold str_in. rewrite existsb_exists. split.
  - intros [y [Hy E]]. apply String.eqb_eq in E. now subst.
  - intros Hx. exists x. split; [exact Hx | apply String.eqb_refl].
Qed.

Lemma unique_label (df : DataFrame) (col : string) :
  count_occ string_dec (columns df) col = 1 -> exists s, labelled col df = [s].
Proof.
  rewrite <- labelled_count.
  destruct (labelled col df) as [|s [|s' r]]; simpl; try discriminate. eauto.
Qed.

(** A loop over labels that occur once applies [f] to each of them. *)
Lemma for_each_unique (step : DataFrame -> string -> res DataFrame)
    (f : string -> Series -> Series) (n : nat) :
  (forall df col s, nrows df = n -> labelled col df = [s] ->
                    step df col = Ok (update col f df)) ->
  forall (labels : list string) (df : DataFrame),
    nrows df = n -> List.NoDup labels ->
    (forall l, In l labels -> count_occ string_dec (columns df) l = 1) ->
    for_each step labels df
    = Ok (mkFrame n
            (List.map
               (fun p => if str_in (fst p) labels then (fst p, f (fst p) (snd p)) else p)
               (cols df))).
Proof.
  intros Hstep labels. induction labels as [|c rest IH]; intros df Hn Hnd Hocc.
  - simpl. destruct df as [m cs]. simpl in *. subst m. now rewrite List.map_id.
  - simpl. inversion Hnd as [|? ? Hc Hrest]; subst.
    destruct (unique_label df c) as [s Hs]; [apply Hocc; now left|].
    rewrite (Hstep df c s eq_refl Hs). simpl.
    rewrite IH; [|reflexivity|exact Hrest|].
    2:{ intros l Hl. rewrite columns_update. apply Hocc. now right. }
    simpl. f_equal. f_equal. rewrite List.map_map. apply List.map_ext.
    intros [name x]. simpl.
    destruct (String.eqb name c) eqn:E; simpl.
    + apply String.eqb_eq in E. subst name.
      destruct (str_in c rest) eqn:Ein; [|reflexivity].
      apply str_in_In in Ein. contradiction.
    + unfold str_in. simpl. rewrite ?E. reflexivity.
Qed.

Lemma numeric_loop_unique (df : DataFrame) (labels : list string) :
  List.NoDup labels ->
  (forall l, In l labels -> count_occ string_dec (columns df) l = 1) ->
  for_each numeric_step labels df
  = Ok (mkFrame (nrows df)
          (List.map
             (fun p => if str_in (fst p) labels
                       then (fst p, numeric_pass (nrows df) (fst p) (snd p)) else p)
             (cols df))).
Proof.
  intros Hnd Hocc.
  apply (for_each_unique numeric_step (numeric_pass (nrows df)) (nrows df));
    try assumption; try reflexivity.
  intros d col s Hn Hs. rewrite (numeric_step_once d col s Hs). now rewrite Hn.
Qed.

Lemma date_loop_unique (df : DataFrame) (labels : list string) :
  List.NoDup labels ->
  (forall l, In l labels -> count_occ string_dec (columns df) l = 1) ->
  for_each date_step labels df
  = Ok (mkFrame (nrows df)
          (List.map
             (fun p => if str_in (fst p) labels
                       then (fst p, date_pass (fst p) (snd p)) else p)
             (cols df))).
Proof.
  intros Hnd Hocc.
  apply (for_each_unique date_step date_pass (nrows df));
    try assumption; try reflexivity.
  intros d col s Hn Hs. apply (date_step_once d col s Hs).
Qed.

(** The first loop does not survive a label that occurs twice. *)
Lemma numeric_loop_repeated (labels : list string) (df : DataFrame) (l : string) :
  In l labels ->
  (1 < count_occ string_dec (columns df) l)%nat ->
  exists msg, for_each numeric_step labels df = Raise msg.
Proof.
  revert df. induction labels as [|c rest IH]; intros df Hin Hocc; [contradiction|].
  simpl.
  destruct (labelled c df) as [|s [|s' r]] eqn:Hl.
  - unfold numeric_step, getitem. rewrite Hl. simpl. eauto.
  - rewrite (numeric_step_once df c s Hl).
    change (exists msg,
               for_each numeric_step rest (update c (numeric_pass (nrows df)) df)
               = Raise msg).
    destruct Hin as [->|Hin].
    + rewrite <- labelled_count, Hl in Hocc. simpl in Hocc. lia.
    + apply IH; [exact Hin|].
      now rewrite (columns_update c (numeric_pass (nrows df)) df).
  - destruct (numeric_step_repeated df c) as [msg Hm].
    + rewrite Hl. simpl. lia.
    + rewrite Hm. simpl. eauto.
Qed.

Lemma count_occ_columns (df : DataFrame) (l : string) :
  List.NoDup (columns df) -> In l (columns df) ->
  count_occ string_dec (columns df) l = 1.
Proof. intros Hnd. now apply NoDup_count_occ'. Qed.

(** What [_clean_data] makes of a frame whose labels are distinct. *)
Lemma clean_data_distinct (df : DataFrame) :
  List.NoDup (columns df) ->
  _clean_data df
  = Ok (mkFrame (nrows df)
          (List.map
             (fun p => (fst p, date_pass (fst p) (numeric_pass (nrows df) (fst p) (snd p))))
             (cols df))).
Proof.
  intros Hnd. unfold _clean_data.
  rewrite (numeric_loop_unique df (columns df) Hnd)
    by (intros l Hl; now apply count_occ_columns).
  set (g := fun p : string * Series =>
              if str_in (fst p) (columns df)
              then (fst p, numeric_pass (nrows df) (fst p) (snd p)) else p).
  set (df1 := mkFrame (nrows df) (List.map g (cols df))).
  change (for_each date_step (columns df1) df1 = Ok
            (mkFrame (nrows df)
               (List.map
                  (fun p => (fst p, date_pass (fst p) (numeric_pass (nrows df) (fst p) (snd p))))
                  (cols df)))).
  assert (Hcols : columns df1 = columns df).
  { unfold columns, df1. simpl. rewrite List.map_map. apply List.map_ext.
    intros p. unfold g. now destruct (str_in (fst p) (columns df)). }
  rewrite Hcols.
  rewrite (date_loop_unique df1 (columns df) Hnd).
  2:{ intros l Hl. rewrite Hcols. now apply count_occ_columns. }
  unfold df1. simpl. f_equal. f_equal. rewrite List.map_map.
  apply List.map_ext_in. intros [name s] Hp. unfold g. simpl.
  assert (Hin : str_in name (columns df) = true).
  { apply str_in_In. unfold columns. apply in_map_iff. now exists (name, s). }
  rewrite Hin. simpl. now rewrite Hin.
Qed.

(** [_clean_data] raises when a label occurs twice. *)
Lemma clean_data_repeated (df : DataFrame) (l : string) :
  (1 < count_occ string_dec (columns df) l)%nat ->
  exists msg, _clean_data df = Raise msg.
Proof.
  intros Hocc. unfold _clean_data.
  destruct (numeric_loop_repeated (columns df) df l) as [msg Hm].
  - apply (count_occ_In string_dec). lia.
  - exact Hocc.
  - rewrite Hm. simpl. eauto.
Qed.

Lemma clean_data_labels (df df' : DataFrame) :
  _clean_data df = Ok df' -> List.NoDup (columns df).
Proof.
  intros Hok. apply (NoDup_count_occ' string_dec). intros l Hl.
  pose proof (proj1 (count_occ_In string_dec _ _) Hl) as Hpos.
  destruct (Nat.eq_dec (count_occ string_dec (columns df) l) 1) as [E|E]; [exact E|].
  destruct (clean_data_repeated df l) as [msg Hm]; [lia|]. congruence.
Qed.

Lemma count_notna_positive (s : Series) :
  (0 < count_notna s)%nat -> forallb isna (values s) = false.
Proof.
  unfold count_notna, notna. induction (values s) as [|c r IH]; simpl; [lia|].
  destruct (isna c); simpl; [exact IH | reflexivity].
Qed.

(** *** Claim C6 *)

(** C6, amended.  When loading cleans a table, a textual column whose name
    contains neither [date] nor [time] is replaced by its numeric coercion
    exactly when strictly more than 80% of the rows convert (5 k > 4 n for
    k converted cells of n rows); otherwise it is retained as it was. *)
Theorem numeric_coercion_threshold
    (df df' : DataFrame) (i : nat) (name : string) (s : Series) :
  _clean_data df = Ok df' ->
  cols df !! i = Some (name, s) ->
  dtype_of s = DObject ->
  contains "date" (lower name) = false ->
  contains "time" (lower name) = false ->
  let k := count_notna (to_numeric s) in
  ((4 * nrows df < 5 * k)%nat -> cols df' !! i = Some (name, to_numeric s))
  /\ ((5 * k <= 4 * nrows df)%nat -> cols df' !! i = Some (name, s)).
Proof.
  intros Hok Hi Hd Hdate Htime k.
  pose proof (clean_data_labels df df' Hok) as Hnd.
  rewrite (clean_data_distinct df Hnd) in Hok. injection Hok as <-.
  cbn [cols]. rewrite map_lookup, Hi. cbn [fmap option_fmap option_map fst snd].
  rewrite Hdate, Htime, Hd. cbn [orb dtype_eqb andb]. fold k.
  unfold above_80_percent. split; intros Hk.
  - rewrite (count_notna_positive (to_numeric s)) by (fold k; lia).
    cbn [negb]. now rewrite (proj2 (Nat.ltb_lt _ _) Hk).
  - rewrite (proj2 (Nat.ltb_ge _ _) Hk). now rewrite andb_false_r.
Qed.

(** *** Claim C9 *)

Lemma fst_combine {A B} (l : list A) (l' : list B) :
  List.length l = List.length l' -> List.map fst (List.combine l l') = l.
Proof.
  revert l'. induction l as [|x l IH]; intros [|y l']; simpl; try discriminate;
    [reflexivity|]. intros [= E]. now rewrite IH.
Qed.

Lemma columns_set_columns (df : DataFrame) (names : list string) :
  List.length names = List.length (cols df) ->
  columns (set_columns df names) = names.
Proof.
  intros Hl. unfold columns, set_columns. simpl.
  apply fst_combine. now rewrite List.length_map.
Qed.

Lemma repair_from_length (k : nat) (cols : list string) :
  List.length (repair_from k cols) = List.length cols.
Proof. revert k. induction cols; intros k; simpl; [reflexivity | now rewrite IHcols]. Qed.

(** The labels that reach [_clean_data]. *)
Lemma loaded_labels (original : DataFrame) :
  let df := set_columns original (_handle_missing_column_names (columns original)) in
  columns (set_columns df (_normalize_column_names (columns df)))
  = normalized_headers (columns original).
Proof.
  intros df.
  assert (Hc : columns df = _handle_missing_column_names (columns original)).
  { apply columns_set_columns. unfold _handle_missing_column_names, columns.
    now rewrite repair_from_length, List.length_map. }
  rewrite columns_set_columns.
  - now rewrite Hc.
  - unfold _normalize_column_names. rewrite List.length_map.
    unfold columns. now rewrite List.length_map.
Qed.

Local Abbreviation put :=
  (fun (m : gmap string string) (kv : string * string) => <[kv.1 := kv.2]> m).

Lemma put_all_other (kvs : list (string * string)) (m : gmap string string) (k : string) :
  ~ In k (List.map fst kvs) -> List.fold_left put kvs m !! k = m !! k.
Proof.
  revert m. induction kvs as [|[k' v'] r IH]; intros m Hk; simpl; [reflexivity|].
  simpl in Hk. rewrite IH by tauto. simpl.
  apply lookup_insert_ne. tauto.
Qed.

Lemma put_all_member (kvs : list (string * string)) (m : gmap string string)
    (k v : string) :
  List.NoDup (List.map fst kvs) -> In (k, v) kvs ->
  List.fold_left put kvs m !! k = Some v.
Proof.
  revert m. induction kvs as [|[k' v'] r IH]; intros m Hnd Hin; [contradiction|].
  simpl in *. inversion Hnd as [|? ? Hk' Hr]; subst.
  destruct Hin as [[= -> ->]|Hin].
  - rewrite put_all_other by exact Hk'. simpl. apply lookup_insert_eq.
  - now apply IH.
Qed.

Lemma put_all_size (kvs : list (string * string)) (m : gmap string string) :
  List.NoDup (List.map fst kvs) ->
  (forall k, In k (List.map fst kvs) -> m !! k = None) ->
  size (List.fold_left put kvs m) = (size m + List.length kvs)%nat.
Proof.
  revert m. induction kvs as [|[k' v'] r IH]; intros m Hnd Hm; simpl; [lia|].
  simpl in *. inversion Hnd as [|? ? Hk' Hr]; subst.
  rewrite IH; [|exact Hr|].
  - rewrite map_size_insert_None by (apply Hm; now left). lia.
  - intros k Hk. rewrite lookup_insert_ne; [apply Hm; now right|].
    intros ->. contradiction.
Qed.

Lemma combine_lookup {A B} (l : list A) (l' : list B) (i : nat) (x : A) (y : B) :
  l !! i = Some x -> l' !! i = Some y -> In (x, y) (List.combine l l').
Proof.
  revert l' i. induction l as [|a l IH]; intros [|b l'] [|i]; simpl; try discriminate.
  - intros [= ->] [= ->]. now left.
  - intros Hx Hy. right. eapply IH; eassumption.
Qed.

Lemma In_lookup {A} (l : list A) (x : A) : In x l -> exists i, l !! i = Some x.
Proof.
  induction l as [|a l IH]; [contradiction|].
  intros [->|Hin]; [now exists 0%nat|].
  destruct (IH Hin) as [i Hi]. now exists (S i).
Qed.

(** A load that succeeds went through [_clean_data] with the normalized
    headers as labels. *)
Lemma init_inversion (original : DataFrame) (dp : DataProcessor) :
  init (Ok original) = Ok dp ->
  columns (df dp) = normalized_headers (columns original)
  /\ List.NoDup (normalized_headers (columns original))
  /\ column_mapping dp
     = dict_zip (normalized_headers (columns original)) (columns original).
Proof.
  unfold init, _load_and_process_excel, _create_column_mapping. simpl.
  set (df0 := set_columns original (_handle_missing_column_names (columns original))).
  set (df1 := set_columns df0 (_normalize_column_names (columns df0))).
  pose proof (loaded_labels original) as Hl. simpl in Hl. fold df0 df1 in Hl.
  destruct (_clean_data df1) as [df2|msg] eqn:Hc; simpl; [|discriminate].
  intros [= <-]. simpl.
  pose proof (clean_data_labels df1 df2 Hc) as Hnd.
  rewrite (clean_data_distinct df1 Hnd) in Hc. injection Hc as <-.
  assert (Hcols : forall g : string * Series -> Series,
            columns (mkFrame (nrows df1) (List.map (fun p => (fst p, g p)) (cols df1)))
            = columns df1).
  { intros g. unfold columns. simpl. now rewrite List.map_map. }
  rewrite Hcols, Hl. rewrite Hl in Hnd. auto.
Qed.

Lemma column_mapping_entries (original : DataFrame) (dp : DataProcessor) :
  init (Ok original) = Ok dp ->
  size (column_mapping dp) = List.length (columns (df dp))
  /\ List.NoDup (columns (df dp))
  /\ (forall (i : nat) (name : string),
        columns (df dp) !! i = Some name ->
        exists header, columns original !! i = Some header
                       /\ column_mapping dp !! name = Some header)
  /\ (forall name header : string,
        column_mapping dp !! name = Some header ->
        exists i, columns (df dp) !! i = Some name
                  /\ columns original !! i = Some header).
Proof.
  intros Hinit. destruct (init_inversion original dp Hinit) as (Hc & Hnd & Hm).
  rewrite Hc, Hm. clear Hc Hm Hinit dp.
  set (names := normalized_headers (columns original)) in *.
  set (headers := columns original).
  assert (Hlen : List.length names = List.length headers).
  { unfold names, normalized_headers, _normalize_column_names,
      _handle_missing_column_names.
    now rewrite List.length_map, repair_from_length. }
  assert (Hkeys : List.map fst (List.combine names headers) = names)
    by now apply fst_combine.
  unfold dict_zip. repeat split.
  - rewrite put_all_size.
    + rewrite map_size_empty, List.length_combine. lia.
    + now rewrite Hkeys.
    + intros k _. apply lookup_empty.
  - exact Hnd.
  - intros i name Hi.
    destruct (headers !! i) as [header|] eqn:Hh.
    + exists header. split; [reflexivity|].
      apply put_all_member; [now rewrite Hkeys|].
      now apply (combine_lookup names headers i).
    + apply lookup_lt_Some in Hi. apply lookup_ge_None in Hh.
      lia.
  - intros name header Hl.
    destruct (in_dec string_dec name names) as [Hin|Hout].
    + apply In_lookup in Hin as [i Hi']. exists i.
      split; [exact Hi'|].
      destruct (headers !! i) as [h|] eqn:Hh.
      * rewrite (put_all_member _ _ name h) in Hl;
          [congruence | now rewrite Hkeys | now apply (combine_lookup names headers i)].
      * apply lookup_lt_Some in Hi'. apply lookup_ge_None in Hh.
        lia.
    + rewrite put_all_other in Hl by now rewrite Hkeys.
      rewrite lookup_empty in Hl. discriminate Hl.
Qed.

(** C9.  After a load that succeeds the column names are distinct, the
    mapping has one entry per column, and it pairs the name of every
    column with the original header at the same position, and nothing
    else; distinct names have distinct headers when the headers of the
    upload are distinct. *)
Theorem column_mapping_positional (original : DataFrame) (dp : DataProcessor) :
  init (Ok original) = Ok dp ->
  size (column_mapping dp) = List.length (columns (df dp))
  /\ List.NoDup (columns (df dp))
  /\ (forall (i : nat) (name : string),
        columns (df dp) !! i = Some name ->
        exists header, columns original !! i = Some header
                       /\ column_mapping dp !! name = Some header)
  /\ (forall name header : string,
        column_mapping dp !! name = Some header ->
        exists i, columns (df dp) !! i = Some name
                  /\ columns original !! i = Some header)
  /\ (List.NoDup (columns original) ->
      forall name name' header : string,
        column_mapping dp !! name = Some header ->
        column_mapping dp !! name' = Some header ->
        name = name').
Proof.
  intros Hinit.
  destruct (column_mapping_entries original dp Hinit) as (Hsize & Hnd & Hpos & Hent).
  repeat split; try assumption.
  intros Hheaders name name' header Hn Hn'.
  destruct (Hent _ _ Hn) as (i & Hi & Hh).
  destruct (Hent _ _ Hn') as (j & Hj & Hh').
  apply NoDup_ListNoDup in Hheaders.
  pose proof (NoDup_lookup _ _ _ _ Hheaders Hh Hh') as ->.
  congruence.
Qed.

(** A table with two headers of one canonical name does not load. *)
Lemma collision_aborts (original : DataFrame) (l : string) :
  (1 < count_occ string_dec (normalized_headers (columns original)) l)%nat ->
  exists msg, init (Ok original) = Raise msg.
Proof.
  intros Hocc. unfold init, _load_and_process_excel. simpl.
  pose proof (loaded_labels original) as Hl. simpl in Hl.
  destruct (clean_data_repeated _ l ltac:(rewrite Hl; exact Hocc)) as [msg Hm].
  rewrite Hm. simpl. eauto.
Qed.

End Cleaning.

(** C6, as stated, fails at exactly 80%: four of the five cells of
    [score] convert, and line 84 asks for more than 0.8. *)
Lemma numeric_coercion_counterexample :
  ~ (forall (P : Pandas) (df df' : DataFrame) (i : nat) (name : string) (s : Series),
        _clean_data df = Ok df' ->
        cols df !! i = Some (name, s) ->
        dtype_of s = DObject ->
        (4 * nrows df <= 5 * count_notna (to_numeric s))%nat ->
        cols df' !! i = Some (name, to_numeric s)).
Proof.
  intros Hall.
  specialize (Hall Demo.demo_pandas Demo.scores Demo.scores 0%nat "score"
                (mkSeries DObject [Str "1"; Str "2"; Str "3"; Str "4"; Str "x"])
                eq_refl eq_refl eq_refl).
  assert (Hk : (4 * nrows Demo.scores
                <= 5 * count_notna
                         (@to_numeric Demo.demo_pandas
                            (mkSeries DObject
                               [Str "1"; Str "2"; Str "3"; Str "4"; Str "x"])))%nat)
    by (vm_compute; lia).
  specialize (Hall Hk). vm_compute in Hall. discriminate Hall.
Qed.

Lemma numeric_coercion_witness :
  let s := mkSeries DObject [Str "10"; Str "20"; Str "30"] in
  let df := mkFrame 3 [("total_score", s)] in
  let df' := mkFrame 3 [("total_score", @to_numeric Demo.demo_pandas s)] in
  let k := count_notna (@to_numeric Demo.demo_pandas s) in
  ((4 * nrows df < 5 * k)%nat ->
   cols df' !! 0%nat = Some ("total_score", @to_numeric Demo.demo_pandas s))
  /\ ((5 * k <= 4 * nrows df)%nat -> cols df' !! 0%nat = Some ("total_score", s)).
Proof.
  intros s df df'.
  apply (@numeric_coercion_threshold Demo.demo_pandas df df' 0 "total_score" s);
    reflexivity.
Defined.

Lemma column_mapping_witness :
  let dp :=
    mkProcessor
      (mkFrame 3
         [("country", mkSeries DObject [Str "FR"; Str "DE"; Str "IT"]);
          ("total_score",
           mkSeries DFloat64 [Scalar "10.0"; Scalar "20.0"; Scalar "30.0"])])
      (dict_zip ["country"; "total_score"] ["Country"; "Total Score"]) in
  size (column_mapping dp) = List.length (columns (df dp))
  /\ List.NoDup (columns (df dp))
  /\ (forall (i : nat) (name : string),
        columns (df dp) !! i = Some name ->
        exists header, columns Demo.survey !! i = Some header
                       /\ column_mapping dp !! name = Some header)
  /\ (forall name header : string,
        column_mapping dp !! name = Some header ->
        exists i, columns (df dp) !! i = Some name
                  /\ columns Demo.survey !! i = Some header)
  /\ (List.NoDup (columns Demo.survey) ->
      forall name name' header : string,
        column_mapping dp !! name = Some header ->
        column_mapping dp !! name' = Some header ->
        name = name').
Proof.
  intros dp.
  apply (@column_mapping_positional Demo.demo_pandas Demo.survey dp).
  vm_compute. reflexivity.
Defined.

(** On its own [dict(zip(...))] keeps one entry for a key that comes
    twice. *)
Example mapping_of_repeated_labels :
  size (dict_zip ["a_b"; "a_b"] ["A B"; "a_b"]) = 1%nat
  /\ dict_zip ["a_b"; "a_b"] ["A B"; "a_b"] !! "a_b" = Some "a_b".
Proof. split; vm_compute; reflexivity. Qed.

(** Such keys never reach it: the headers [A B] and [a_b] meet in [a_b],
    and the load stops at line 79. *)
Example clash_does_not_load :
  @init Demo.demo_pandas (Ok Demo.clash)
  = Raise "Error loading Excel file: 'DataFrame' object has no attribute 'dtype'".
Proof. reflexivity. Qed.

End LoaderFacts.

(** ** The Data Query Executor *)
Module QueryFacts.
Import PyStr PyStrFacts Pd Query.

(** *** The store *)

Lemma stable_refl (st : state) : stable st st.
Proof. unfold stable. auto. Qed.

Lemma stable_trans (a b c : state) : stable a b -> stable b c -> stable a c.
Proof.
  intros (Hd & Hm & Hh) (Hd' & Hm' & Hh'). unfold stable. repeat split; try congruence.
  intros l Hl. rewrite Hh'; [now apply Hh|]. now rewrite Hh.
Qed.

Lemma fresh_unused (h : gmap loc DataFrame) : h !! fresh (dom h) = None.
Proof. apply not_elem_of_dom, is_fresh. Qed.

Lemma preserves_pure {A} (a : A) : preserves (pure a).
Proof. intros st r st' [= _ <-]. apply stable_refl. Qed.

Lemma preserves_lift {A} (x : res A) : preserves (lift x).
Proof. intros st r st' [= _ <-]. apply stable_refl. Qed.

Lemma preserves_get_self_df : preserves get_self_df.
Proof. intros st r st' [= _ <-]. apply stable_refl. Qed.

Lemma preserves_read (l : loc) : preserves (read l).
Proof.
  intros st r st'. unfold read. destruct (heap st !! l); intros [= _ <-]; apply stable_refl.
Qed.

Lemma preserves_print (line : string) : preserves (print line).
Proof.
  intros st r st' [= _ <-]. unfold stable. simpl. auto.
Qed.

Lemma preserves_new (t : DataFrame) : preserves (new t).
Proof.
  intros st r st' [= _ <-]. unfold stable. simpl. repeat split.
  intros l [x Hl]. apply lookup_insert_ne. intros E. subst l.
  rewrite fresh_unused in Hl. discriminate Hl.
Qed.

Lemma preserves_bind {A B} (m : M A) (f : A -> M B) :
  preserves m -> (forall a, preserves (f a)) -> preserves (m ≫= f).
Proof.
  intros Hm Hf st r st'. unfold mbind, M_bind.
  destruct (m st) as [[a|msg] st1] eqn:E.
  - intros Hk. eapply stable_trans; [eapply Hm, E | eapply Hf, Hk].
  - intros [= _ <-]. eapply Hm, E.
Qed.

Lemma preserves_fmap {A B} (g : A -> B) (m : M A) :
  preserves m -> preserves (g <$> m).
Proof.
  intros Hm st r st'. unfold fmap, M_fmap.
  destruct (m st) as [[a|msg] st1] eqn:E; intros [= _ <-]; eapply Hm, E.
Qed.

Lemma preserves_try_catch {A} (m : M A) (handler : string -> M A) :
  preserves m -> (forall e, preserves (handler e)) -> preserves (try_catch m handler).
Proof.
  intros Hm Hh st r st'. unfold try_catch.
  destruct (m st) as [[a|msg] st1] eqn:E.
  - intros [= _ <-]. eapply Hm, E.
  - intros Hk. eapply stable_trans; [eapply Hm, E | eapply Hh, Hk].
Qed.

(** An object made by a method may be updated in place. *)
Lemma preserves_new_write (t t' : DataFrame) (b : bool) (msg : string) :
  preserves (l ← new t;
             if b then write l t';; pure l else lift (Raise msg)).
Proof.
  intros st r st'. unfold mbind, M_bind, new, write, pure, lift. simpl.
  destruct b; intros [= _ <-]; unfold stable; simpl; repeat split.
  - intros l [x Hl]. rewrite insert_insert_eq. apply lookup_insert_ne.
    intros E. subst l. rewrite fresh_unused in Hl. discriminate Hl.
  - intros l [x Hl]. apply lookup_insert_ne.
    intros E. subst l. rewrite fresh_unused in Hl. discriminate Hl.
Qed.

Create HintDb frame.
#[local] Hint Resolve preserves_pure preserves_lift preserves_get_self_df
  preserves_read preserves_print preserves_new preserves_new_write : frame.

(** The frame condition of a method follows its text. *)
Ltac frame :=
  repeat first
    [ progress auto with frame
    | apply preserves_fmap
    | apply preserves_try_catch; [|intros ?]
    | apply preserves_bind; [|intros ?]
    | match goal with
      | |- preserves (match ?x with _ => _ end) => destruct x
      end ].

Section Methods.
Context `{Pandas} `{Evaluator}.

Lemma statistical_summary_frame (columns : pyval) :
  preserves (_get_statistical_summary columns).
Proof. unfold _get_statistical_summary. frame. Qed.

Lemma filter_step_frame (self_t : DataFrame) (filtered : loc) (entry : string * pyval) :
  preserves (filter_step self_t filtered entry).
Proof. unfold filter_step. destruct entry as [column condition]. frame. Qed.

Lemma filter_loop_frame (self_t : DataFrame) (entries : list (string * pyval))
    (filtered : loc) :
  preserves (filter_loop self_t filtered entries).
Proof.
  revert filtered. induction entries as [|entry rest IH]; intros filtered; simpl.
  - frame.
  - apply preserves_bind; [apply filter_step_frame | intros l; apply IH].
Qed.

#[local] Hint Resolve filter_loop_frame : frame.

Lemma filter_data_frame (conditions : pyval) : preserves (_filter_data conditions).
Proof. unfold _filter_data. frame. Qed.

Lemma group_by_frame (group_column agg_column agg_function : pyval) :
  preserves (_group_by_analysis group_column agg_column agg_function).
Proof. unfold _group_by_analysis. frame. Qed.

Lemma correlation_frame (columns : pyval) :
  preserves (_get_correlation_analysis columns).
Proof. unfold _get_correlation_analysis. frame. Qed.

Lemma value_counts_frame (column : pyval) : preserves (_get_value_counts column).
Proof. unfold _get_value_counts. frame. Qed.

#[local] Hint Resolve statistical_summary_frame filter_data_frame group_by_frame
  correlation_frame value_counts_frame : frame.



(** *** Claim C10 *)

(** What a custom query does when its text holds none of the six
    keywords: the evaluation takes place, with all it does to the
    session, and its table (an empty one when it raises) is a new
    object. *)
Lemma custom_query_evaluates (q : string) (st : state) :
  existsb (fun keyword => contains keyword (lower q)) forbidden_keywords = false ->
  let ev := evaluate (self_df st) q st in
  let table := match returned ev with Ok result => result | Raise _ => empty_frame end in
  let store := written ev ∪ heap st in
  _execute_custom_query (VStr q) st
  = (Ok (fresh (dom store)),
     mkState (<[fresh (dom store) := table]> store) (df_after ev) (mapping_after ev)
       (stdout st ++ printed ev)).
Proof.
  intros Hq. cbv zeta.
  unfold _execute_custom_query, try_catch. rewrite Hq.
  unfold mbind, M_bind, get_self_df, query.
  now destruct (returned (evaluate (self_df st) q st)).
Qed.

(** C10 at the failing input.  The text [@self.df.pop('name')] holds none
    of the six keywords, so it is evaluated; when that evaluation takes
    the column [name] out of the stored table, as pandas does, the table
    of the processor is another one after [execute_data_query]. *)
Theorem custom_query_changes_table (st : state) :
  heap st !! self_df st = Some Demo.people ->
  written (evaluate (self_df st) "@self.df.pop('name')" st) !! self_df st
  = Some (mkFrame 2 []) ->
  df_after (evaluate (self_df st) "@self.df.pop('name')" st) = self_df st ->
  exists (l : loc) (st' : state),
    execute_data_query
      (VDict [("type", VStr "custom_query"); ("query", VStr "@self.df.pop('name')")]) st
    = (Ok (Some l), st')
    /\ self_df st' = self_df st
    /\ heap st' !! self_df st' = Some (mkFrame 2 [])
    /\ heap st' !! self_df st' <> heap st !! self_df st.
Proof.
  intros Hdf Hpop Hself.
  unfold execute_data_query, try_catch, mbind at 1, M_bind at 1, lift at 1.
  cbn [get dict_lookup String.eqb Ascii.eqb Bool.eqb default is_str]. unfold id.
  cbn [is_str String.eqb Ascii.eqb Bool.eqb].
  unfold mbind at 1, M_bind at 1, lift at 1. unfold fmap, M_fmap.
  rewrite custom_query_evaluates by (vm_compute; reflexivity).
  do 2 eexists. split; [reflexivity|]. cbn [self_df heap].
  rewrite Hself.
  assert (Hstored : <[fresh (dom (written (evaluate (self_df st) "@self.df.pop('name')" st)
                                    ∪ heap st)) :=
                        match returned (evaluate (self_df st) "@self.df.pop('name')" st) with
                        | Ok result => result
                        | Raise _ => empty_frame
                        end]>
                      (written (evaluate (self_df st) "@self.df.pop('name')" st) ∪ heap st)
                      !! self_df st
                    = Some (mkFrame 2 [])).
  { rewrite lookup_insert_ne.
    - now rewrite (lookup_union_Some_l _ _ _ _ Hpop).
    - intros E.
      pose proof (fresh_unused
                    (written (evaluate (self_df st) "@self.df.pop('name')" st) ∪ heap st))
        as Hf.
      rewrite E, (lookup_union_Some_l _ _ _ _ Hpop) in Hf. discriminate Hf. }
  repeat split; [exact Hstored|].
  rewrite Hstored, Hdf. discriminate.
Qed.

(** *** Claim C8 *)

Lemma forbidden_found (pre kw post : string) :
  In (lower kw) forbidden_keywords ->
  existsb (fun keyword => contains keyword (lower (pre +:+ kw +:+ post)))
    forbidden_keywords = true.
Proof.
  intros Hin. apply existsb_exists. exists (lower kw). split; [exact Hin|].
  unfold lower. rewrite !smap_app. apply contains_app.
Qed.

Lemma custom_query_forbidden (q : string) (st : state) :
  existsb (fun keyword => contains keyword (lower q)) forbidden_keywords = true ->
  _execute_custom_query (VStr q) st = new empty_frame st.
Proof.
  intros Hq. unfold _execute_custom_query, try_catch. now rewrite Hq.
Qed.

(** C8.  A [custom_query] whose text holds one of the six keywords, in
    any case and at any place, returns a new empty table. *)
Theorem custom_query_rejects (operation : pyval) (pre kw post : string) (st : state) :
  get operation "type" (VStr "") = Ok (VStr "custom_query") ->
  get operation "query" (VStr "") = Ok (VStr (pre +:+ kw +:+ post)) ->
  In (lower kw) forbidden_keywords ->
  exists (l : loc) (st' : state),
    execute_data_query operation st = (Ok (Some l), st')
    /\ heap st' !! l = Some empty_frame.
Proof.
  intros Htype Hquery Hkw.
  exists (fresh (dom (heap st))).
  eexists. split.
  - unfold execute_data_query, try_catch, mbind, M_bind, lift.
    rewrite Htype. cbn [is_str String.eqb Ascii.eqb Bool.eqb].
    rewrite Hquery. unfold fmap, M_fmap.
    rewrite (custom_query_forbidden _ st (forbidden_found pre kw post Hkw)).
    reflexivity.
  - simpl. apply lookup_insert_eq.
Qed.

(** *** Claim C7 *)

Lemma labelled_has_column (df : DataFrame) (column : string) (s : Series) :
  labelled column df = [s] -> has_column df column = true.
Proof.
  intros Hl. unfold has_column, str_in, columns, labelled in *.
  induction (cols df) as [|[n x] r IH]; simpl in *; [discriminate|].
  rewrite String.eqb_sym.
  destruct (String.eqb n column); simpl in *; [reflexivity | now apply IH].
Qed.

(** What the [contains] branch computes: the rows whose text, as
    [astype(str)] gives it, the pattern is found in. *)
Lemma filter_contains (st : state) (df : DataFrame) (column : string)
    (value : pyval) (s : Series) (found : string -> bool) :
  heap st !! self_df st = Some df ->
  labelled column df = [s] ->
  re_search_ignorecase (py_str value) = Ok found ->
  exists (result : loc) (st' : state),
    _filter_data
      (VDict [(column, VDict [("operator", VStr "contains"); ("value", value)])]) st
    = (Ok result, st')
    /\ heap st' !! result
       = Some (select_rows df (List.map (fun c => found (astype_str c)) (values s))).
Proof.
  intros Hdf Hl Hre.
  unfold _filter_data, mbind, M_bind, get_self_df, read. rewrite Hdf.
  unfold new at 1. cbn [filter_loop].
  unfold mbind, M_bind, filter_step.
  rewrite (labelled_has_column df column s Hl). cbn [negb].
  unfold mbind, M_bind, lift, get.
  cbn [dict_lookup String.eqb Ascii.eqb Bool.eqb default]. unfold id.
  unfold operator_of. cbn [is_str String.eqb Ascii.eqb Bool.eqb].
  unfold read. cbn [heap]. rewrite lookup_insert_eq.
  unfold getitem. rewrite Hl.
  unfold str_contains, mbind, res_bind. rewrite Hre.
  unfold new, pure. cbn [heap].
  do 2 eexists. split; [reflexivity|].
  cbn [heap]. apply lookup_insert_eq.
Qed.

(** C7 at the failing input.  In the frame [people] the column [name]
    holds [Ann] and a missing cell; filtering it for the text [nan] keeps
    the row of the missing cell, which [astype(str)] has turned into the
    text [nan] before [na=False] could apply. *)
Theorem contains_keeps_missing_cell (st : state) (found : string -> bool) :
  heap st !! self_df st = Some Demo.people ->
  re_search_ignorecase "nan" = Ok found ->
  found "Ann" = false ->
  found "nan" = true ->
  exists (result : loc) (st' : state),
    _filter_data
      (VDict [("name", VDict [("operator", VStr "contains"); ("value", VStr "nan")])]) st
    = (Ok result, st')
    /\ heap st' !! result = Some (mkFrame 1 [("name", mkSeries DObject [NaN])]).
Proof.
  intros Hdf Hre Hann Hnan.
  destruct (filter_contains st Demo.people "name" (VStr "nan")
              (mkSeries DObject [Str "Ann"; NaN]) found Hdf eq_refl Hre)
    as (result & st' & Hrun & Hres).
  exists result, st'. split; [exact Hrun|].
  rewrite Hres. simpl. now rewrite Hann, Hnan.
Qed.

End Methods.

(** A session with [people] loaded. *)
Local Abbreviation session :=
  (mkState {[ 1%positive := Demo.people ]} 1%positive
     (Loader.dict_zip ["name"] ["Name"]) []).

Lemma custom_query_changes_table_witness :
  exists (l : loc) (st' : state),
    @execute_data_query Demo.demo_pandas Demo.demo_evaluator
      (VDict [("type", VStr "custom_query"); ("query", VStr "@self.df.pop('name')")])
      session
    = (Ok (Some l), st')
    /\ self_df st' = self_df session
    /\ heap st' !! self_df st' = Some (mkFrame 2 [])
    /\ heap st' !! self_df st' <> heap session !! self_df session.
Proof.
  apply (@custom_query_changes_table Demo.demo_pandas Demo.demo_evaluator session);
    vm_compute; reflexivity.
Defined.

Lemma custom_query_rejects_witness :
  exists (l : loc) (st' : state),
    @execute_data_query Demo.demo_pandas Demo.demo_evaluator
      (VDict [("type", VStr "custom_query"); ("query", VStr "score > 1 and DROP")])
      session
    = (Ok (Some l), st')
    /\ heap st' !! l = Some empty_frame.
Proof.
  apply (@custom_query_rejects Demo.demo_pandas Demo.demo_evaluator _
           "score > 1 and " "DROP" EmptyString session).
  - reflexivity.
  - reflexivity.
  - simpl. auto.
Defined.

Lemma contains_keeps_missing_cell_witness :
  exists (result : loc) (st' : state),
    @_filter_data Demo.demo_pandas
      (VDict [("name", VDict [("operator", VStr "contains"); ("value", VStr "nan")])])
      session
    = (Ok result, st')
    /\ heap st' !! result = Some (mkFrame 1 [("name", mkSeries DObject [NaN])]).
Proof.
  apply (@contains_keeps_missing_cell Demo.demo_pandas session
           (fun text => contains "nan" (lower text)));
    reflexivity.
Defined.

End QueryFacts.

(** ** The Plot Code Sandbox *)
Module SandboxFacts.
Import PyStr PyStrFacts Pd Sandbox.

Section Sandbox.
Context `{Runtime}.

Lemma execute_plot_code_raised (code : string) (df : DataFrame) (e : string)
    (sys_stdout : stream) :
  exec (rewritten code df) df = RaisesException e ->
  execute_plot_code code df sys_stdout
  = (Returns (NoneObj, EmptyString, Some (error_message e code)), sys_stdout).
Proof.
  intros He. unfold execute_plot_code, rewritten in *. now rewrite He.
Qed.

Lemma execute_plot_code_completed (code : string) (df : DataFrame)
    (local_vars : gmap string pyobj) (output : string) (sys_stdout : stream) :
  exec (rewritten code df) df = Completes local_vars output ->
  execute_plot_code code df sys_stdout
  = (Returns (match local_vars !! "fig" with
              | Some fig => (fig, output, None)
              | None => (NoneObj, output, Some (no_fig_message +:+ rewritten code df))
              end),
     sys_stdout).
Proof.
  intros He. unfold execute_plot_code, rewritten in *. rewrite He.
  now destruct (local_vars !! "fig").
Qed.

(** An exception outside [Exception] passes the handler, and
    [sys.stdout] stays bound to the buffer. *)
Lemma execute_plot_code_propagates (code : string) (df : DataFrame) (e : string)
    (sys_stdout : stream) :
  exec (rewritten code df) df = RaisesOther e ->
  execute_plot_code code df sys_stdout = (Propagates e, Buffer).
Proof.
  intros He. unfold execute_plot_code, rewritten in *. now rewrite He.
Qed.

(** C1, amended.  When the execution of the rewritten snippet raises an
    exception of class [Exception], the sandbox returns, without raising
    and with [sys.stdout] as it was, no chart, no output and the message
    [Error executing plot code: <exception text>], a line break and
    [Code attempted: <the snippet as it was passed in>]. *)
Theorem sandbox_error_report (code : string) (df : DataFrame) (e : string)
    (sys_stdout : stream) :
  exec (rewritten code df) df = RaisesException e ->
  let msg := "Error executing plot code: " +:+ e
             +:+ String newline "Code attempted: " +:+ code in
  execute_plot_code code df sys_stdout
  = (Returns (NoneObj, EmptyString, Some msg), sys_stdout)
  /\ contains e msg = true
  /\ contains code msg = true.
Proof.
  intros He msg. split; [|split].
  - now apply execute_plot_code_raised.
  - apply (contains_app "Error executing plot code: " e).
  - unfold msg. rewrite <- (sapp_assoc e), <- sapp_assoc.
    apply contains_suffix.
Qed.

(** C2, amended.  A call of the sandbox lets an exception through
    exactly when the snippet raises one outside [Exception]; every other
    call returns a triple, with [sys.stdout] as it was.  The chart and
    the error of the triple are never both present, and both are absent
    exactly when the snippet completes with [fig] bound to [None].  When
    the snippet completes and binds no [fig], there is no chart and the
    error is the text
    [No 'fig' variable found in the generated code. Code executed: ]
    followed by the rewritten snippet. *)
Theorem sandbox_outcome (code : string) (df : DataFrame) (sys_stdout : stream) :
  (exists e,
      exec (rewritten code df) df = RaisesOther e
      /\ fst (execute_plot_code code df sys_stdout) = Propagates e)
  \/ ((forall e, exec (rewritten code df) df <> RaisesOther e)
      /\ exists (fig : pyobj) (output : string) (error : option string),
           execute_plot_code code df sys_stdout
           = (Returns (fig, output, error), sys_stdout)
           /\ (fig = NoneObj \/ error = None)
           /\ (fig = NoneObj /\ error = None <->
               exists local_vars out,
                 exec (rewritten code df) df = Completes local_vars out
                 /\ local_vars !! "fig" = Some NoneObj)
           /\ (forall local_vars out,
                 exec (rewritten code df) df = Completes local_vars out ->
                 local_vars !! "fig" = None ->
                 fig = NoneObj /\ output = out
                 /\ error
                    = Some ("No 'fig' variable found in the generated code. Code executed: "
                            +:+ rewritten code df))).
Proof.
  destruct (exec (rewritten code df) df) as [local_vars out|e|e] eqn:He.
  - right. split; [discriminate|].
    rewrite (execute_plot_code_completed code df local_vars out sys_stdout He).
    destruct (local_vars !! "fig") as [fig|] eqn:Hfig.
    + exists fig, out, None.
      split; [reflexivity|]. split; [now right|]. split; [split|].
      * intros [-> _]. now exists local_vars, out.
      * intros (lv & o & Heq & Hf). injection Heq as <- <-.
        split; [congruence | reflexivity].
      * intros lv o Heq Hf. injection Heq as <- <-. congruence.
    + exists NoneObj, out, (Some (no_fig_message +:+ rewritten code df)).
      split; [reflexivity|]. split; [now left|]. split; [split|].
      * intros [_ Hn]. discriminate Hn.
      * intros (lv & o & Heq & Hf). injection Heq as <- <-. congruence.
      * intros lv o Heq Hf. injection Heq as <- <-. auto.
  - right. split; [discriminate|].
    rewrite (execute_plot_code_raised code df e sys_stdout He).
    exists NoneObj, EmptyString, (Some (error_message e code)).
    split; [reflexivity|]. split; [now left|]. split; [split|].
    + intros [_ Hn]. discriminate Hn.
    + intros (lv & o & Heq & _). discriminate Heq.
    + intros lv o Heq. discriminate Heq.
  - left. exists e. split; [reflexivity|].
    now rewrite (execute_plot_code_propagates code df e sys_stdout He).
Qed.

End Sandbox.

(** C1, as stated, fails twice.  The message quotes the snippet as it
    came in, not the one that was run: two lines reach [exec] joined by a
    semicolon, and the message still shows them on two lines.  And an
    exception outside [Exception] is not caught: the call ends with it. *)
Lemma sandbox_error_counterexample :
  ~ (forall (R : Runtime) (code : string) (df : DataFrame) (e : string)
            (sys_stdout : stream),
        exec (rewritten code df) df = RaisesException e ->
        exists msg,
          execute_plot_code code df sys_stdout
          = (Returns (NoneObj, EmptyString, Some msg), sys_stdout)
          /\ contains e msg = true
          /\ contains (rewritten code df) msg = true)
  /\ ~ (forall (R : Runtime) (code : string) (df : DataFrame) (e : string)
               (sys_stdout : stream),
          exec (rewritten code df) df = RaisesOther e ->
          exists triple, fst (execute_plot_code code df sys_stdout) = Returns triple).
Proof.
  split; intros Hall.
  - destruct (Hall Demo.demo_runtime
                ("x = 1" +:+ String newline "y = undefined_name") Demo.survey
                "name 'undefined_name' is not defined" Caller)
      as (msg & Hrun & _ & Hcode).
    + vm_compute. reflexivity.
    + vm_compute in Hrun. injection Hrun as <-.
      vm_compute in Hcode. discriminate Hcode.
  - destruct (Hall Demo.demo_runtime Demo.raise_base_exception Demo.survey "stop" Caller)
      as (triple & Hrun).
    + vm_compute. reflexivity.
    + vm_compute in Hrun. discriminate Hrun.
Qed.

Lemma sandbox_error_report_witness :
  let code := "x = 1" +:+ String newline "y = undefined_name" in
  let e := "name 'undefined_name' is not defined" in
  let msg := "Error executing plot code: " +:+ e
             +:+ String newline "Code attempted: " +:+ code in
  @execute_plot_code Demo.demo_runtime code Demo.survey Caller
  = (Returns (NoneObj, EmptyString, Some msg), Caller)
  /\ contains e msg = true
  /\ contains code msg = true.
Proof.
  apply (@sandbox_error_report Demo.demo_runtime
           ("x = 1" +:+ String newline "y = undefined_name") Demo.survey
           "name 'undefined_name' is not defined" Caller).
  vm_compute. reflexivity.
Defined.

(** C2, as stated, fails: a snippet that completes without binding [fig]
    comes back with an error text in the third place. *)
Lemma sandbox_outcome_counterexample :
  ~ (forall (R : Runtime) (code : string) (df : DataFrame)
            (local_vars : gmap string pyobj) (out : string) (sys_stdout : stream),
        exec (rewritten code df) df = Completes local_vars out ->
        local_vars !! "fig" = None ->
        exists output,
          fst (execute_plot_code code df sys_stdout) = Returns (NoneObj, output, None)).
Proof.
  intros Hall.
  destruct (Hall Demo.demo_runtime "x = 1" Demo.survey
              {[ "x" := Object "1" ]} EmptyString Caller)
    as (output & Hrun).
  - vm_compute. reflexivity.
  - vm_compute. reflexivity.
  - vm_compute in Hrun. discriminate Hrun.
Qed.

(** Both may be absent: [fig = None] completes, and [fig] is [None]. *)
Example sandbox_both_absent :
  @execute_plot_code Demo.demo_runtime "fig = None" Demo.survey Caller
  = (Returns (NoneObj, EmptyString, None), Caller).
Proof. vm_compute. reflexivity. Qed.

End SandboxFacts.

(* ===================================================================== *)
(** * Part III: further properties of the program                         *)
(* ===================================================================== *)

(** ** More on the Column Normalizer *)
Module NormalizerMore.
Import PyStr PyStrFacts Normalizer NormalizerFacts.

Local Abbreviation canon_char :=
  (fun c => if is_word (lower_char c) then lower_char c else underscore).

Lemma lower_char_idem (c : ascii) : lower_char (lower_char c) = lower_char c.
Proof. each_char c. Qed.

Lemma lower_char_space (c : ascii) : isspace (lower_char c) = isspace c.
Proof. each_char c. Qed.

Lemma digit_canon_char (c : ascii) :
  ascii_digit c = true -> Ascii.eqb (canon_char c) c = true.
Proof. each_char c. Qed.

Lemma digit_not_underscore (c : ascii) :
  ascii_digit c = true -> is_underscore c = false.
Proof. each_char c. Qed.

Lemma lower_idem (s : string) : lower (lower s) = lower s.
Proof.
  unfold lower. rewrite smap_smap.
  induction s as [|c r IH]; simpl; [reflexivity|].
  now rewrite lower_char_idem, IH.
Qed.

Lemma is_empty_smap (f : ascii -> ascii) (s : string) :
  is_empty (smap f s) = is_empty s.
Proof. now destruct s. Qed.

Lemma lstrip_lower (s : string) :
  lstrip_by isspace (lower s) = lower (lstrip_by isspace s).
Proof.
  unfold lower. induction s as [|c r IH]; simpl; [reflexivity|].
  rewrite lower_char_space. now destruct (isspace c).
Qed.

Lemma rstrip_lower (s : string) :
  rstrip_by isspace (lower s) = lower (rstrip_by isspace s).
Proof.
  unfold lower. induction s as [|c r IH]; simpl; [reflexivity|].
  rewrite lower_char_space, IH, is_empty_smap.
  now destruct (isspace c && is_empty (rstrip_by isspace r)).
Qed.

Lemma strip_lower (s : string) : strip (lower s) = lower (strip s).
Proof. unfold strip, strip_by. now rewrite lstrip_lower, rstrip_lower. Qed.

(** *** Stripping twice *)

Lemma rstrip_idem (p : ascii -> bool) (s : string) :
  rstrip_by p (rstrip_by p s) = rstrip_by p s.
Proof.
  induction s as [|c r IH]; simpl; [reflexivity|].
  destruct (p c && is_empty (rstrip_by p r)) eqn:E; simpl; [reflexivity|].
  now rewrite IH, E.
Qed.

Lemma lstrip_after_strip (p : ascii -> bool) (s : string) :
  lstrip_by p (rstrip_by p (lstrip_by p s)) = rstrip_by p (lstrip_by p s).
Proof.
  induction s as [|c r IH]; simpl; [reflexivity|].
  destruct (p c) eqn:Hc; [exact IH|].
  simpl. rewrite Hc. simpl. now rewrite Hc.
Qed.

Lemma strip_idem (p : ascii -> bool) (s : string) :
  strip_by p (strip_by p s) = strip_by p s.
Proof. unfold strip_by. now rewrite lstrip_after_strip, rstrip_idem. Qed.

(** X1.  The canonical name of a header does not depend on the case of
    its letters nor on the white space around it. *)
Theorem canonicalize_case_and_margin (x : string) :
  canonicalize (lower x) = canonicalize x
  /\ canonicalize (strip x) = canonicalize x.
Proof.
  unfold canonicalize. split.
  - now rewrite strip_lower, lower_idem.
  - unfold strip. now rewrite strip_idem.
Qed.

(** *** Placeholders *)

Lemma uint_digits (d : Decimal.uint) :
  sall ascii_digit (NilEmpty.string_of_uint d) = true.
Proof. induction d; simpl; auto. Qed.

Lemma str_of_nat_digits (n : nat) : sall ascii_digit (str_of_nat n) = true.
Proof. apply uint_digits. Qed.

Lemma str_of_nat_inj (n m : nat) : str_of_nat n = str_of_nat m -> n = m.
Proof.
  unfold str_of_nat. intros E.
  apply DecimalNat.Unsigned.to_uint_inj.
  assert (Some (Nat.to_uint n) = Some (Nat.to_uint m)) as [= ->]; [|reflexivity].
  now rewrite <- !NilEmpty.usu, E.
Qed.

Lemma str_of_nat_not_empty (n : nat) : is_empty (str_of_nat n) = false.
Proof.
  unfold str_of_nat. destruct (Nat.to_uint n) eqn:E; try reflexivity.
  pose proof (DecimalNat.Unsigned.of_to n) as Hn. rewrite E in Hn. simpl in Hn.
  subst n. discriminate E.
Qed.

Lemma digits_shape (d : string) :
  sall ascii_digit d = true ->
  heads_underscore d = false /\ ends_underscore d = false
  /\ doubled_underscore d = false.
Proof.
  induction d as [|c r IH]; [now simpl|].
  cbn [sall]. intros [Hc Hr]%andb_true_iff.
  destruct (IH Hr) as (Hh & He & Hd).
  pose proof (digit_not_underscore c Hc) as Hu.
  repeat split.
  - exact Hu.
  - destruct r; [exact Hu | exact He].
  - cbn [doubled_underscore]. now rewrite Hu, Hd.
Qed.

Lemma rstrip_app (p : ascii -> bool) (a b : string) :
  is_empty b = false -> rstrip_by p b = b -> rstrip_by p (a +:+ b) = a +:+ b.
Proof.
  intros Hb Hr. induction a as [|c r IH]; [exact Hr|].
  rewrite sapp_cons. cbn [rstrip_by]. rewrite IH.
  destruct (r +:+ b) eqn:E; [|now rewrite andb_false_r].
  destruct r; [|discriminate E]. change (b = EmptyString) in E.
  rewrite E in Hb. discriminate Hb.
Qed.

Lemma ends_app (a b : string) :
  is_empty b = false -> ends_underscore (a +:+ b) = ends_underscore b.
Proof.
  intros Hb. induction a as [|c r IH]; [reflexivity|].
  rewrite sapp_cons. cbn [ends_underscore]. rewrite IH.
  destruct (r +:+ b) eqn:E; [|reflexivity].
  destruct r; [|discriminate E]. change (b = EmptyString) in E.
  rewrite E in Hb. discriminate Hb.
Qed.

(** The canonical name of the placeholder of position [i]. *)
Lemma canonicalize_placeholder (i : nat) :
  canonicalize (placeholder i) = "column_" +:+ str_of_nat (i + 1).
Proof.
  set (d := str_of_nat (i + 1)).
  pose proof (str_of_nat_digits (i + 1)) as Hd. fold d in Hd.
  pose proof (str_of_nat_not_empty (i + 1)) as Hne. fold d in Hne.
  destruct (digits_shape d Hd) as (Hh & He & Hdd).
  assert (Hstrip : strip (placeholder i) = "Column " +:+ d).
  { unfold strip, strip_by, placeholder. fold d.
    change (lstrip_by isspace ("Column " +:+ d)) with ("Column " +:+ d).
    apply rstrip_app; [exact Hne|].
    apply rstrip_none. eapply sall_impl; [|exact Hd].
    intros c Hc. revert Hc. each_char c. }
  unfold canonicalize. rewrite Hstrip, sub_lower.
  change ("Column " +:+ d) with ("Column" +:+ " " +:+ d).
  rewrite !smap_app.
  rewrite (smap_fixed _ d) by (eapply sall_impl; [apply digit_canon_char | exact Hd]).
  change (smap canon_char "Column" +:+ smap canon_char " " +:+ d)
    with ("column_" +:+ d).
  assert (Hdouble : doubled_underscore ("column_" +:+ d) = false).
  { rewrite !sapp_cons. change (EmptyString +:+ d) with d.
    simpl. now rewrite Hh, Hdd. }
  rewrite squeeze_id by exact Hdouble.
  unfold strip_by.
  rewrite lstrip_underscore_id by reflexivity.
  apply rstrip_underscore_id. now rewrite ends_app.
Qed.

(** X2.  A header that the repair takes for missing gets the name
    [column_<i+1>] of its position [i], so two such headers never share a
    name. *)
Theorem placeholder_names (raw : list string) (i j : nat) (hi hj : string) :
  raw !! i = Some hi ->
  raw !! j = Some hj ->
  is_missing (strip hi) = true ->
  is_missing (strip hj) = true ->
  normalized_headers raw !! i = Some ("column_" +:+ str_of_nat (i + 1))
  /\ (i <> j -> normalized_headers raw !! i <> normalized_headers raw !! j).
Proof.
  intros Hi Hj Mi Mj.
  assert (Hname : forall k h, raw !! k = Some h -> is_missing (strip h) = true ->
            normalized_headers raw !! k = Some ("column_" +:+ str_of_nat (k + 1))).
  { intros k h Hk Mk. rewrite normalized_lookup, Hk. simpl.
    unfold repair. rewrite Mk. now rewrite canonicalize_placeholder. }
  split; [now apply (Hname i hi)|].
  intros Hij. rewrite (Hname i hi Hi Mi), (Hname j hj Hj Mj).
  intros [= E]. apply str_of_nat_inj in E. lia.
Qed.

Lemma placeholder_names_witness :
  normalized_headers ["Unnamed: 0"; "Name"; "nan"] !! 0%nat
  = Some ("column_" +:+ str_of_nat (0 + 1))
  /\ (0%nat <> 2%nat ->
      normalized_headers ["Unnamed: 0"; "Name"; "nan"] !! 0%nat
      <> normalized_headers ["Unnamed: 0"; "Name"; "nan"] !! 2%nat).
Proof.
  apply (placeholder_names ["Unnamed: 0"; "Name"; "nan"] 0 2 "Unnamed: 0" "nan");
    reflexivity.
Defined.

(** X3.  A header that is already a canonical name, and is not one of the
    texts the repair replaces, goes through both steps unchanged. *)
Theorem canonical_header_kept (raw : list string) (i : nat) (header : string) :
  raw !! i = Some header ->
  is_canonical header = true ->
  is_missing header = false ->
  normalized_headers raw !! i = Some header.
Proof.
  intros Hi Hc Hm. rewrite normalized_lookup, Hi. simpl.
  assert (Hs : strip header = header).
  { apply strip_none. unfold is_canonical in Hc.
    apply andb_true_iff in Hc as [Hc _]. apply andb_true_iff in Hc as [Hc _].
    apply andb_true_iff in Hc as [Hc _].
    eapply sall_impl; [apply canonical_char_no_space | exact Hc]. }
  unfold repair. rewrite Hs, Hm. now rewrite canonical_fixed.
Qed.

Lemma canonical_header_kept_witness :
  normalized_headers ["total_score"; "Unnamed: 1"] !! 0%nat = Some "total_score".
Proof.
  apply (canonical_header_kept ["total_score"; "Unnamed: 1"] 0 "total_score");
    reflexivity.
Defined.

End NormalizerMore.

(** ** More on the Table Loader/Cleaner *)
Module LoaderMore.
Import PyStr PyStrFacts Pd Normalizer NormalizerFacts Loader LoaderFacts.

Section Loading.
Context `{Pandas}.

(** What the first loop leaves of a column of a frame of [n] rows. *)
Local Abbreviation numeric_pass n :=
  (fun (_ : string) (s : Series) =>
     if dtype_eqb (dtype_of s) DObject
        && negb (forallb isna (values (to_numeric s)))
        && above_80_percent (count_notna (to_numeric s)) n
     then to_numeric s else s).

(** What the second loop leaves of a column. *)
Local Abbreviation date_pass :=
  (fun (name : string) (s : Series) =>
     if contains "date" (lower name) || contains "time" (lower name)
     then match to_datetime s with Ok s' => s' | Raise _ => s end
     else s).

Lemma snd_combine {A B} (l : list A) (l' : list B) :
  List.length l = List.length l' -> List.map snd (List.combine l l') = l'.
Proof.
  revert l'. induction l as [|x l IH]; intros [|y l']; simpl; try discriminate;
    [reflexivity|]. intros [= E]. now rewrite IH.
Qed.

Lemma combine_at {A B} (l : list A) (l' : list B) (i : nat) (x : A) (y : B) :
  l !! i = Some x -> l' !! i = Some y -> List.combine l l' !! i = Some (x, y).
Proof.
  revert l' i. induction l as [|a l IH]; intros [|b l'] [|i]; simpl; try discriminate.
  - now intros [= ->] [= ->].
  - apply IH.
Qed.

Lemma normalized_length (raw : list string) :
  List.length (normalized_headers raw) = List.length raw.
Proof.
  unfold normalized_headers, _normalize_column_names, _handle_missing_column_names.
  now rewrite List.length_map, repair_from_length.
Qed.

(** The frame that reaches [_clean_data]: the uploaded columns under
    their canonical names. *)
Lemma renamed_frame (original : DataFrame) :
  let df0 := set_columns original (_handle_missing_column_names (columns original)) in
  set_columns df0 (_normalize_column_names (columns df0))
  = mkFrame (nrows original)
      (List.combine (normalized_headers (columns original))
         (List.map snd (cols original))).
Proof.
  intros df0.
  assert (Hc : columns df0 = _handle_missing_column_names (columns original)).
  { apply columns_set_columns. unfold _handle_missing_column_names, columns.
    now rewrite repair_from_length, List.length_map. }
  unfold set_columns at 1. rewrite Hc. fold (normalized_headers (columns original)).
  f_equal. f_equal. unfold df0, set_columns. simpl.
  apply snd_combine. unfold _handle_missing_column_names, columns.
  now rewrite repair_from_length, !List.length_map.
Qed.

(** The table of a load that succeeds, column by column. *)
Lemma loaded_frame (original : DataFrame) (dp : DataProcessor) :
  init (Ok original) = Ok dp ->
  df dp
  = mkFrame (nrows original)
      (List.map
         (fun p => (fst p,
                    date_pass (fst p) (numeric_pass (nrows original) (fst p) (snd p))))
         (List.combine (normalized_headers (columns original))
            (List.map snd (cols original)))).
Proof.
  unfold init, _load_and_process_excel, _create_column_mapping.
  cbn [mbind res_bind try_except].
  pose proof (renamed_frame original) as Hr. cbv zeta in Hr. rewrite Hr. clear Hr.
  set (df1 := mkFrame (nrows original)
                (List.combine (normalized_headers (columns original))
                   (List.map snd (cols original)))).
  destruct (_clean_data df1) as [df2|msg] eqn:Hc; cbn [try_except mbind res_bind];
    [|discriminate].
  intros [= <-]. cbn [df].
  pose proof (clean_data_labels df1 df2 Hc) as Hnd.
  rewrite (clean_data_distinct df1 Hnd) in Hc. now injection Hc as <-.
Qed.

Lemma loaded_column (original : DataFrame) (dp : DataProcessor)
    (i : nat) (header : string) (s : Series) :
  init (Ok original) = Ok dp ->
  cols original !! i = Some (header, s) ->
  exists name,
    normalized_headers (columns original) !! i = Some name
    /\ cols (df dp) !! i
       = Some (name, date_pass name (numeric_pass (nrows original) name s)).
Proof.
  intros Hinit Hi. rewrite (loaded_frame original dp Hinit). cbn [cols].
  assert (Hh : columns original !! i = Some header).
  { unfold columns. rewrite map_lookup, Hi. reflexivity. }
  destruct (normalized_headers (columns original) !! i) as [name|] eqn:Hn.
  - exists name. split; [reflexivity|].
    rewrite map_lookup.
    rewrite (combine_at _ _ i name s Hn); [reflexivity|].
    rewrite map_lookup, Hi. reflexivity.
  - apply lookup_ge_None in Hn. apply lookup_lt_Some in Hh.
    rewrite normalized_length in Hn. lia.
Qed.

(** X4.  A load succeeds exactly when the canonical names of the headers
    are pairwise distinct.  A load that fails, at the parse or later,
    raises a text that starts with [Error loading Excel file: ]. *)
Theorem load_outcome (original : DataFrame) :
  ((exists dp, init (Ok original) = Ok dp)
   <-> List.NoDup (normalized_headers (columns original)))
  /\ (forall msg, init (Ok original) = Raise msg ->
                  startswith "Error loading Excel file: " msg = true)
  /\ (forall e, init (Raise e) = Raise ("Error loading Excel file: " +:+ e)).
Proof.
  split; [split|split].
  - intros [dp Hdp]. now destruct (init_inversion original dp Hdp) as (_ & Hnd & _).
  - intros Hnd. unfold init, _load_and_process_excel, _create_column_mapping.
    cbn [mbind res_bind try_except].
    pose proof (renamed_frame original) as Hr. cbv zeta in Hr. rewrite Hr. clear Hr.
    rewrite clean_data_distinct.
    + cbn [try_except mbind res_bind]. eauto.
    + unfold columns at 1. cbn [cols]. rewrite fst_combine; [exact Hnd|].
      rewrite normalized_length. unfold columns. now rewrite !List.length_map.
  - intros msg. unfold init, _load_and_process_excel.
    cbn [mbind res_bind try_except].
    match goal with |- context [_clean_data ?d] => destruct (_clean_data d) end;
      cbn [try_except mbind res_bind]; [discriminate|].
    intros [= <-]. apply startswith_app.
  - reflexivity.
Qed.

(** X5.  A load keeps the number of rows and gives every uploaded column,
    in order, the canonical name of its header. *)
Theorem load_shape (original : DataFrame) (dp : DataProcessor) :
  init (Ok original) = Ok dp ->
  nrows (df dp) = nrows original
  /\ List.length (cols (df dp)) = List.length (cols original)
  /\ columns (df dp) = normalized_headers (columns original).
Proof.
  intros Hinit. destruct (init_inversion original dp Hinit) as (Hc & _ & _).
  rewrite (loaded_frame original dp Hinit) in *. cbn [nrows cols].
  repeat split; [|exact Hc].
  rewrite List.length_map, List.length_combine, normalized_length.
  unfold columns. rewrite !List.length_map. lia.
Qed.

(** X6.  A column that is not textual, under a name without [date] and
    [time], is stored as it was uploaded. *)
Theorem load_keeps_typed_column (original : DataFrame) (dp : DataProcessor)
    (i : nat) (header name : string) (s : Series) :
  init (Ok original) = Ok dp ->
  cols original !! i = Some (header, s) ->
  columns (df dp) !! i = Some name ->
  dtype_of s <> DObject ->
  contains "date" (lower name) = false ->
  contains "time" (lower name) = false ->
  cols (df dp) !! i = Some (name, s).
Proof.
  intros Hinit Hi Hname Hd Hdate Htime.
  destruct (loaded_column original dp i header s Hinit Hi) as (name' & Hn & Hcol).
  assert (name' = name) as ->.
  { unfold columns in Hname. rewrite map_lookup, Hcol in Hname.
    now injection Hname. }
  rewrite Hcol, Hdate, Htime. cbn [orb].
  destruct (dtype_of s); try reflexivity. now contradiction Hd.
Qed.

(** X7.  A column whose name contains [date] or [time] ends up as what
    [pd.to_datetime] makes of it (after the numeric pass), and as it was
    when that call raises. *)
Theorem load_converts_dates (original : DataFrame) (dp : DataProcessor)
    (i : nat) (header name : string) (s : Series) :
  init (Ok original) = Ok dp ->
  cols original !! i = Some (header, s) ->
  columns (df dp) !! i = Some name ->
  contains "date" (lower name) || contains "time" (lower name) = true ->
  let kept :=
    if dtype_eqb (dtype_of s) DObject
       && (4 * nrows original <? 5 * count_notna (to_numeric s))%nat
    then to_numeric s else s in
  cols (df dp) !! i
  = Some (name, match to_datetime kept with Ok s' => s' | Raise _ => kept end).
Proof.
  intros Hinit Hi Hname Hdt kept.
  destruct (loaded_column original dp i header s Hinit Hi) as (name' & Hn & Hcol).
  assert (name' = name) as ->.
  { unfold columns in Hname. rewrite map_lookup, Hcol in Hname.
    now injection Hname. }
  rewrite Hcol, Hdt.
  assert (Hk : (if dtype_eqb (dtype_of s) DObject
                   && negb (forallb isna (values (to_numeric s)))
                   && above_80_percent (count_notna (to_numeric s)) (nrows original)
                then to_numeric s else s) = kept).
  { unfold kept, above_80_percent.
    destruct (4 * nrows original <? 5 * count_notna (to_numeric s))%nat eqn:E.
    - apply Nat.ltb_lt in E.
      rewrite (count_notna_positive (to_numeric s)) by lia.
      cbn [negb]. now rewrite !andb_true_r.
    - now rewrite !andb_false_r. }
  now rewrite Hk.
Qed.

End Loading.

Lemma load_shape_witness :
  let dp :=
    mkProcessor
      (mkFrame 3
         [("country", mkSeries DObject [Str "FR"; Str "DE"; Str "IT"]);
          ("total_score",
           mkSeries DFloat64 [Scalar "10.0"; Scalar "20.0"; Scalar "30.0"])])
      (dict_zip ["country"; "total_score"] ["Country"; "Total Score"]) in
  nrows (df dp) = nrows Demo.survey
  /\ List.length (cols (df dp)) = List.length (cols Demo.survey)
  /\ columns (df dp) = normalized_headers (columns Demo.survey).
Proof.
  intros dp. apply (@load_shape Demo.demo_pandas Demo.survey dp).
  vm_compute. reflexivity.
Defined.

(** The processor that [sales] loads to. *)
Local Abbreviation sales_processor :=
  (mkProcessor
     (mkFrame 2
        [("units", mkSeries DInt64 [Scalar "3"; Scalar "5"]);
         ("order_date", mkSeries DObject [Str "2024-01-05"; Str "n/a"])])
     (dict_zip ["units"; "order_date"] ["Units"; "Order Date"])).

Lemma load_keeps_typed_column_witness :
  cols (df sales_processor) !! 0%nat
  = Some ("units", mkSeries DInt64 [Scalar "3"; Scalar "5"]).
Proof.
  apply (@load_keeps_typed_column Demo.demo_pandas Examples.sales sales_processor
           0 "Units" "units" (mkSeries DInt64 [Scalar "3"; Scalar "5"]));
    try (vm_compute; reflexivity).
  discriminate.
Defined.

Lemma load_converts_dates_witness :
  let s := mkSeries DObject [Str "2024-01-05"; Str "n/a"] in
  let kept :=
    if dtype_eqb (dtype_of s) DObject
       && (4 * nrows Examples.sales
           <? 5 * count_notna (@to_numeric Demo.demo_pandas s))%nat
    then @to_numeric Demo.demo_pandas s else s in
  cols (df sales_processor) !! 1%nat
  = Some ("order_date",
          match @to_datetime Demo.demo_pandas kept with
          | Ok s' => s'
          | Raise _ => kept
          end).
Proof.
  apply (@load_converts_dates Demo.demo_pandas Examples.sales sales_processor
           1 "Order Date" "order_date"
           (mkSeries DObject [Str "2024-01-05"; Str "n/a"]));
    vm_compute; reflexivity.
Defined.

End LoaderMore.

(** ** More on the Data Query Executor *)
Module QueryMore.
Import PyStr PyStrFacts Pd Query QueryFacts QueryConditions.

(** *** What a method prints *)

Lemma quiet_pure {A} (a : A) : quiet (pure a).
Proof. now intros st r st' [= _ <-]. Qed.

Lemma quiet_lift {A} (x : res A) : quiet (lift x).
Proof. now intros st r st' [= _ <-]. Qed.

Lemma quiet_get_self_df : quiet get_self_df.
Proof. now intros st r st' [= _ <-]. Qed.

Lemma quiet_read (l : loc) : quiet (read l).
Proof.
  intros st r st'. unfold read. now destruct (heap st !! l); intros [= _ <-].
Qed.

Lemma quiet_new (t : DataFrame) : quiet (new t).
Proof. now intros st r st' [= _ <-]. Qed.

Lemma quiet_write (l : loc) (t : DataFrame) : quiet (write l t).
Proof. now intros st r st' [= _ <-]. Qed.

Lemma quiet_bind {A B} (m : M A) (f : A -> M B) :
  quiet m -> (forall a, quiet (f a)) -> quiet (m ≫= f).
Proof.
  intros Hm Hf st r st'. unfold mbind, M_bind.
  destruct (m st) as [[a|msg] st1] eqn:E.
  - intros Hk. rewrite (Hf a _ _ _ Hk). eapply Hm, E.
  - intros [= _ <-]. eapply Hm, E.
Qed.

Lemma quiet_fmap {A B} (g : A -> B) (m : M A) : quiet m -> quiet (g <$> m).
Proof.
  intros Hm st r st'. unfold fmap, M_fmap.
  destruct (m st) as [[a|msg] st1] eqn:E; intros [= _ <-]; eapply Hm, E.
Qed.

Lemma quiet_try_catch {A} (m : M A) (handler : string -> M A) :
  quiet m -> (forall e, quiet (handler e)) -> quiet (try_catch m handler).
Proof.
  intros Hm Hh st r st'. unfold try_catch.
  destruct (m st) as [[a|msg] st1] eqn:E.
  - intros [= _ <-]. eapply Hm, E.
  - intros Hk. rewrite (Hh msg _ _ _ Hk). eapply Hm, E.
Qed.

Create HintDb quiet.
#[local] Hint Resolve quiet_pure quiet_lift quiet_get_self_df quiet_read
  quiet_new quiet_write : quiet.

Ltac quiet :=
  repeat first
    [ progress auto with quiet
    | apply quiet_fmap
    | apply quiet_try_catch; [|intros ?]
    | apply quiet_bind; [|intros ?]
    | match goal with
      | |- quiet (match ?x with _ => _ end) => destruct x
      end ].

Section Methods.
Context `{Pandas} `{Evaluator}.

Lemma filter_loop_quiet (self_t : DataFrame) (entries : list (string * pyval))
    (filtered : loc) :
  quiet (filter_loop self_t filtered entries).
Proof.
  revert filtered. induction entries as [|[column condition] rest IH];
    intros filtered; simpl.
  - quiet.
  - apply quiet_bind; [unfold filter_step; quiet | intros l; apply IH].
Qed.

#[local] Hint Resolve filter_loop_quiet : quiet.

Lemma quiet_after_lift {A B} (x : res A) (f : A -> M B) :
  (forall a, x = Ok a -> quiet (f a)) -> quiet (lift x ≫= f).
Proof.
  intros Hf st r st'. unfold mbind, M_bind, lift.
  destruct x as [a|msg].
  - apply (Hf a eq_refl).
  - now intros [= _ <-].
Qed.

(** The dispatch of [execute_data_query], without its handler, for an
    operation that evaluates no text. *)
Lemma dispatch_quiet (operation : pyval) :
  (forall operation_type,
      get operation "type" (VStr "") = Ok operation_type ->
      is_str "custom_query" operation_type = false) ->
  exists body : M (option loc),
    quiet body
    /\ execute_data_query operation
       = try_catch body
           (fun e => print ("Error executing data query: " +:+ e);; pure None).
Proof.
  intros Hkind. eexists. split; [|reflexivity].
  apply quiet_after_lift. intros operation_type Htype.
  rewrite (Hkind operation_type Htype).
  unfold _get_statistical_summary, _filter_data, _group_by_analysis,
    _get_correlation_analysis, _get_value_counts.
  repeat match goal with
         | |- quiet (if ?b then _ else _) => destruct b
         end; quiet.
Qed.

Lemma is_str_inv (s : string) (v : pyval) : is_str s v = true -> v = VStr s.
Proof.
  destruct v; try discriminate. simpl. intros E. apply String.eqb_eq in E. now subst.
Qed.

(** What a custom query prints: what the evaluation of its text prints,
    when the text is evaluated, and nothing otherwise. *)
Lemma custom_query_prints (query_text : pyval) (st st' : state) (r : res loc) :
  _execute_custom_query query_text st = (r, st') ->
  (exists l, r = Ok l)
  /\ (stdout st' = stdout st
      \/ exists q, query_text = VStr q
                   /\ stdout st' = stdout st ++ printed (evaluate (self_df st) q st)).
Proof.
  unfold _execute_custom_query, try_catch.
  destruct query_text as [| | |q| |];
    try (unfold lift, new; intros [= <- <-]; split; [eauto | now left]).
  destruct (existsb _ forbidden_keywords).
  - unfold new. intros [= <- <-]. split; [eauto | now left].
  - unfold mbind, M_bind, get_self_df, query, new.
    destruct (returned (evaluate (self_df st) q st));
      intros [= <- <-]; (split; [eauto|]); right; exists q; now split.
Qed.

(** X8.  [execute_data_query] never raises.  When the operation goes
    through it prints nothing of its own: the output is as it was or,
    for a custom query whose text is evaluated, longer by what that
    evaluation printed.  When anything inside raises, it returns [None]
    and prints the one line [Error executing data query: <text>]. *)
Theorem execute_data_query_reports (operation : pyval) (st st' : state)
    (r : res (option loc)) :
  execute_data_query operation st = (r, st') ->
  (exists v, r = Ok v
             /\ (stdout st' = stdout st
                 \/ exists q,
                      get operation "type" (VStr "") = Ok (VStr "custom_query")
                      /\ get operation "query" (VStr "") = Ok (VStr q)
                      /\ stdout st'
                         = stdout st ++ printed (evaluate (self_df st) q st)))
  \/ (r = Ok None
      /\ exists e, stdout st' = stdout st ++ ["Error executing data query: " +:+ e]).
Proof.
  destruct (get operation "type" (VStr "")) as [operation_type|msg] eqn:Htype.
  - destruct (is_str "custom_query" operation_type) eqn:Ecustom.
    + apply is_str_inv in Ecustom. subst operation_type.
      unfold execute_data_query, try_catch, mbind at 1, M_bind at 1, lift at 1.
      rewrite Htype. cbn [is_str String.eqb Ascii.eqb Bool.eqb].
      unfold mbind, M_bind, lift, fmap, M_fmap.
      destruct (get operation "query" (VStr "")) as [query_text|msg] eqn:Hquery.
      * destruct (_execute_custom_query query_text st) as [r1 st1] eqn:Hrun.
        destruct (custom_query_prints query_text st st1 r1 Hrun) as ((l & ->) & Hout).
        intros [= <- <-]. left. exists (Some l). split; [reflexivity|].
        destruct Hout as [Hout|(q & -> & Hout)]; [now left|].
        right. exists q. now repeat split.
      * unfold print, pure. intros [= <- <-]. right.
        split; [reflexivity|]. now exists msg.
    + destruct (dispatch_quiet operation) as (body & Hq & ->).
      { intros t Ht. rewrite Htype in Ht. now injection Ht as <-. }
      unfold try_catch. destruct (body st) as [[v|e] st1] eqn:E.
      * intros [= <- <-]. left. exists v. split; [reflexivity|].
        left. eapply Hq, E.
      * unfold mbind, M_bind, print, pure. intros [= <- <-]. right.
        split; [reflexivity|]. exists e. cbn [stdout]. now rewrite (Hq _ _ _ E).
  - unfold execute_data_query, try_catch, mbind at 1, M_bind at 1, lift at 1.
    rewrite Htype. unfold mbind, M_bind, print, pure. intros [= <- <-]. right.
    split; [reflexivity|]. now exists msg.
Qed.

(** X9.  An operation without a [type], or with a type that is none of
    the six, returns [None] and leaves the state alone. *)
Theorem unknown_operation (operation operation_type : pyval) (st : state) :
  get operation "type" (VStr EmptyString) = Ok operation_type ->
  (forall kind,
      In kind ["statistical_summary"; "filter"; "group_by"; "correlation";
               "value_counts"; "custom_query"] ->
      is_str kind operation_type = false) ->
  execute_data_query operation st = (Ok None, st).
Proof.
  intros Htype Hkind.
  unfold execute_data_query, try_catch, mbind, M_bind, lift. rewrite Htype.
  rewrite !Hkind by (simpl; auto 10). reflexivity.
Qed.

(** *** The objects a method returns *)

Lemma unused_before (st st1 : state) (l : loc) :
  stable st st1 -> heap st1 !! l = None -> heap st !! l = None.
Proof.
  intros (_ & _ & Hh) Hl. destruct (heap st !! l) as [t|] eqn:E; [|reflexivity].
  pose proof (Hh l (ex_intro _ t E)) as Hk. congruence.
Qed.

Lemma kept_after (st st1 : state) (l : loc) :
  stable st st1 -> is_Some (heap st !! l) -> is_Some (heap st1 !! l).
Proof. intros (_ & _ & Hh) Hl. now rewrite Hh. Qed.

Lemma returns_new_new (keep : loc -> Prop) (t : DataFrame) : returns_new keep (new t).
Proof.
  intros st l st' [= <- <-]. left. cbn [heap]. split.
  - apply fresh_unused.
  - rewrite lookup_insert_eq. eauto.
Qed.

Lemma returns_new_pure (l : loc) : returns_new (eq l) (pure l).
Proof. intros st l' st' [= <- <-]. now right. Qed.

Lemma returns_new_raise (keep : loc -> Prop) (msg : string) :
  returns_new keep (lift (Raise msg)).
Proof. intros st l st' [=]. Qed.

Lemma returns_new_bind {A} (keep : loc -> Prop) (m : M A) (f : A -> M loc) :
  preserves m -> (forall a, returns_new keep (f a)) -> returns_new keep (m ≫= f).
Proof.
  intros Hm Hf st l st'. unfold mbind, M_bind.
  destruct (m st) as [[a|msg] st1] eqn:E; [|discriminate].
  intros Hk. destruct (Hf a st1 l st' Hk) as [[Hnone Hsome]|Hkeep]; [left|now right].
  split; [|exact Hsome]. eapply unused_before; [eapply Hm, E | exact Hnone].
Qed.

Lemma unused_before_growth (st st1 : state) (l : loc) :
  (forall k, is_Some (heap st !! k) -> is_Some (heap st1 !! k)) ->
  heap st1 !! l = None -> heap st !! l = None.
Proof.
  intros Hg Hl. destruct (heap st !! l) as [t|] eqn:E; [|reflexivity].
  destruct (Hg l) as [t1 Ht1]; [now rewrite E|]. congruence.
Qed.

Lemma grows_query (l : loc) (q : string) : grows (query l q).
Proof.
  intros st r st' k. unfold query. intros [= _ <-] [t Ht]. cbn [heap].
  destruct (written (evaluate l q st) !! k) as [t'|] eqn:E.
  - exists t'. now apply lookup_union_Some_l.
  - exists t. now rewrite lookup_union_r.
Qed.

Lemma returns_new_after_growth {A} (keep : loc -> Prop) (m : M A) (f : A -> M loc) :
  grows m -> (forall a, returns_new keep (f a)) -> returns_new keep (m ≫= f).
Proof.
  intros Hm Hf st l st'. unfold mbind, M_bind.
  destruct (m st) as [[a|msg] st1] eqn:E; [|discriminate].
  intros Hk. destruct (Hf a st1 l st' Hk) as [[Hnone Hsome]|Hkeep]; [left|now right].
  split; [|exact Hsome].
  apply (unused_before_growth st st1); [|exact Hnone].
  intros k. now apply (Hm st (Ok a) st1 k).
Qed.

Lemma returns_new_try_catch (keep : loc -> Prop) (m : M loc) (handler : string -> M loc) :
  grows m -> returns_new keep m -> (forall e, returns_new keep (handler e)) ->
  returns_new keep (try_catch m handler).
Proof.
  intros Hp Hm Hh st l st'. unfold try_catch.
  destruct (m st) as [[a|msg] st1] eqn:E.
  - intros [= <- <-]. now apply (Hm st a st1).
  - intros Hk. destruct (Hh msg st1 l st' Hk) as [[Hnone Hsome]|Hkeep]; [left|now right].
    split; [|exact Hsome].
    apply (unused_before_growth st st1); [|exact Hnone].
    intros k. now apply (Hp st (Raise msg) st1 k).
Qed.

(** An object made and then updated in place is still a new one. *)
Lemma returns_new_write (keep : loc -> Prop) (t t' : DataFrame) (b : bool) (msg : string) :
  returns_new keep (l ← new t; if b then write l t';; pure l else lift (Raise msg)).
Proof.
  intros st l st'. unfold mbind, M_bind, new, write, pure, lift. cbn [heap].
  destruct b; [|discriminate]. intros [= <- <-]. left. cbn [heap]. split.
  - apply fresh_unused.
  - rewrite lookup_insert_eq. eauto.
Qed.

Create HintDb fresh.
#[local] Hint Resolve returns_new_new returns_new_raise returns_new_write
  preserves_pure preserves_lift preserves_get_self_df preserves_read
  preserves_new : fresh.

Ltac fresh_result :=
  repeat first
    [ progress auto with fresh
    | apply returns_new_bind; [|intros ?]
    | apply preserves_bind; [|intros ?]
    | match goal with
      | |- returns_new _ (match ?x with _ => _ end) => destruct x
      | |- preserves (match ?x with _ => _ end) => destruct x
      end ].

Lemma filter_step_new (self_t : DataFrame) (filtered : loc) (entry : string * pyval) :
  returns_new (eq filtered) (filter_step self_t filtered entry).
Proof.
  unfold filter_step. destruct entry as [column condition].
  destruct (negb (has_column self_t column)); [apply returns_new_pure|].
  apply returns_new_bind; [auto with fresh|]. intros operator.
  apply returns_new_bind; [auto with fresh|]. intros value.
  destruct (operator_of operator); [fresh_result|].
  destruct (is_str "contains" operator); [fresh_result | apply returns_new_pure].
Qed.

Lemma filter_loop_new (self_t : DataFrame) (entries : list (string * pyval))
    (filtered : loc) (st st' : state) (l : loc) :
  is_Some (heap st !! filtered) ->
  filter_loop self_t filtered entries st = (Ok l, st') ->
  is_Some (heap st' !! l) /\ (heap st !! l = None \/ l = filtered).
Proof.
  revert filtered st. induction entries as [|entry rest IH]; intros filtered st Hf.
  - intros [= <- <-]. auto.
  - cbn [filter_loop]. unfold mbind at 1, M_bind at 1.
    destruct (filter_step self_t filtered entry st) as [[f1|msg] st1] eqn:E;
      [|discriminate].
    intros Hk.
    pose proof (filter_step_frame self_t filtered entry st _ _ E) as Hst.
    assert (Hf1 : is_Some (heap st1 !! f1)).
    { destruct (filter_step_new self_t filtered entry st f1 st1 E) as [[_ Hs]| <-];
        [exact Hs | now apply (kept_after st st1)]. }
    destruct (IH f1 st1 Hf1 Hk) as (Hsome & [Hnone | ->]).
    + split; [exact Hsome|]. left. now apply (unused_before st st1).
    + split; [exact Hsome|].
      destruct (filter_step_new self_t filtered entry st f1 st1 E) as [[Hn _]| <-]; auto.
Qed.

Lemma filter_data_new (conditions : pyval) :
  returns_new (fun _ => False) (_filter_data conditions).
Proof.
  intros st l st'. unfold _filter_data, mbind, M_bind, get_self_df, read.
  destruct (heap st !! self_df st) as [t|]; [|discriminate].
  unfold new at 1.
  destruct conditions; try discriminate.
  set (f := fresh (dom (heap st))).
  set (st1 := mkState (<[f := t]> (heap st)) (self_df st) (self_column_mapping st)
                (stdout st)).
  intros Hk. left.
  assert (Hf : is_Some (heap st1 !! f))
    by (unfold st1; cbn [heap]; rewrite lookup_insert_eq; eauto).
  destruct (filter_loop_new t d f st1 st' l Hf Hk) as (Hsome & Hl).
  split; [|exact Hsome].
  destruct Hl as [Hnone | ->].
  - unfold st1 in Hnone. cbn [heap] in Hnone.
    destruct (decide (f = l)) as [<-|Hne]; [apply fresh_unused|].
    now rewrite lookup_insert_ne in Hnone.
  - apply fresh_unused.
Qed.

Lemma statistical_summary_new (columns : pyval) :
  returns_new (fun _ => False) (_get_statistical_summary columns).
Proof. unfold _get_statistical_summary. fresh_result. Qed.

Lemma group_by_new (group_column agg_column agg_function : pyval) :
  returns_new (fun _ => False) (_group_by_analysis group_column agg_column agg_function).
Proof. unfold _group_by_analysis. fresh_result. Qed.

Lemma correlation_new (columns : pyval) :
  returns_new (fun _ => False) (_get_correlation_analysis columns).
Proof. unfold _get_correlation_analysis. fresh_result. Qed.

Lemma value_counts_new (column : pyval) :
  returns_new (fun _ => False) (_get_value_counts column).
Proof. unfold _get_value_counts. fresh_result. Qed.

Lemma grows_custom_query_body (q : string) :
  grows (if existsb (fun keyword => contains keyword (lower q)) forbidden_keywords
         then new empty_frame
         else self ← get_self_df; result ← query self q; new result).
Proof.
  assert (Hnew : forall t, grows (new t)).
  { intros t st r st' k [= _ <-] Hk.
    now apply (kept_after st _ k (preserves_new t st _ _ eq_refl)). }
  destruct (existsb _ forbidden_keywords); [apply Hnew|].
  intros st r st' k. unfold mbind, M_bind, get_self_df.
  destruct (query (self_df st) q st) as [[result|msg] st1] eqn:E.
  - intros Hk Hsome. apply (Hnew result st1 r st' k Hk).
    now apply (grows_query (self_df st) q st _ st1 k E).
  - intros [= _ <-]. now apply (grows_query (self_df st) q st _ st1 k E).
Qed.

Lemma custom_query_new (query_text : pyval) :
  returns_new (fun _ => False) (_execute_custom_query query_text).
Proof.
  unfold _execute_custom_query.
  apply returns_new_try_catch; [| |intros e; fresh_result].
  - destruct query_text;
      try (intros st r st' k [= _ <-] Hk; exact Hk).
    apply grows_custom_query_body.
  - destruct query_text; auto with fresh.
    destruct (existsb _ forbidden_keywords); [auto with fresh|].
    apply returns_new_bind; [auto with fresh|]. intros self.
    apply returns_new_after_growth; [apply grows_query|]. intros result.
    auto with fresh.
Qed.

Lemma option_fmap_new (m : M loc) :
  returns_new (fun _ => False) m -> returns_new_or_none (Some <$> m).
Proof.
  intros Hm st l st'. unfold fmap, M_fmap.
  destruct (m st) as [[a|msg] st1] eqn:E; [|discriminate].
  intros [= <- <-]. now destruct (Hm st a st1 E).
Qed.

Lemma option_bind_new {A} (m : M A) (f : A -> M (option loc)) :
  preserves m -> (forall a, returns_new_or_none (f a)) -> returns_new_or_none (m ≫= f).
Proof.
  intros Hm Hf st l st'. unfold mbind, M_bind.
  destruct (m st) as [[a|msg] st1] eqn:E; [|discriminate].
  intros Hk. destruct (Hf a st1 l st' Hk) as [Hnone Hsome].
  split; [|exact Hsome]. eapply unused_before; [eapply Hm, E | exact Hnone].
Qed.

Lemma option_none_new : returns_new_or_none (pure None).
Proof. intros st l st' [=]. Qed.

#[local] Hint Resolve statistical_summary_new filter_data_new group_by_new
  correlation_new value_counts_new custom_query_new option_none_new : fresh.

Lemma dispatch_new (operation : pyval) :
  exists body : M (option loc),
    returns_new_or_none body
    /\ execute_data_query operation
       = try_catch body
           (fun e => print ("Error executing data query: " +:+ e);; pure None).
Proof.
  eexists. split; [|reflexivity].
  apply option_bind_new; [auto with fresh|]. intros operation_type.
  repeat match goal with
         | |- returns_new_or_none (if ?b then _ else _) => destruct b
         | |- returns_new_or_none (mbind _ _) =>
             apply option_bind_new; [auto with fresh | intros ?]
         | |- returns_new_or_none (fmap _ _) => apply option_fmap_new
         end;
    auto with fresh.
Qed.

(** X10.  A table that [execute_data_query] returns is an object made
    during the call: it did not exist before, so it is never the stored
    table itself. *)
Theorem execute_data_query_returns_new (operation : pyval) (st st' : state) (l : loc) :
  execute_data_query operation st = (Ok (Some l), st') ->
  heap st !! l = None /\ is_Some (heap st' !! l).
Proof.
  destruct (dispatch_new operation) as (body & Hb & ->).
  unfold try_catch. destruct (body st) as [[v|e] st1] eqn:E.
  - intros [= -> <-]. now apply (Hb st l st1).
  - unfold mbind, M_bind, print, pure. discriminate.
Qed.

(** *** Edge cases of the methods *)

Lemma filter_loop_skip (df : DataFrame) (entries : list (string * pyval))
    (filtered : loc) (st : state) :
  (forall entry, In entry entries -> has_column df (fst entry) = false) ->
  filter_loop df filtered entries st = (Ok filtered, st).
Proof.
  induction entries as [|[column condition] rest IH]; intros Habsent; [reflexivity|].
  cbn [filter_loop]. unfold mbind, M_bind, filter_step.
  pose proof (Habsent (column, condition) (or_introl eq_refl)) as Hc.
  cbn [fst] in Hc. rewrite Hc.
  cbn [negb pure]. apply IH. intros entry Hin. apply Habsent. now right.
Qed.

(** X11.  A filter whose conditions all name columns that the table does
    not have, and the filter without conditions, return a copy of the
    table: a new object with the same content. *)
Theorem filter_without_conditions (st : state) (df : DataFrame)
    (entries : list (string * pyval)) :
  heap st !! self_df st = Some df ->
  (forall entry, In entry entries -> has_column df (fst entry) = false) ->
  exists (l : loc) (st' : state),
    _filter_data (VDict entries) st = (Ok l, st')
    /\ heap st' !! l = Some df
    /\ l <> self_df st
    /\ heap st' !! self_df st = Some df.
Proof.
  intros Hdf Habsent.
  unfold _filter_data, mbind, M_bind, get_self_df, read. rewrite Hdf.
  unfold new at 1. rewrite filter_loop_skip by exact Habsent.
  do 2 eexists. split; [reflexivity|]. cbn [heap].
  assert (Hne : fresh (dom (heap st)) <> self_df st).
  { intros E. pose proof (fresh_unused (heap st)) as Hf. rewrite E in Hf. congruence. }
  repeat split.
  - apply lookup_insert_eq.
  - exact Hne.
  - now rewrite lookup_insert_ne.
Qed.

(** X12.  Grouping by, or counting the values of, a column that the
    table does not have returns a new empty table, whatever the other
    arguments. *)
Theorem absent_column_gives_empty (st : state) (df : DataFrame) (column : string) :
  heap st !! self_df st = Some df ->
  has_column df column = false ->
  (forall agg_column agg_function,
      exists (l : loc) (st' : state),
        _group_by_analysis (VStr column) agg_column agg_function st = (Ok l, st')
        /\ heap st' !! l = Some empty_frame)
  /\ (exists (l : loc) (st' : state),
        _get_value_counts (VStr column) st = (Ok l, st')
        /\ heap st' !! l = Some empty_frame).
Proof.
  intros Hdf Habsent. split; [intros agg_column agg_function|].
  - unfold _group_by_analysis, mbind, M_bind, get_self_df, read, lift, in_columns.
    rewrite Hdf, Habsent. do 2 eexists. split; [reflexivity|].
    cbn [heap]. apply lookup_insert_eq.
  - unfold _get_value_counts, mbind, M_bind, get_self_df, read, lift, in_columns.
    rewrite Hdf, Habsent. do 2 eexists. split; [reflexivity|].
    cbn [heap]. apply lookup_insert_eq.
Qed.

(** X13.  A query text without any of the six keywords is handed to
    [df.query]; the caller gets its result, or a new empty table when the
    evaluation raises. *)
Theorem custom_query_passes (st : state) (q : string) :
  existsb (fun keyword => contains keyword (lower q)) forbidden_keywords = false ->
  exists (l : loc) (st' : state),
    _execute_custom_query (VStr q) st = (Ok l, st')
    /\ heap st' !! l
       = Some (match returned (evaluate (self_df st) q st) with
               | Ok result => result
               | Raise _ => empty_frame
               end).
Proof.
  intros Hq. rewrite (custom_query_evaluates q st Hq).
  do 2 eexists. split; [reflexivity|]. cbn [heap]. apply lookup_insert_eq.
Qed.

(** X14.  Asked for the correlation without a list of columns, a table
    with fewer than two numeric columns gives a new empty table. *)
Theorem correlation_needs_two (st : state) (df : DataFrame) (columns : pyval) :
  heap st !! self_df st = Some df ->
  truthy columns = false ->
  (List.length (numeric_columns df) < 2)%nat ->
  exists (l : loc) (st' : state),
    _get_correlation_analysis columns st = (Ok l, st')
    /\ heap st' !! l = Some empty_frame.
Proof.
  intros Hdf Hc Hn.
  unfold _get_correlation_analysis, mbind, M_bind, get_self_df, read. rewrite Hdf, Hc.
  cbn [negb pure]. rewrite (proj2 (Nat.ltb_lt _ _) Hn).
  do 2 eexists. split; [reflexivity|]. cbn [heap]. apply lookup_insert_eq.
Qed.

(** *** The default of the statistical summary *)

Lemma valid_columns_present (df : DataFrame) (names : list string) :
  (forall n, In n names -> has_column df n = true) ->
  valid_columns df (List.map VStr names) = Ok names.
Proof.
  induction names as [|n rest IH]; intros Hall; [reflexivity|].
  cbn [List.map valid_columns in_columns]. rewrite (Hall n) by now left.
  cbn [mbind res_bind]. rewrite IH; [reflexivity|].
  intros m Hm. apply Hall. now right.
Qed.

Lemma numeric_columns_present (df : DataFrame) (n : string) :
  In n (numeric_columns df) -> has_column df n = true.
Proof.
  unfold numeric_columns, has_column, str_in, columns. intros Hin.
  apply in_map_iff in Hin as (p & <- & Hp). apply filter_In in Hp as [Hp _].
  apply existsb_exists. exists (fst p). split; [|apply String.eqb_refl].
  apply in_map_iff. now exists p.
Qed.

Lemma only_one_labelled (l : list (string * Series)) (p : string * Series) :
  List.NoDup (List.map fst l) -> In p l ->
  List.filter (fun q => String.eqb (fst q) (fst p)) l = [p].
Proof.
  induction l as [|q l IH]; intros Hnd Hin; [contradiction|].
  cbn [List.map] in Hnd. inversion Hnd as [|? ? Hq Hl]; subst.
  cbn [List.filter]. destruct Hin as [->|Hin].
  - rewrite String.eqb_refl. f_equal.
    clear IH Hnd Hl. induction l as [|r l IH]; [reflexivity|].
    cbn [List.filter List.map] in *.
    destruct (String.eqb (fst r) (fst p)) eqn:E.
    + apply String.eqb_eq in E. exfalso. apply Hq. left. exact E.
    + apply IH. intros Hin. apply Hq. now right.
  - destruct (String.eqb (fst q) (fst p)) eqn:E.
    + apply String.eqb_eq in E. exfalso. apply Hq. rewrite E.
      apply in_map_iff. now exists p.
    + now apply IH.
Qed.

Lemma take_numeric_columns (df : DataFrame) :
  List.NoDup (columns df) ->
  take_columns df (numeric_columns df)
  = mkFrame (nrows df) (List.filter (fun p => is_numeric (snd p)) (cols df)).
Proof.
  intros Hnd. unfold take_columns, numeric_columns. f_equal.
  rewrite List.flat_map_concat_map, List.map_map.
  assert (Hall : forall p, In p (List.filter (fun p => is_numeric (snd p)) (cols df)) ->
            In p (cols df)) by (intros p Hp; now apply filter_In in Hp).
  induction (List.filter (fun p => is_numeric (snd p)) (cols df)) as [|p l IH];
    [reflexivity|].
  cbn [List.map List.concat].
  rewrite (only_one_labelled (cols df) p Hnd) by (apply Hall; now left).
  cbn [app]. f_equal. apply IH. intros q Hq. apply Hall. now right.
Qed.

(** X15.  Without a list of columns the statistical summary describes
    the numeric columns of the table, all of them and nothing else; a
    table without numeric columns gives a new empty table. *)
Theorem statistical_summary_default (st : state) (df : DataFrame) (columns : pyval) :
  heap st !! self_df st = Some df ->
  truthy columns = false ->
  List.NoDup (Pd.columns df) ->
  _get_statistical_summary columns st
  = match numeric_columns df with
    | [] => new empty_frame st
    | _ =>
        (r ← lift (describe
                     (mkFrame (nrows df)
                        (List.filter (fun p => is_numeric (snd p)) (cols df))));
         new r) st
    end.
Proof.
  intros Hdf Hc Hnd.
  unfold _get_statistical_summary. unfold mbind at 1 2, M_bind at 1 2, get_self_df, read.
  rewrite Hdf, Hc. cbn [negb iter]. unfold mbind at 1, M_bind at 1, lift at 1.
  unfold mbind at 1, M_bind at 1, lift at 1.
  rewrite valid_columns_present by apply numeric_columns_present.
  rewrite <- (take_numeric_columns df Hnd).
  now destruct (numeric_columns df).
Qed.


End Methods.

(** A session with [people] loaded, and one with the table of [sales]. *)
Local Abbreviation session :=
  (mkState {[ 1%positive := Demo.people ]} 1%positive
     (Loader.dict_zip ["name"] ["Name"]) []).

Local Abbreviation sales_table :=
  (mkFrame 2
     [("units", mkSeries DInt64 [Scalar "3"; Scalar "5"]);
      ("order_date", mkSeries DObject [Str "2024-01-05"; Str "n/a"])]).

Local Abbreviation sales_session :=
  (mkState {[ 1%positive := sales_table ]} 1%positive
     (Loader.dict_zip ["units"; "order_date"] ["Units"; "Order Date"]) []).

Local Abbreviation contains_an :=
  (VDict [("type", VStr "filter");
          ("conditions",
           VDict [("name", VDict [("operator", VStr "contains");
                                  ("value", VStr "an")])])]).

Lemma execute_data_query_reports_witness :
  let operation := VDict [("type", VStr "value_counts"); ("column", VStr "name")] in
  let run := @execute_data_query Demo.demo_pandas Demo.demo_evaluator operation session in
  (exists v, run.1 = Ok v
             /\ (stdout run.2 = stdout session
                 \/ exists q,
                      get operation "type" (VStr "") = Ok (VStr "custom_query")
                      /\ get operation "query" (VStr "") = Ok (VStr q)
                      /\ stdout run.2
                         = stdout session
                           ++ printed (@evaluate Demo.demo_evaluator (self_df session) q
                                         session)))
  \/ (run.1 = Ok None
      /\ exists e,
          stdout run.2 = stdout session ++ ["Error executing data query: " +:+ e]).
Proof.
  intros operation run.
  apply (@execute_data_query_reports Demo.demo_pandas Demo.demo_evaluator operation
           session run.2 run.1).
  vm_compute. reflexivity.
Defined.

Lemma unknown_operation_witness :
  @execute_data_query Demo.demo_pandas Demo.demo_evaluator (VDict [("columns", VList [])]) session
  = (Ok None, session).
Proof.
  apply (@unknown_operation Demo.demo_pandas Demo.demo_evaluator (VDict [("columns", VList [])])
           (VStr EmptyString) session).
  - reflexivity.
  - intros kind Hk. simpl in Hk.
    repeat (destruct Hk as [<-|Hk]; [reflexivity|]). contradiction.
Defined.

Lemma execute_data_query_returns_new_witness :
  let run := @execute_data_query Demo.demo_pandas Demo.demo_evaluator contains_an session in
  heap session !! 3%positive = None /\ is_Some (heap run.2 !! 3%positive).
Proof.
  intros run.
  apply (@execute_data_query_returns_new Demo.demo_pandas Demo.demo_evaluator contains_an session run.2
           3%positive).
  vm_compute. reflexivity.
Defined.

Lemma filter_without_conditions_witness :
  exists (l : loc) (st' : state),
    @_filter_data Demo.demo_pandas
      (VDict [("age", VDict [("operator", VStr ">"); ("value", VNum "30")])]) session
    = (Ok l, st')
    /\ heap st' !! l = Some Demo.people
    /\ l <> self_df session
    /\ heap st' !! self_df session = Some Demo.people.
Proof.
  apply (@filter_without_conditions Demo.demo_pandas session Demo.people
           [("age", VDict [("operator", VStr ">"); ("value", VNum "30")])]).
  - vm_compute. reflexivity.
  - intros entry [<-|[]]. vm_compute. reflexivity.
Defined.

Lemma absent_column_gives_empty_witness :
  (forall agg_column agg_function,
      exists (l : loc) (st' : state),
        @_group_by_analysis Demo.demo_pandas (VStr "age") agg_column agg_function session
        = (Ok l, st')
        /\ heap st' !! l = Some empty_frame)
  /\ (exists (l : loc) (st' : state),
        @_get_value_counts Demo.demo_pandas (VStr "age") session = (Ok l, st')
        /\ heap st' !! l = Some empty_frame).
Proof.
  apply (@absent_column_gives_empty Demo.demo_pandas session Demo.people "age");
    vm_compute; reflexivity.
Defined.

Lemma custom_query_passes_witness :
  exists (l : loc) (st' : state),
    @_execute_custom_query Demo.demo_evaluator (VStr "name == 'Ann'") session = (Ok l, st')
    /\ heap st' !! l
       = Some (match returned (@evaluate Demo.demo_evaluator (self_df session)
                                 "name == 'Ann'" session) with
               | Ok result => result
               | Raise _ => empty_frame
               end).
Proof.
  apply (@custom_query_passes Demo.demo_evaluator session "name == 'Ann'").
  vm_compute. reflexivity.
Defined.


Lemma correlation_needs_two_witness :
  exists (l : loc) (st' : state),
    @_get_correlation_analysis Demo.demo_pandas (VList []) sales_session = (Ok l, st')
    /\ heap st' !! l = Some empty_frame.
Proof.
  apply (@correlation_needs_two Demo.demo_pandas sales_session sales_table (VList [])).
  - vm_compute. reflexivity.
  - reflexivity.
  - vm_compute. lia.
Defined.

Lemma statistical_summary_default_witness :
  @_get_statistical_summary Demo.demo_pandas (VList []) sales_session
  = match numeric_columns sales_table with
    | [] => new empty_frame sales_session
    | _ =>
        (r ← lift (@describe Demo.demo_pandas
                     (mkFrame (nrows sales_table)
                        (List.filter (fun p => is_numeric (snd p)) (cols sales_table))));
         new r) sales_session
    end.
Proof.
  apply (@statistical_summary_default Demo.demo_pandas sales_session sales_table (VList [])).
  - vm_compute. reflexivity.
  - reflexivity.
  - repeat constructor; simpl; intuition discriminate.
Defined.

End QueryMore.

(** ** More on the Plot Code Sandbox *)
Module SandboxMore.
Import PyStr PyStrFacts Pd Sandbox NormalizerMore.

Local Abbreviation not_newline := (fun c => negb (Ascii.eqb c newline)).
Local Abbreviation not_quote := (fun c => negb (is_code 39 c || is_code 34 c)).

(** *** Lines *)

Lemma split_lines_not_nil (s : string) : split_lines s <> [].
Proof.
  induction s as [|c r IH]; simpl; [discriminate|].
  destruct (split_lines r); [discriminate|].
  now destruct (Ascii.eqb c newline).
Qed.

Lemma split_lines_no_newline (s : string) :
  Forall (fun l => sall not_newline l = true) (split_lines s).
Proof.
  induction s as [|c r IH]; simpl; [now constructor|].
  destruct (split_lines r) as [|l ls]; [now constructor|].
  inversion IH as [|? ? Hl Hls]; subst.
  destruct (Ascii.eqb c newline) eqn:E.
  - constructor; [reflexivity|]. now constructor.
  - constructor; [|exact Hls]. simpl. now rewrite E, Hl.
Qed.

Lemma split_lines_single (s : string) :
  sall not_newline s = true -> split_lines s = [s].
Proof.
  induction s as [|c r IH]; simpl; [reflexivity|].
  intros [Hc Hr]%andb_true_iff. rewrite (IH Hr).
  apply negb_true_iff in Hc. now rewrite Hc.
Qed.

Lemma join_sall (p : ascii -> bool) (sep : string) (l : list string) :
  sall p sep = true -> Forall (fun x => sall p x = true) l ->
  sall p (join sep l) = true.
Proof.
  intros Hsep Hl. induction Hl as [|x l Hx Hl IH]; [reflexivity|].
  destruct l as [|y l]; [exact Hx|].
  change (join sep (x :: y :: l)) with (x +:+ sep +:+ join sep (y :: l)).
  clear Hl. revert IH. generalize (join sep (y :: l)). intros t Ht.
  induction x as [|c r IHx].
  - change (sall p (sep +:+ t) = true).
    revert Hsep. clear -Ht. induction sep as [|c r IH]; [intros _; exact Ht|].
    rewrite sapp_cons. simpl. intros [-> Hr]%andb_true_iff. now apply IH.
  - rewrite sapp_cons. simpl in *. apply andb_true_iff in Hx as [-> Hr]. now apply IHx.
Qed.

Lemma clean_lines_no_newline (code : string) :
  Forall (fun l => sall not_newline l = true)
    (List.filter keep_line (List.map strip (split_lines (strip code)))).
Proof.
  apply List.Forall_forall. intros l Hl.
  apply filter_In in Hl as [Hl _]. apply in_map_iff in Hl as (x & <- & Hx).
  apply sall_strip.
  pose proof (split_lines_no_newline (strip code)) as Hall.
  rewrite List.Forall_forall in Hall. now apply Hall.
Qed.

(** X16.  What the cleaning hands to the next step is one line: it holds
    no line break, whatever the snippet was. *)
Theorem clean_single_line (code : string) :
  sall (fun c => negb (Ascii.eqb c newline)) (clean code) = true.
Proof.
  unfold clean.
  destruct (1 <? List.length _)%nat;
    apply join_sall; try reflexivity; apply clean_lines_no_newline.
Qed.

(** *** Cleaning twice *)

Local Abbreviation not_semicolon := (fun c => negb (Ascii.eqb c ";"%char)).
Local Abbreviation tidy :=
  (fun z => lstrip_by isspace z = z /\ rstrip_by isspace z = z
            /\ keep_line z = true /\ sall not_newline z = true).

Lemma clean_fixed (s : string) :
  sall not_newline s = true -> strip s = s -> keep_line s = true -> clean s = s.
Proof.
  intros Hn Hs Hk. unfold clean.
  rewrite Hs, (split_lines_single s Hn). cbn [List.map List.filter].
  rewrite Hs, Hk. reflexivity.
Qed.

Lemma clean_lines_tidy (code : string) :
  Forall tidy (List.filter keep_line (List.map strip (split_lines (strip code)))).
Proof.
  apply List.Forall_forall. intros l Hl.
  pose proof (clean_lines_no_newline code) as Hall.
  rewrite List.Forall_forall in Hall. specialize (Hall l Hl).
  apply filter_In in Hl as [Hl Hk]. apply in_map_iff in Hl as (x & <- & _).
  repeat split; try assumption.
  - apply lstrip_after_strip.
  - apply rstrip_idem.
Qed.

Lemma lstrip_app (p : ascii -> bool) (a b : string) :
  is_empty a = false -> lstrip_by p a = a -> lstrip_by p (a +:+ b) = a +:+ b.
Proof.
  destruct a as [|c r]; [discriminate|]. intros _ Ha.
  rewrite sapp_cons. simpl in *. destruct (p c) eqn:E; [|reflexivity].
  exfalso. assert (Hlen : String.length (lstrip_by p r) = S (String.length r))
    by now rewrite Ha.
  assert (Hle : forall t, (String.length (lstrip_by p t) <= String.length t)%nat).
  { clear. induction t as [|d t IH]; simpl; [lia|]. destruct (p d); simpl; lia. }
  specialize (Hle r). lia.
Qed.

Lemma startswith_before_semicolon (p x t : string) :
  sall not_semicolon p = true -> startswith p x = false ->
  startswith p (x +:+ String ";"%char t) = false.
Proof.
  revert x. induction p as [|a p IH]; intros x Hp Hx; [discriminate Hx|].
  simpl in Hp. apply andb_true_iff in Hp as [Ha Hp].
  destruct x as [|b x].
  - change (EmptyString +:+ String ";"%char t) with (String ";"%char t).
    simpl. apply negb_true_iff in Ha. now rewrite Ha.
  - rewrite sapp_cons. simpl in *. destruct (Ascii.eqb a b); [|reflexivity].
    simpl in *. now apply IH.
Qed.

Lemma sall_semicolon (q : ascii -> bool) (x t : string) :
  q ";"%char = false -> sall q (x +:+ String ";"%char t) = false.
Proof.
  intros Hq. induction x as [|c r IH].
  - change (EmptyString +:+ String ";"%char t) with (String ";"%char t).
    simpl. now rewrite Hq.
  - rewrite sapp_cons. simpl. rewrite IH. apply andb_false_r.
Qed.

Lemma keep_line_not_empty (z : string) : keep_line z = true -> is_empty z = false.
Proof.
  unfold keep_line. intros Hk.
  repeat (apply andb_true_iff in Hk as [Hk ?]).
  now apply negb_true_iff.
Qed.

Lemma keep_line_before_semicolon (x t : string) :
  keep_line x = true -> keep_line (x +:+ String ";"%char t) = true.
Proof.
  unfold keep_line. intros Hk.
  repeat (apply andb_true_iff in Hk as [Hk ?]).
  repeat match goal with Hn : negb _ = true |- _ => apply negb_true_iff in Hn end.
  rewrite !startswith_before_semicolon by (assumption || reflexivity).
  destruct x as [|c r]; [discriminate|]. rewrite sapp_cons. cbn [is_empty negb andb].
  rewrite <- sapp_cons.
  assert (Hne : forall w, sall not_semicolon w = true ->
                  String.eqb (String c r +:+ String ";"%char t) w = false).
  { intros w Hw. destruct (String.eqb _ w) eqn:E; [|reflexivity].
    apply String.eqb_eq in E. rewrite <- E, sall_semicolon in Hw; [discriminate|reflexivity]. }
  rewrite !Hne by reflexivity. reflexivity.
Qed.

Lemma join_tidy (x y : string) (r : list string) :
  Forall tidy (x :: y :: r) -> tidy (join "; " (x :: y :: r)).
Proof.
  revert x y. induction r as [|z r IH]; intros x y Hall.
  - inversion Hall as [|? ? (Hlx & Hrx & Hkx & Hnx) Hrest]; subst.
    inversion Hrest as [|? ? (Hly & Hry & Hky & Hny) _]; subst.
    change (join "; " [x; y]) with (x +:+ String ";"%char (" " +:+ y)).
    repeat split.
    + apply lstrip_app; [now apply keep_line_not_empty|assumption].
    + change (x +:+ String ";"%char (" " +:+ y)) with (x +:+ "; " +:+ y).
      rewrite <- sapp_assoc.
      apply rstrip_app; [now apply keep_line_not_empty|assumption].
    + now apply keep_line_before_semicolon.
    + change (x +:+ String ";"%char (" " +:+ y)) with (join "; " [x; y]).
      apply join_sall; [reflexivity|]. repeat constructor; assumption.
  - inversion Hall as [|? ? (Hlx & Hrx & Hkx & Hnx) Hrest]; subst.
    destruct (IH y z Hrest) as (Hlj & Hrj & Hkj & Hnj).
    change (join "; " (x :: y :: z :: r))
      with (x +:+ String ";"%char (" " +:+ join "; " (y :: z :: r))).
    repeat split.
    + apply lstrip_app; [now apply keep_line_not_empty|assumption].
    + change (x +:+ String ";"%char (" " +:+ join "; " (y :: z :: r)))
        with (x +:+ "; " +:+ join "; " (y :: z :: r)).
      rewrite <- sapp_assoc.
      apply rstrip_app; [now apply keep_line_not_empty|assumption].
    + now apply keep_line_before_semicolon.
    + change (x +:+ String ";"%char (" " +:+ join "; " (y :: z :: r)))
        with (join "; " (x :: y :: z :: r)).
      apply join_sall; [reflexivity|].
      apply List.Forall_forall. intros l Hl.
      rewrite List.Forall_forall in Hall. now destruct (Hall l Hl) as (_ & _ & _ & ?).
Qed.

Lemma tidy_fixed (z : string) : tidy z -> clean z = z.
Proof.
  intros (Hl & Hr & Hk & Hn). apply clean_fixed; try assumption.
  unfold strip, strip_by. now rewrite Hl.
Qed.

(** X17.  Cleaning is idempotent: what it returns passes through it
    unchanged, so a snippet that is run again after cleaning is the same
    snippet. *)
Theorem clean_idempotent (code : string) : clean (clean code) = clean code.
Proof.
  pose proof (clean_lines_tidy code) as Hall. unfold clean at 2 3.
  destruct (List.filter keep_line (List.map strip (split_lines (strip code))))
    as [|x [|y r]].
  - vm_compute. reflexivity.
  - cbn [List.length Nat.ltb Nat.leb join]. apply tidy_fixed.
    now inversion Hall.
  - replace (1 <? List.length (x :: y :: r))%nat with true by reflexivity.
    apply tidy_fixed. now apply join_tidy.
Qed.

(** *** Replacing *)

Lemma startswith_sall_prefix (p : ascii -> bool) (old s : string) :
  startswith old s = true -> sall p s = true -> sall p old = true.
Proof.
  revert s. induction old as [|a old IH]; intros [|b s]; simpl; try discriminate;
    try reflexivity.
  intros [Hab Hs]%andb_true_iff [Hb Hr]%andb_true_iff.
  apply Ascii.eqb_eq in Hab. subst b. rewrite Hb. simpl. now apply (IH s).
Qed.

Lemma replace_fuel_absent (p : ascii -> bool) (fuel : nat) (old new s : string) :
  sall p old = false -> sall p s = true -> replace_fuel fuel old new s = s.
Proof.
  intros Hold. revert s. induction fuel as [|k IH]; intros s Hs; [reflexivity|].
  destruct s as [|c r]; [reflexivity|].
  cbn [replace_fuel].
  destruct (startswith old (String c r)) eqn:E.
  - rewrite (startswith_sall_prefix p _ _ E Hs) in Hold. discriminate Hold.
  - simpl in Hs. apply andb_true_iff in Hs as [_ Hr]. now rewrite (IH r Hr).
Qed.

Lemma replace_absent (p : ascii -> bool) (old new s : string) :
  sall p old = false -> sall p s = true -> replace old new s = s.
Proof.
  intros Hold Hs. unfold replace.
  destruct old as [|a old']; [discriminate Hold|].
  cbn [is_empty]. now apply (replace_fuel_absent p).
Qed.

Section Sandbox.
Context `{Runtime}.

Lemma fix_one_unquoted (code : string) (entry : string * string) :
  sall not_quote code = true -> fix_one code entry = code.
Proof.
  intros Hc. unfold fix_one. destruct entry as [wrong_name correct_name].
  destruct (negb (String.eqb wrong_name correct_name)); [|reflexivity].
  unfold patterns. cbn [List.fold_left].
  rewrite !(replace_absent not_quote _ _ code); try exact Hc; try reflexivity.
Qed.

(** X18.  The repair of column names only ever touches quoted text: a
    snippet without a quote character comes back unchanged, for every
    table. *)
Theorem fix_leaves_unquoted_code (code : string) (df : DataFrame) :
  sall (fun c => negb (is_code 39 c || is_code 34 c)) code = true ->
  fix_column_names_in_code code df = code.
Proof.
  intros Hc. unfold fix_column_names_in_code.
  induction (build_mapping (columns df)) as [|entry rest IH]; [reflexivity|].
  cbn [List.fold_left]. now rewrite fix_one_unquoted.
Qed.

End Sandbox.

Lemma fix_leaves_unquoted_code_witness :
  @fix_column_names_in_code Demo.demo_runtime "fig = px.bar(x=[1, 2], y=[3, 4])" Demo.survey
  = "fig = px.bar(x=[1, 2], y=[3, 4])".
Proof.
  apply (@fix_leaves_unquoted_code Demo.demo_runtime). vm_compute. reflexivity.
Defined.

End SandboxMore.

(** ** Rule-based answers *)
Module FallbackFacts.
Import PyStr PyStrFacts PyList Pd Query QueryFacts Sandbox Fallback SandboxMore.

Local Abbreviation not_close := (fun c => negb (Ascii.eqb c close_paren)).
Local Abbreviation not_open := (fun c => negb (Ascii.eqb c open_paren)).
Local Abbreviation not_newline := (fun c => negb (Ascii.eqb c newline)).

(** *** The search for a name between parentheses *)

Lemma sapp_nil_l (s : string) : EmptyString +:+ s = s.
Proof. reflexivity. Qed.

Lemma sall_app (q : ascii -> bool) (a b : string) :
  sall q (a +:+ b) = sall q a && sall q b.
Proof.
  induction a as [|c r IH]; [reflexivity|].
  rewrite sapp_cons. simpl. now rewrite IH, andb_assoc.
Qed.

Lemma startswith_weaken (p a t : string) :
  startswith p a = true -> startswith p (a +:+ t) = true.
Proof.
  revert a. induction p as [|c p IH]; intros a; [reflexivity|].
  destruct a as [|d a]; [discriminate|].
  rewrite sapp_cons. simpl. intros [-> Hp]%andb_true_iff. now apply IH.
Qed.

Lemma contains_weaken (p a t : string) :
  contains p a = true -> contains p (a +:+ t) = true.
Proof.
  induction a as [|d a IH].
  - simpl. rewrite orb_false_r. destruct p; [|discriminate]. intros _.
    rewrite sapp_nil_l. now destruct t.
  - rewrite sapp_cons. simpl. intros [Hs|Hc]%orb_true_iff.
    + apply (startswith_weaken p (String d a) t) in Hs.
      rewrite sapp_cons in Hs. simpl in Hs. now rewrite Hs.
    + rewrite (IH Hc). apply orb_true_r.
Qed.

Lemma contains_tail (p : string) (c : ascii) (s : string) :
  contains p s = true -> contains p (String c s) = true.
Proof. intros Hc. simpl. rewrite Hc. apply orb_true_r. Qed.

Lemma until_close_inv (s g : string) :
  until_close s = Some g ->
  sall not_close g = true /\ startswith (g +:+ ")") s = true.
Proof.
  revert g. induction s as [|c r IH]; intros g; [discriminate|].
  simpl. destruct (Ascii.eqb c close_paren) eqn:E.
  - intros [= <-]. split; [reflexivity|].
    rewrite sapp_nil_l. simpl. apply Ascii.eqb_eq in E. subst c.
    now destruct r.
  - destruct (until_close r) as [g'|]; [|discriminate].
    intros [= <-]. destruct (IH g' eq_refl) as [Hg Hs]. split.
    + simpl. now rewrite E, Hg.
    + rewrite sapp_cons. simpl. now rewrite Ascii.eqb_refl, Hs.
Qed.

Lemma until_close_run (g rest : string) :
  sall not_close g = true ->
  until_close (g +:+ String close_paren rest) = Some g.
Proof.
  induction g as [|c g IH]; [reflexivity|].
  rewrite sapp_cons. simpl. intros [Hc Hg]%andb_true_iff.
  apply negb_true_iff in Hc. now rewrite Hc, (IH Hg).
Qed.

Lemma search_paren_inv (s g : string) :
  search_paren s = Some g ->
  is_empty g = false /\ sall not_close g = true
  /\ contains ("(" +:+ g +:+ ")") s = true.
Proof.
  induction s as [|c r IH]; [discriminate|].
  assert (Hlater : search_paren r = Some g ->
            is_empty g = false /\ sall not_close g = true
            /\ contains ("(" +:+ g +:+ ")") (String c r) = true).
  { intros Hr. destruct (IH Hr) as (? & ? & ?). repeat split; try assumption.
    now apply contains_tail. }
  cbn [search_paren]. destruct (Ascii.eqb c open_paren) eqn:E; [|exact Hlater].
  destruct (until_close r) as [g'|] eqn:U; [|exact Hlater].
  destruct (is_empty g') eqn:Eg; [exact Hlater|].
  intros [= <-]. destruct (until_close_inv r g' U) as [Hg Hs].
  repeat split; try assumption.
  apply contains_prefix. rewrite sapp_cons, sapp_nil_l.
  apply Ascii.eqb_eq in E. subst c. simpl. now rewrite Hs.
Qed.

Lemma search_paren_first (a g rest : string) :
  sall not_open a = true -> is_empty g = false -> sall not_close g = true ->
  search_paren (a +:+ "(" +:+ g +:+ ")" +:+ rest) = Some g.
Proof.
  intros Ha Hne Hg. induction a as [|c a IH].
  - rewrite sapp_nil_l, sapp_cons, sapp_nil_l. cbn [search_paren].
    rewrite Ascii.eqb_refl.
    change (")" +:+ rest) with (String close_paren rest).
    now rewrite (until_close_run g rest Hg), Hne.
  - rewrite sapp_cons. simpl in Ha. apply andb_true_iff in Ha as [Hc Ha].
    cbn [search_paren]. apply negb_true_iff in Hc. rewrite Hc. now apply IH.
Qed.

Lemma startswith_inv (p s : string) :
  startswith p s = true -> exists t, s = p +:+ t.
Proof.
  revert s. induction p as [|c p IH]; intros s; [now exists s|].
  destruct s as [|d s]; [discriminate|]. simpl.
  intros [Hc Hp]%andb_true_iff. apply Ascii.eqb_eq in Hc. subst d.
  destruct (IH s Hp) as (t & ->). exists t. now rewrite sapp_cons.
Qed.

Lemma contains_inv (p s : string) :
  contains p s = true -> exists pre post, s = pre +:+ p +:+ post.
Proof.
  induction s as [|c s IH]; simpl.
  - rewrite orb_false_r. destruct p; [|discriminate]. intros _.
    now exists EmptyString, EmptyString.
  - intros [Hs|Hr]%orb_true_iff.
    + destruct (startswith_inv p (String c s) Hs) as (t & ->).
      now exists EmptyString, t.
    + destruct (IH Hr) as (pre & post & ->). exists (String c pre), post.
      now rewrite sapp_cons.
Qed.

Lemma contains_trans (q p s : string) :
  contains p s = true -> contains q p = true -> contains q s = true.
Proof.
  intros Hp Hq. destruct (contains_inv p s Hp) as (pre & post & ->).
  destruct (contains_inv q p Hq) as (a & b & ->).
  rewrite !sapp_assoc, <- (sapp_assoc pre a). apply contains_app.
Qed.

(** *** Lines *)

Lemma split_lines_head (s : string) :
  exists l ls, split_lines s = l :: ls /\ exists t, s = l +:+ t.
Proof.
  induction s as [|c r (l & ls & E & t & Ht)].
  - exists EmptyString, []. split; [reflexivity|]. now exists EmptyString.
  - simpl. rewrite E. destruct (Ascii.eqb c newline).
    + exists EmptyString, (l :: ls). split; [reflexivity|]. now exists (String c r).
    + exists (String c l), ls. split; [reflexivity|]. exists t.
      now rewrite sapp_cons, <- Ht.
Qed.

Lemma contains_line (p s line : string) :
  In line (split_lines s) -> contains p line = true -> contains p s = true.
Proof.
  revert line. induction s as [|c r IH]; intros line.
  - simpl. now intros [<-|[]].
  - destruct (split_lines_head r) as (l & ls & E & t & Ht).
    cbn [split_lines]. rewrite E. rewrite E in IH.
    destruct (Ascii.eqb c newline).
    + intros [<-|Hin] Hc.
      * destruct p; [reflexivity|discriminate Hc].
      * apply contains_tail. now apply (IH line).
    + intros [<-|Hin] Hc.
      * rewrite Ht, <- sapp_cons. now apply contains_weaken.
      * apply contains_tail. apply (IH line); [now right|exact Hc].
Qed.

Lemma extracted_from_line (keep : string -> bool) (data_context g : string) :
  In g (List.flat_map
          (fun line =>
             if keep line then
               match search_paren line with Some g => [g] | None => [] end
             else [])
          (split_lines data_context)) ->
  exists line, In line (split_lines data_context) /\ search_paren line = Some g.
Proof.
  intros Hin. apply in_flat_map in Hin as (line & Hline & Hg).
  exists line. split; [exact Hline|].
  destruct (keep line); [|contradiction Hg].
  destruct (search_paren line) as [g'|]; [|contradiction Hg].
  destruct Hg as [<-|[]]. reflexivity.
Qed.

(** X19.  Every name the rules read from a context, as a column or as a
    numeric column, is non-empty, holds neither a closing parenthesis nor
    a line break, and stands between parentheses in the context. *)
Theorem extracted_names (data_context g : string) :
  In g (_extract_columns_from_context data_context)
  \/ In g (_extract_numeric_columns_from_context data_context) ->
  is_empty g = false
  /\ sall (fun c => negb (Ascii.eqb c close_paren) && negb (Ascii.eqb c newline)) g = true
  /\ contains ("(" +:+ g +:+ ")") data_context = true.
Proof.
  intros Hin.
  assert (Hline : exists line,
            In line (split_lines data_context) /\ search_paren line = Some g).
  { destruct Hin as [Hin|Hin]; eapply extracted_from_line; exact Hin. }
  destruct Hline as (line & Hline & Hg).
  destruct (search_paren_inv line g Hg) as (Hne & Hclose & Hc).
  repeat split; [exact Hne| |now apply (contains_line _ _ line)].
  pose proof (split_lines_no_newline data_context) as Hplain.
  rewrite List.Forall_forall in Hplain. specialize (Hplain line Hline).
  assert (Hsub : forall q (p s : string),
            contains p s = true -> sall q s = true -> sall q p = true).
  { clear. intros q p s. induction s as [|c r IH]; simpl.
    - rewrite orb_false_r. now destruct p.
    - intros [Hs|Hr]%orb_true_iff Hq.
      + apply (startswith_sall_prefix q p (String c r) Hs Hq).
      + apply andb_true_iff in Hq as [_ Hq]. now apply IH. }
  pose proof (Hsub not_newline _ _ Hc Hplain) as Hn.
  rewrite sapp_cons, sapp_nil_l in Hn. simpl in Hn. rewrite sall_app in Hn.
  apply andb_true_iff in Hn as [Hn _].
  clear -Hclose Hn. induction g as [|c g IH]; [reflexivity|].
  simpl in *. apply andb_true_iff in Hclose as [-> Hclose].
  apply andb_true_iff in Hn as [-> Hn]. now rewrite IH.
Qed.

Lemma extracted_names_witness :
  is_empty "country" = false
  /\ sall (fun c => negb (Ascii.eqb c close_paren) && negb (Ascii.eqb c newline))
       "country" = true
  /\ contains ("(" +:+ "country" +:+ ")")
       "- Country (country): object - Sample values: FR, DE" = true.
Proof.
  apply (extracted_names "- Country (country): object - Sample values: FR, DE" "country").
  left. vm_compute. left. reflexivity.
Defined.

(** *** The answers *)

Section Rules.
Context `{Runtime}.

Lemma dashboard_flags (columns numeric_columns categorical_columns : list string) :
  let r := _create_fallback_dashboard columns numeric_columns categorical_columns in
  requires_plot r = false /\ requires_data r = true
  /\ requires_multiple_plots r = true /\ requires_dashboard r = true
  /\ data_operation r = statistical_summary_of numeric_columns
  /\ plot_code r = EmptyString.
Proof.
  destruct numeric_columns as [|a [|b n]], categorical_columns as [|c cs];
    repeat split.
Qed.

Lemma plot_code_not_empty (query_lower : string) (columns numeric_columns : list string) :
  is_empty (_generate_fallback_plot_code query_lower columns numeric_columns) = false.
Proof.
  unfold _generate_fallback_plot_code, histogram_code, bar_code.
  repeat match goal with |- context [if ?b then _ else _] => destruct b end;
    rewrite ?sapp_cons; reflexivity.
Qed.

(** X20.  The dashboard of the rules has one section per plot and at most
    five plots: two for a numeric column, one for a textual column and
    two more once there are two numeric columns; it has no plot exactly
    when no column was found. *)
Theorem dashboard_sections_parallel (columns numeric_columns categorical_columns : list string) :
  let r := _create_fallback_dashboard columns numeric_columns categorical_columns in
  List.length (dashboard_sections r) = List.length (plot_codes r)
  /\ List.length (plot_codes r)
     = ((if nonempty numeric_columns then 2 else 0)
        + (if nonempty categorical_columns then 1 else 0)
        + (if (2 <=? List.length numeric_columns)%nat then 2 else 0))%nat
  /\ (List.length (plot_codes r) <= 5)%nat
  /\ (plot_codes r = [] <-> numeric_columns = [] /\ categorical_columns = []).
Proof.
  destruct numeric_columns as [|a [|b n]], categorical_columns as [|c cs];
    cbn -[String.append]; repeat split; try lia; try discriminate;
    try (intros [? ?]; discriminate).
Qed.

(** X21.  The flags of a rule-based answer agree with its content: data
    is asked for exactly when an operation is given, a single plot
    exactly when its code is given, sections only come with a dashboard,
    a dashboard always asks for several plots, and a single plot excludes
    several. *)
Theorem fallback_response_consistent (user_query data_context : string) :
  let r := _fallback_response user_query data_context in
  requires_data r = truthy (data_operation r)
  /\ requires_plot r = negb (is_empty (plot_code r))
  /\ (requires_dashboard r = false -> dashboard_sections r = [])
  /\ (requires_multiple_plots r = false -> plot_codes r = [])
  /\ (requires_dashboard r = true -> requires_multiple_plots r = true)
  /\ (requires_plot r = true -> requires_multiple_plots r = false).
Proof.
  unfold _fallback_response.
  set (columns := _extract_columns_from_context data_context).
  set (numeric_columns := _extract_numeric_columns_from_context data_context).
  set (categorical_columns := List.filter _ columns).
  destruct (any_word dashboard_words (lower user_query)).
  { destruct (dashboard_flags columns numeric_columns categorical_columns)
      as (Hp & Hd & Hm & Hb & Hop & Hc).
    cbv zeta. rewrite Hp, Hd, Hm, Hb, Hop, Hc. repeat split; discriminate. }
  destruct (any_word multiple_words (lower user_query)).
  { repeat split; discriminate. }
  destruct (any_word statistics_words (lower user_query)).
  { repeat split; discriminate. }
  destruct (any_word plot_words (lower user_query)).
  { cbv zeta. cbn [requires_data requires_plot requires_dashboard
                   requires_multiple_plots data_operation plot_code plot_codes
                   dashboard_sections].
    rewrite plot_code_not_empty. repeat split; discriminate. }
  destruct (any_word filter_words (lower user_query)); repeat split; discriminate.
Qed.

End Rules.

(** *** The answers and the executor *)

Section Executing.
Context `{Pandas} `{Evaluator} `{Runtime}.

Lemma empty_filter_copies (st : state) (df : DataFrame) :
  heap st !! self_df st = Some df ->
  exists (l : loc) (st' : state),
    execute_data_query (VDict [("type", VStr "filter"); ("conditions", VDict [])]) st
    = (Ok (Some l), st')
    /\ heap st' !! l = Some df
    /\ l <> self_df st
    /\ stdout st' = stdout st.
Proof.
  intros Hdf.
  unfold execute_data_query, try_catch, mbind, M_bind, lift, fmap, M_fmap.
  cbn [get dict_lookup String.eqb Ascii.eqb Bool.eqb default is_str].
  unfold id.
  change (is_str "statistical_summary" (VStr "filter")) with false.
  change (is_str "filter" (VStr "filter")) with true. cbv beta iota.
  unfold _filter_data, mbind, M_bind, get_self_df, read. rewrite Hdf.
  unfold new. cbn [filter_loop pure heap stdout].
  do 2 eexists. split; [reflexivity|]. cbn [heap stdout self_df].
  repeat split.
  - apply lookup_insert_eq.
  - intros E. pose proof (fresh_unused (heap st)) as Hf. rewrite E in Hf. congruence.
Qed.

(** X22.  When the rules answer with a filter, the executor returns a
    copy of the whole table: a new object with the content of the table,
    and nothing is printed. *)
Theorem fallback_filter_copies (user_query data_context : string)
    (st : state) (df : DataFrame) :
  let r := _fallback_response user_query data_context in
  get (data_operation r) "type" (VStr EmptyString) = Ok (VStr "filter") ->
  heap st !! self_df st = Some df ->
  exists (l : loc) (st' : state),
    execute_data_query (data_operation r) st = (Ok (Some l), st')
    /\ heap st' !! l = Some df
    /\ l <> self_df st
    /\ stdout st' = stdout st.
Proof.
  unfold _fallback_response.
  set (columns := _extract_columns_from_context data_context).
  set (numeric_columns := _extract_numeric_columns_from_context data_context).
  set (categorical_columns := List.filter _ columns).
  destruct (any_word dashboard_words (lower user_query)).
  { destruct (dashboard_flags columns numeric_columns categorical_columns)
      as (_ & _ & _ & _ & Hop & _).
    cbv zeta. rewrite Hop. discriminate. }
  destruct (any_word multiple_words (lower user_query)); [discriminate|].
  destruct (any_word statistics_words (lower user_query)); [discriminate|].
  destruct (any_word plot_words (lower user_query)); [discriminate|].
  destruct (any_word filter_words (lower user_query)); [|discriminate].
  intros _ Hdf. cbn [data_operation]. now apply empty_filter_copies.
Qed.

End Executing.

Local Abbreviation session :=
  (mkState {[ 1%positive := Demo.people ]} 1%positive ∅ []).

Lemma fallback_filter_copies_witness :
  let r := @_fallback_response Demo.demo_runtime "rows where age is over 30" "" in
  exists (l : loc) (st' : state),
    @execute_data_query Demo.demo_pandas Demo.demo_evaluator (data_operation r) session
    = (Ok (Some l), st')
    /\ heap st' !! l = Some Demo.people
    /\ l <> self_df session
    /\ stdout st' = stdout session.
Proof.
  apply (@fallback_filter_copies Demo.demo_pandas Demo.demo_evaluator Demo.demo_runtime
           "rows where age is over 30" "" session Demo.people);
    vm_compute; reflexivity.
Defined.

(** *** The code of the plots *)

Lemma contains_after (p a x : string) :
  contains p x = true -> contains p (a +:+ x) = true.
Proof.
  intros Hx. induction a as [|c a IH]; [now rewrite sapp_nil_l|].
  rewrite sapp_cons. now apply contains_tail.
Qed.

Lemma contains_inside (p a b c : string) :
  contains p b = true -> contains p (a +:+ b +:+ c) = true.
Proof. intros Hb. apply contains_after. now apply contains_weaken. Qed.

Section Codes.
Context `{Runtime}.

Lemma histogram_code_fig (col : string) : contains "fig = " (histogram_code col) = true.
Proof.
  unfold histogram_code. apply contains_prefix. now apply startswith_weaken.
Qed.

Lemma bar_code_fig (heading col : string) :
  contains "fig = " (bar_code heading col) = true.
Proof.
  unfold bar_code. rewrite <- (sapp_assoc "counts = df['").
  now apply contains_inside.
Qed.

Lemma map_fig {A} (f : A -> string) (l : list A) (code : string) :
  (forall x, contains "fig = " (f x) = true) ->
  In code (List.map f l) -> contains "fig = " code = true.
Proof. intros Hf Hin. apply in_map_iff in Hin as (x & <- & _). apply Hf. Qed.

Lemma dashboard_codes_fig (columns numeric_columns categorical_columns : list string)
    (code : string) :
  In code (plot_codes
             (_create_fallback_dashboard columns numeric_columns categorical_columns)) ->
  contains "fig = " code = true.
Proof.
  assert (Hbox : forall col,
            contains "fig = "
              ("fig = px.box(df, y='" +:+ col +:+ "', title='Outlier Detection - "
               +:+ spaced_title col +:+ "')") = true).
  { intros col. apply contains_prefix. now apply startswith_weaken. }
  assert (Hscatter : forall col1 col2,
            contains "fig = "
              ("fig = px.scatter(df, x='" +:+ col1 +:+ "', y='" +:+ col2
               +:+ "', title='Relationship: " +:+ spaced_title col2 +:+ " vs "
               +:+ spaced_title col1 +:+ "')") = true).
  { intros col1 col2. apply contains_prefix. now apply startswith_weaken. }
  assert (Hheat : forall cols_str,
            contains "fig = "
              ("numeric_df = df[" +:+ cols_str
               +:+ "]; corr_matrix = numeric_df.corr(); fig = px.imshow(corr_matrix, title='Correlation Heatmap', text_auto=True, color_continuous_scale='RdBu')")
            = true).
  { intros cols_str. apply contains_after. now apply contains_after. }
  destruct numeric_columns as [|a [|b n]], categorical_columns as [|c cs];
    cbn -[String.append histogram_code bar_code];
    intros Hin; repeat (destruct Hin as [<-|Hin]); try contradiction Hin;
    auto using histogram_code_fig, bar_code_fig.
Qed.

Lemma multiple_codes_fig (query_lower : string)
    (columns numeric_columns categorical_columns : list string) (code : string) :
  In code (plot_codes
             (_create_fallback_multiple_plots query_lower columns numeric_columns
                categorical_columns)) ->
  contains "fig = " code = true.
Proof.
  assert (Hscatter : forall col1 col2,
            contains "fig = "
              ("fig = px.scatter(df, x='" +:+ col1 +:+ "', y='" +:+ col2
               +:+ "', title='Relationship Analysis')") = true).
  { intros col1 col2. apply contains_prefix. now apply startswith_weaken. }
  unfold _create_fallback_multiple_plots. cbn [plot_codes app].
  set (histograms := List.map histogram_code (firstn 2 numeric_columns)).
  set (bars := List.map (bar_code "Top Values in ") (firstn 2 categorical_columns)).
  assert (Hh : forall c, In c histograms -> contains "fig = " c = true)
    by (intros c; apply map_fig, histogram_code_fig).
  assert (Hb : forall c, In c bars -> contains "fig = " c = true)
    by (intros c; apply map_fig, bar_code_fig).
  clearbody histograms bars.
  destruct (contains "histogram" query_lower && nonempty numeric_columns),
    (contains "bar" query_lower && nonempty categorical_columns).
  - destruct (histograms ++ bars) eqn:E; cbn [nonempty negb].
    + destruct numeric_columns as [|a [|b n]], categorical_columns as [|c cs];
        cbn -[String.append histogram_code bar_code];
        intros Hin; repeat (destruct Hin as [<-|Hin]); try contradiction Hin;
        auto using histogram_code_fig, bar_code_fig.
    + rewrite <- E. intros [Hin|Hin]%in_app_iff; auto.
  - destruct histograms eqn:E; cbn [nonempty negb].
    + destruct numeric_columns as [|a [|b n]], categorical_columns as [|c cs];
        cbn -[String.append histogram_code bar_code];
        intros Hin; repeat (destruct Hin as [<-|Hin]); try contradiction Hin;
        auto using histogram_code_fig, bar_code_fig.
    + apply Hh.
  - cbn [app]. destruct bars eqn:E; cbn [nonempty negb].
    + destruct numeric_columns as [|a [|b n]], categorical_columns as [|c cs];
        cbn -[String.append histogram_code bar_code];
        intros Hin; repeat (destruct Hin as [<-|Hin]); try contradiction Hin;
        auto using histogram_code_fig, bar_code_fig.
    + apply Hb.
  - cbn [nonempty negb].
    destruct numeric_columns as [|a [|b n]], categorical_columns as [|c cs];
      cbn -[String.append histogram_code bar_code];
      intros Hin; repeat (destruct Hin as [<-|Hin]); try contradiction Hin;
      auto using histogram_code_fig, bar_code_fig.
Qed.

Lemma single_code_fig (query_lower : string) (columns numeric_columns : list string) :
  contains "fig = " (_generate_fallback_plot_code query_lower columns numeric_columns)
  = true.
Proof.
  unfold _generate_fallback_plot_code.
  repeat match goal with |- context [if ?b then _ else _] => destruct b end;
    auto using histogram_code_fig, bar_code_fig;
    cbv zeta; apply contains_prefix; now apply startswith_weaken.
Qed.

(** X23.  Every snippet of a rule-based answer assigns [fig]: the code of
    the single plot when one is asked for, and each code of the several
    plots and of the dashboard. *)
Theorem fallback_codes_assign_fig (user_query data_context code : string) :
  let r := _fallback_response user_query data_context in
  (requires_plot r = true /\ code = plot_code r) \/ In code (plot_codes r) ->
  contains "fig = " code = true.
Proof.
  unfold _fallback_response.
  set (columns := _extract_columns_from_context data_context).
  set (numeric_columns := _extract_numeric_columns_from_context data_context).
  set (categorical_columns := List.filter _ columns).
  destruct (any_word dashboard_words (lower user_query)).
  { destruct (dashboard_flags columns numeric_columns categorical_columns)
      as (Hp & _). cbv zeta. rewrite Hp. intros [[? _]|Hin]; [discriminate|].
    now apply (dashboard_codes_fig columns numeric_columns categorical_columns). }
  destruct (any_word multiple_words (lower user_query)).
  { cbv zeta. intros [[? _]|Hin]; [discriminate|].
    now apply (multiple_codes_fig (lower user_query) columns numeric_columns
                 categorical_columns). }
  destruct (any_word statistics_words (lower user_query)).
  { cbv zeta. now intros [[? _]|[]]. }
  destruct (any_word plot_words (lower user_query)).
  { cbv zeta. cbn [requires_plot plot_code plot_codes]. intros [[_ ->]|[]].
    apply single_code_fig. }
  destruct (any_word filter_words (lower user_query)); cbv zeta;
    now intros [[? _]|[]].
Qed.

End Codes.

Lemma fallback_codes_assign_fig_witness :
  contains "fig = "
    (plot_code (@_fallback_response Demo.demo_runtime "show a bar chart"
                  "- Country (country): object - Sample values: FR, DE"))
  = true.
Proof.
  apply (@fallback_codes_assign_fig Demo.demo_runtime "show a bar chart"
           "- Country (country): object - Sample values: FR, DE").
  left. split; vm_compute; reflexivity.
Defined.

End FallbackFacts.

(** ** Summary and context of the table *)
Module SummaryFacts.
Import PyStr PyStrFacts PyList Pd Normalizer NormalizerFacts NormalizerMore.
Import Loader LoaderFacts Summary Fallback SandboxMore FallbackFacts.

Local Abbreviation not_newline := (fun c => negb (Ascii.eqb c newline)).
Local Abbreviation not_open := (fun c => negb (Ascii.eqb c open_paren)).
Local Abbreviation original_name :=
  (fun (self : DataProcessor) (col : string) => default col (column_mapping self !! col)).

(** *** Dicts and labels *)

Lemma dict_of_from {V : Type} (pairs : list (string * V)) (m : gmap string V) (k : string) :
  ~ In k (List.map fst pairs) ->
  List.fold_left (fun m kv => <[fst kv := snd kv]> m) pairs m !! k = m !! k.
Proof.
  revert m. induction pairs as [|[k' v'] pairs IH]; intros m Hk; [reflexivity|].
  cbn [List.fold_left fst snd]. rewrite IH.
  - apply lookup_insert_ne. intros ->. apply Hk. now left.
  - intros Hin. apply Hk. now right.
Qed.

Lemma dict_of_lookup {V : Type} (pairs : list (string * V)) (k : string) (v : V) :
  List.NoDup (List.map fst pairs) -> In (k, v) pairs -> dict_of pairs !! k = Some v.
Proof.
  unfold dict_of. generalize (∅ : gmap string V).
  induction pairs as [|[k' v'] pairs IH]; intros m Hnd Hin; [contradiction Hin|].
  cbn [List.map fst] in Hnd. inversion Hnd as [|? ? Hk Hrest]; subst.
  cbn [List.fold_left fst snd]. destruct Hin as [[= -> ->]|Hin].
  - rewrite dict_of_from by exact Hk. apply lookup_insert_eq.
  - now apply IH.
Qed.

Lemma label_unique {V : Type} (pairs : list (string * V)) (k : string) (v v' : V) :
  List.NoDup (List.map fst pairs) -> In (k, v) pairs -> In (k, v') pairs -> v = v'.
Proof.
  induction pairs as [|[k0 v0] pairs IH]; intros Hnd Hin Hin'; [contradiction Hin|].
  cbn [List.map fst] in Hnd. inversion Hnd as [|? ? Hk Hrest]; subst.
  assert (Hno : forall w, In (k0, w) pairs -> False).
  { intros w Hw. apply Hk. apply in_map_iff. now exists (k0, w). }
  destruct Hin as [E|Hin], Hin' as [E'|Hin'].
  - congruence.
  - injection E as -> ->. exfalso. now apply (Hno v').
  - injection E' as -> ->. exfalso. now apply (Hno v).
  - now apply IH.
Qed.

Lemma labelled_unique (df : DataFrame) (col : string) (s : Series) :
  List.NoDup (columns df) -> In (col, s) (cols df) -> labelled col df = [s].
Proof.
  unfold labelled, columns. induction (cols df) as [|[k0 v0] pairs IH];
    intros Hnd Hin; [contradiction Hin|].
  cbn [List.map fst] in Hnd. inversion Hnd as [|? ? Hk Hrest]; subst.
  cbn [List.filter fst]. destruct Hin as [[= -> ->]|Hin].
  - rewrite String.eqb_refl. cbn [List.map snd]. f_equal.
    assert (Hnone : List.filter (fun p : string * Series => String.eqb (fst p) col) pairs = []).
    { clear -Hk. induction pairs as [|[k v] pairs IH]; [reflexivity|].
      cbn [List.filter fst]. destruct (String.eqb k col) eqn:E.
      - apply String.eqb_eq in E. subst. exfalso. apply Hk. now left.
      - apply IH. intros Hin. apply Hk. now right. }
    now rewrite Hnone.
  - destruct (String.eqb k0 col) eqn:E.
    + apply String.eqb_eq in E. subst. exfalso. apply Hk.
      apply in_map_iff. now exists (col, s).
    + now apply IH.
Qed.

Lemma str_in_true (x : string) (l : list string) : str_in x l = true <-> In x l.
Proof.
  unfold str_in. rewrite existsb_exists. split.
  - intros (y & Hy & E). apply String.eqb_eq in E. now subst.
  - intros Hin. exists x. split; [exact Hin|apply String.eqb_refl].
Qed.

Lemma str_in_selected (keep : Series -> bool) (df : DataFrame) (col : string) (s : Series) :
  List.NoDup (columns df) -> In (col, s) (cols df) ->
  str_in col (select_dtypes keep df) = keep s.
Proof.
  intros Hnd Hin. apply eq_true_iff_eq. rewrite str_in_true.
  unfold select_dtypes. rewrite in_map_iff. split.
  - intros ([k s'] & Hk & Hf). cbn [fst] in Hk. subst k.
    apply filter_In in Hf as [Hin' Hkeep]. cbn [snd] in Hkeep.
    now rewrite (label_unique (cols df) col s s' Hnd Hin Hin').
  - intros Hkeep. exists (col, s). split; [reflexivity|].
    apply filter_In. now split.
Qed.

Lemma dtype_name_object (d : dtype) :
  String.eqb (dtype_name d) "object" = dtype_eqb d DObject.
Proof. now destruct d. Qed.

(** *** The text of the context *)

Section Describing.
Context `{Display}.

Lemma context_step_line (self : DataProcessor) (context : string) (p : string * Series) :
  List.NoDup (columns (df self)) -> In p (cols (df self)) ->
  context_step self (get_data_summary self) context (fst p)
  = Ok (context +:+ nl +:+ column_line self p).
Proof.
  destruct p as [col s]. intros Hnd Hin. cbn [fst].
  unfold context_step, get_data_summary, subscript.
  cbn [dtypes missing_values categorical_columns numeric_columns].
  rewrite (dict_of_lookup _ col (dtype_name (dtype_of s))).
  2:{ rewrite List.map_map. exact Hnd. }
  2:{ apply in_map_iff. now exists (col, s). }
  rewrite (dict_of_lookup _ col (count_missing s)).
  2:{ rewrite List.map_map. exact Hnd. }
  2:{ apply in_map_iff. now exists (col, s). }
  cbn [mbind res_bind].
  rewrite dtype_name_object, (str_in_selected is_object _ col s Hnd Hin).
  change (Query.numeric_columns (df self))
    with (select_dtypes Query.is_numeric (df self)).
  rewrite (str_in_selected Query.is_numeric _ col s Hnd Hin).
  unfold getitem. rewrite (labelled_unique _ col s Hnd Hin).
  unfold column_line. cbn [fst snd]. unfold is_object.
  destruct (0 <? count_missing s)%nat, (dtype_eqb (dtype_of s) DObject);
    cbn [andb mbind res_bind]; try destruct (Query.is_numeric s);
    cbn [mbind res_bind]; f_equal;
    rewrite ?sapp_assoc, ?sapp_nil_r; reflexivity.
Qed.

Lemma context_loop_lines (self : DataProcessor) (ps : list (string * Series))
    (context : string) :
  List.NoDup (columns (df self)) -> incl ps (cols (df self)) ->
  context_loop self (get_data_summary self) (List.map fst ps) context
  = Ok (List.fold_left (fun acc p => acc +:+ nl +:+ column_line self p) ps context).
Proof.
  intros Hnd. revert context. induction ps as [|p ps IH]; intros context Hincl;
    [reflexivity|].
  cbn [List.map context_loop List.fold_left].
  rewrite (context_step_line self context p Hnd) by (apply Hincl; now left).
  cbn [mbind res_bind]. apply IH. intros q Hq. apply Hincl. now right.
Qed.

Lemma join_snoc (sep x y : string) (l : list string) :
  join sep ((x :: l) ++ [y]) = join sep (x :: l) +:+ sep +:+ y.
Proof.
  revert x. induction l as [|z l IH]; intros x; [reflexivity|].
  change (join sep ((x :: z :: l) ++ [y])) with (x +:+ sep +:+ join sep ((z :: l) ++ [y])).
  rewrite IH.
  change (join sep (x :: z :: l)) with (x +:+ sep +:+ join sep (z :: l)).
  now rewrite !sapp_assoc.
Qed.

Lemma fold_join {A} (f : A -> string) (sep x : string) (l : list string) (ps : list A) :
  List.fold_left (fun acc p => acc +:+ sep +:+ f p) ps (join sep (x :: l))
  = join sep ((x :: l) ++ List.map f ps).
Proof.
  revert l. induction ps as [|p ps IH]; intros l.
  - now rewrite List.app_nil_r.
  - cbn [List.fold_left List.map]. rewrite <- join_snoc.
    change ((x :: l) ++ [f p]) with (x :: (l ++ [f p])). rewrite IH.
    change (x :: (l ++ [f p])) with ((x :: l) ++ [f p]).
    now rewrite <- List.app_assoc.
Qed.

Lemma header_joined (self : DataProcessor) :
  context_header (get_data_summary self) = join nl (header_lines self).
Proof. reflexivity. Qed.

Lemma context_of_distinct (self : DataProcessor) :
  List.NoDup (columns (df self)) ->
  get_data_context self
  = Ok (join nl (header_lines self ++ List.map (column_line self) (cols (df self)))).
Proof.
  intros Hnd. unfold get_data_context, columns.
  rewrite (context_loop_lines self (cols (df self)) _ Hnd) by (intros q Hq; exact Hq).
  rewrite header_joined. unfold header_lines at 1. now rewrite fold_join.
Qed.

End Describing.

(** *** Reading the columns back from the context *)

Local Abbreviation not_close := (fun c => negb (Ascii.eqb c close_paren)).

Lemma split_lines_app (x t : string) :
  sall not_newline x = true ->
  split_lines (x +:+ String newline t) = x :: split_lines t.
Proof.
  induction x as [|c x IH].
  - intros _. rewrite sapp_nil_l. cbn [split_lines].
    destruct (split_lines t) eqn:E; [now destruct (split_lines_not_nil t)|].
    now rewrite Ascii.eqb_refl.
  - rewrite sapp_cons. simpl. intros [Hc Hx]%andb_true_iff.
    rewrite (IH Hx). apply negb_true_iff in Hc. now rewrite Hc.
Qed.

Lemma split_join (x : string) (lines : list string) :
  Forall (fun l => sall not_newline l = true) (x :: lines) ->
  split_lines (join nl (x :: lines)) = x :: lines.
Proof.
  revert x. induction lines as [|y lines IH]; intros x Hall.
  - apply split_lines_single. now inversion Hall.
  - inversion Hall as [|? ? Hx Hrest]; subst.
    change (join nl (x :: y :: lines))
      with (x +:+ String newline (join nl (y :: lines))).
    rewrite (split_lines_app _ _ Hx). now rewrite IH.
Qed.

Lemma contains_absent (a : ascii) (p s : string) :
  sall (fun c => negb (Ascii.eqb c a)) s = true -> contains (String a p) s = false.
Proof.
  induction s as [|c s IH]; [reflexivity|].
  simpl. intros [Hc Hs]%andb_true_iff. rewrite (IH Hs).
  apply negb_true_iff in Hc. rewrite Ascii.eqb_sym in Hc. now rewrite Hc.
Qed.

Lemma digits_without (a : ascii) (n : nat) :
  ascii_digit a = false ->
  sall (fun c => negb (Ascii.eqb c a)) (str_of_nat n) = true.
Proof.
  intros Ha. apply (sall_impl ascii_digit); [|apply str_of_nat_digits].
  intros c Hc. apply negb_true_iff. destruct (Ascii.eqb c a) eqn:E; [|reflexivity].
  apply Ascii.eqb_eq in E. subst. congruence.
Qed.

Lemma header_without (a : ascii) (self : DataProcessor) (line : string) :
  ascii_digit a = false ->
  sall (fun c => negb (Ascii.eqb c a))
    "        Dataset Information:        - Total rows:         - Total columns:         Column Details:"
  = true ->
  In line (header_lines self) -> sall (fun c => negb (Ascii.eqb c a)) line = true.
Proof.
  intros Ha Hfixed Hin.
  assert (Hparts :
    sall (fun c => negb (Ascii.eqb c a)) "        Dataset Information:" = true
    /\ sall (fun c => negb (Ascii.eqb c a)) "        - Total rows: " = true
    /\ sall (fun c => negb (Ascii.eqb c a)) "        - Total columns: " = true
    /\ sall (fun c => negb (Ascii.eqb c a)) "        Column Details:" = true).
  { change
      "        Dataset Information:        - Total rows:         - Total columns:         Column Details:"
      with ("        Dataset Information:" +:+ "        - Total rows: "
            +:+ "        - Total columns: " +:+ "        Column Details:") in Hfixed.
    rewrite !sall_app in Hfixed.
    do 3 (apply andb_true_iff in Hfixed as [? Hfixed]). repeat split; assumption. }
  destruct Hparts as (H1 & H2 & H3 & H4).
  assert (Hspace : sall (fun c => negb (Ascii.eqb c a)) "        " = true).
  { change "        - Total rows: " with ("        " +:+ "- Total rows: ") in H2.
    rewrite sall_app in H2. now apply andb_true_iff in H2 as [? _]. }
  unfold header_lines in Hin.
  repeat (destruct Hin as [<-|Hin]); try contradiction Hin; try assumption;
    try reflexivity;
    rewrite sall_app, (digits_without a _ Ha), andb_true_r; assumption.
Qed.

Lemma header_lines_plain (self : DataProcessor) :
  Forall (fun l => sall not_newline l = true) (header_lines self).
Proof.
  apply List.Forall_forall. intros line Hin.
  apply (header_without newline self line); [reflexivity|reflexivity|exact Hin].
Qed.

Lemma extract_from_lines (keep : string -> bool) (lines : list string) :
  List.flat_map
    (fun line =>
       if keep line then match search_paren line with Some g => [g] | None => [] end
       else [])
    lines
  = List.flat_map
      (fun line => match search_paren line with Some g => [g] | None => [] end)
      (List.filter keep lines).
Proof.
  induction lines as [|l lines IH]; [reflexivity|].
  cbn [List.flat_map List.filter]. destruct (keep l); cbn [List.flat_map app];
    now rewrite IH.
Qed.

Lemma header_skipped (keep : string -> bool) (self : DataProcessor) :
  (forall line, In line (header_lines self) -> keep line = false) ->
  List.filter keep (header_lines self) = [].
Proof.
  intros Hk. induction (header_lines self) as [|l ls IH]; [reflexivity|].
  cbn [List.filter]. rewrite (Hk l) by now left.
  apply IH. intros line Hin. apply Hk. now right.
Qed.

Section Describing.
Context `{Display}.

Lemma column_line_shape (self : DataProcessor) (p : string * Series) :
  exists rest,
    column_line self p
    = ("- " +:+ original_name self (fst p) +:+ " ")
      +:+ "(" +:+ fst p +:+ ")" +:+ rest.
Proof.
  eexists. unfold column_line. rewrite !sapp_assoc. reflexivity.
Qed.

Lemma column_line_names (self : DataProcessor) (p : string * Series) :
  sall not_open (original_name self (fst p)) = true ->
  is_empty (fst p) = false ->
  sall not_close (fst p) = true ->
  search_paren (column_line self p) = Some (fst p)
  /\ contains "(" (column_line self p) = true
  /\ contains ")" (column_line self p) = true.
Proof.
  intros Ho Hne Hc. destruct (column_line_shape self p) as (rest & ->).
  repeat split.
  - apply search_paren_first; try assumption.
    rewrite !sall_app, Ho. reflexivity.
  - apply contains_app.
  - rewrite <- !sapp_assoc. rewrite sapp_assoc. apply contains_app.
Qed.

Lemma column_line_marked (self : DataProcessor) (p : string * Series) :
  is_object (snd p) || Query.is_numeric (snd p) || (0 <? count_missing (snd p))%nat = true ->
  contains " - " (column_line self p) = true.
Proof.
  unfold column_line. intros Hm.
  destruct (0 <? count_missing (snd p))%nat.
  - rewrite <- !sapp_assoc. rewrite !sapp_assoc.
    rewrite <- (sapp_assoc "- "), <- (sapp_assoc _ " ("), <- (sapp_assoc _ (fst p)),
      <- (sapp_assoc _ "): "), <- (sapp_assoc _ (dtype_name _)).
    apply contains_app.
  - rewrite orb_false_r in Hm. rewrite sapp_nil_l.
    destruct (is_object (snd p)).
    + rewrite <- !sapp_assoc. rewrite (sapp_assoc _ " - Sample values: ").
      change " - Sample values: " with (" - " +:+ "Sample values: ").
      rewrite (sapp_assoc " - "). apply contains_app.
    + cbn [orb] in Hm. rewrite Hm.
      rewrite <- !sapp_assoc. rewrite (sapp_assoc _ " to "), (sapp_assoc _ (min_text _)),
        (sapp_assoc _ " - Range: ").
      change " - Range: " with (" - " +:+ "Range: ").
      rewrite (sapp_assoc " - "). apply contains_app.
Qed.

Lemma column_line_numeric (self : DataProcessor) (p : string * Series) :
  Query.is_numeric (snd p) = true ->
  contains "int64" (column_line self p) || contains "float64" (column_line self p) = true.
Proof.
  unfold column_line, Query.is_numeric. intros Hn.
  rewrite <- (sapp_assoc "- "), <- (sapp_assoc _ " ("), <- (sapp_assoc _ (fst p)),
    <- (sapp_assoc _ "): ").
  destruct (dtype_of (snd p)); try discriminate Hn.
  - change (dtype_name DInt64) with "int64". now rewrite contains_app.
  - change (dtype_name DFloat64) with "float64". rewrite contains_app. apply orb_true_r.
Qed.

Lemma names_from_lines (self : DataProcessor) (keep : string -> bool)
    (ps : list (string * Series)) :
  (forall p, In p ps -> search_paren (column_line self p) = Some (fst p)) ->
  List.flat_map
    (fun line => match search_paren line with Some g => [g] | None => [] end)
    (List.filter keep (List.map (column_line self) ps))
  = List.map fst (List.filter (fun p => keep (column_line self p)) ps).
Proof.
  induction ps as [|p ps IH]; intros Hs; [reflexivity|].
  cbn [List.map List.filter]. destruct (keep (column_line self p)).
  - cbn [List.flat_map List.map]. rewrite (Hs p) by now left.
    cbn [app]. f_equal. apply IH. intros q Hq. apply Hs. now right.
  - apply IH. intros q Hq. apply Hs. now right.
Qed.

Lemma extract_from_context (self : DataProcessor) (keep : string -> bool) :
  List.NoDup (columns (df self)) ->
  forallb (fun p => sall not_newline (column_line self p)) (cols (df self)) = true ->
  (forall p, In p (cols (df self)) ->
     search_paren (column_line self p) = Some (fst p)) ->
  (forall line, In line (header_lines self) -> keep line = false) ->
  exists text,
    get_data_context self = Ok text
    /\ List.flat_map
         (fun line =>
            if keep line then match search_paren line with Some g => [g] | None => [] end
            else [])
         (split_lines text)
       = List.map fst (List.filter (fun p => keep (column_line self p)) (cols (df self))).
Proof.
  intros Hnd Hplain Hnames Hhead. eexists. split; [now apply context_of_distinct|].
  unfold header_lines at 1. cbn [app]. rewrite split_join.
  - change (EmptyString :: ?l) with (header_lines self ++ List.map (column_line self) (cols (df self))).
    rewrite extract_from_lines, List.filter_app, (header_skipped keep self Hhead).
    cbn [app]. now apply names_from_lines.
  - change (Forall (fun l => sall not_newline l = true)
              (header_lines self ++ List.map (column_line self) (cols (df self)))).
    apply Forall_app. split; [apply header_lines_plain|].
    apply List.Forall_forall. intros line Hin.
    apply in_map_iff in Hin as (p & <- & Hp).
    rewrite forallb_forall in Hplain. now apply Hplain.
Qed.

End Describing.

Lemma canonical_char_plain_text (c : ascii) :
  canonical_char c = true ->
  negb (Ascii.eqb c close_paren) = true /\ negb (Ascii.eqb c newline) = true.
Proof. each_char c. Qed.

Lemma header_numeric_free (self : DataProcessor) (line : string) :
  In line (header_lines self) ->
  contains "int64" line || contains "float64" line = false.
Proof.
  unfold header_lines. intros Hin.
  repeat (destruct Hin as [<-|Hin]); try contradiction Hin;
    try (vm_compute; reflexivity);
    rewrite !contains_absent; try reflexivity;
    rewrite sall_app, digits_without; reflexivity.
Qed.

Lemma header_paren_free (self : DataProcessor) (line : string) :
  In line (header_lines self) ->
  contains " - " line && contains "(" line && contains ")" line = false.
Proof.
  intros Hin.
  rewrite (contains_absent "("%char EmptyString line).
  - now rewrite andb_false_r.
  - apply (header_without "("%char self line); [reflexivity|reflexivity|exact Hin].
Qed.

Lemma filter_all {A} (f : A -> bool) (l : list A) :
  forallb f l = true -> List.filter f l = l.
Proof.
  induction l as [|x l IH]; [reflexivity|].
  cbn [forallb List.filter]. intros [-> Hl]%andb_true_iff. now rewrite IH.
Qed.

Section Loaded.
Context `{Pandas} `{Display}.

(** X24.  For a loaded table the context never fails to build: it is the
    seven lines of the heading followed by one line per column, in the
    order of the columns, joined by line breaks. *)
Theorem context_layout (original : DataFrame) (self : DataProcessor) :
  init (Ok original) = Ok self ->
  get_data_context self
  = Ok (join nl (header_lines self ++ List.map (column_line self) (cols (df self)))).
Proof.
  intros Hinit. apply context_of_distinct.
  now destruct (column_mapping_entries original self Hinit) as (_ & Hnd & _).
Qed.

Lemma loaded_label_canonical (original : DataFrame) (self : DataProcessor)
    (col : string) :
  init (Ok original) = Ok self -> In col (columns (df self)) -> is_canonical col = true.
Proof.
  intros Hinit Hin. destruct (init_inversion original self Hinit) as (Hc & _ & _).
  rewrite Hc in Hin. apply In_lookup in Hin as (i & Hi).
  rewrite normalized_lookup in Hi.
  destruct (columns original !! i) as [h|]; [|discriminate Hi].
  injection Hi as <-. apply canonicalize_canonical.
Qed.

Lemma loaded_lines_name (original : DataFrame) (self : DataProcessor) :
  init (Ok original) = Ok self ->
  forallb
    (fun p => sall not_open (original_name self (fst p)) && negb (is_empty (fst p)))
    (cols (df self)) = true ->
  forall p, In p (cols (df self)) ->
    search_paren (column_line self p) = Some (fst p)
    /\ contains "(" (column_line self p) = true
    /\ contains ")" (column_line self p) = true.
Proof.
  intros Hinit Hnames p Hp. rewrite forallb_forall in Hnames.
  specialize (Hnames p Hp). apply andb_true_iff in Hnames as [Ho Hne].
  apply negb_true_iff in Hne. apply column_line_names; try assumption.
  assert (Hcan : is_canonical (fst p) = true).
  { apply (loaded_label_canonical original self); [exact Hinit|].
    unfold columns. apply in_map_iff. now exists p. }
  unfold is_canonical in Hcan.
  do 3 (apply andb_true_iff in Hcan as [Hcan _]).
  apply (sall_impl canonical_char); [|exact Hcan].
  intros c Hc. now destruct (canonical_char_plain_text c Hc).
Qed.

(** X25.  The rules read the labels of a loaded table back from its
    context, all of them and in order, when no line of a column holds a
    line break, no original header holds an opening parenthesis, no label
    is empty, and every column is textual, numeric or has a missing
    value. *)
Theorem context_names_columns (original : DataFrame) (self : DataProcessor) :
  init (Ok original) = Ok self ->
  forallb (fun p => sall (fun c => negb (Ascii.eqb c newline)) (column_line self p))
    (cols (df self)) = true ->
  forallb
    (fun p =>
       sall (fun c => negb (Ascii.eqb c open_paren))
         (default (fst p) (column_mapping self !! fst p))
       && negb (is_empty (fst p)))
    (cols (df self)) = true ->
  forallb
    (fun p => is_object (snd p) || Query.is_numeric (snd p)
              || (0 <? count_missing (snd p))%nat)
    (cols (df self)) = true ->
  exists text,
    get_data_context self = Ok text
    /\ _extract_columns_from_context text = columns (df self).
Proof.
  intros Hinit Hplain Hnames Hmarked.
  pose proof (loaded_lines_name original self Hinit Hnames) as Hline.
  destruct (extract_from_context self
              (fun line => contains " - " line && contains "(" line && contains ")" line))
    as (text & Htext & Hx).
  - now destruct (column_mapping_entries original self Hinit) as (_ & Hnd & _).
  - exact Hplain.
  - intros p Hp. now destruct (Hline p Hp).
  - apply header_paren_free.
  - exists text. split; [exact Htext|].
    unfold _extract_columns_from_context. rewrite Hx. unfold columns. f_equal.
    apply filter_all. apply forallb_forall. intros p Hp.
    destruct (Hline p Hp) as (_ & -> & ->).
    rewrite forallb_forall in Hmarked.
    now rewrite (column_line_marked self p (Hmarked p Hp)).
Qed.

(** X26.  Under the same conditions on line breaks, headers and labels,
    and when no line of another column holds [int64] or [float64], the
    numeric columns that the rules read from the context of a loaded
    table are the numeric columns of the table. *)
Theorem context_names_numeric_columns (original : DataFrame) (self : DataProcessor) :
  init (Ok original) = Ok self ->
  forallb (fun p => sall (fun c => negb (Ascii.eqb c newline)) (column_line self p))
    (cols (df self)) = true ->
  forallb
    (fun p =>
       sall (fun c => negb (Ascii.eqb c open_paren))
         (default (fst p) (column_mapping self !! fst p))
       && negb (is_empty (fst p)))
    (cols (df self)) = true ->
  forallb
    (fun p =>
       Query.is_numeric (snd p)
       || negb (contains "int64" (column_line self p)
                || contains "float64" (column_line self p)))
    (cols (df self)) = true ->
  exists text,
    get_data_context self = Ok text
    /\ _extract_numeric_columns_from_context text = Query.numeric_columns (df self).
Proof.
  intros Hinit Hplain Hnames Hwords.
  pose proof (loaded_lines_name original self Hinit Hnames) as Hline.
  destruct (extract_from_context self
              (fun line => contains "int64" line || contains "float64" line))
    as (text & Htext & Hx).
  - now destruct (column_mapping_entries original self Hinit) as (_ & Hnd & _).
  - exact Hplain.
  - intros p Hp. now destruct (Hline p Hp).
  - apply header_numeric_free.
  - exists text. split; [exact Htext|].
    unfold _extract_numeric_columns_from_context. rewrite Hx.
    unfold Query.numeric_columns. f_equal.
    apply List.filter_ext_in. intros p Hp.
    rewrite forallb_forall in Hwords. specialize (Hwords p Hp).
    destruct (Query.is_numeric (snd p)) eqn:En.
    + now apply column_line_numeric.
    + cbn [orb] in Hwords. now apply negb_true_iff in Hwords.
Qed.

(** X27.  In a loaded table whose column lines hold no line break, take
    a column that is textual, numeric or has a missing value.  When its
    original header holds a non-empty text in its first pair of
    parentheses, the rules read that text from the line of the column,
    where the label is expected: it is among the names they take from the
    context. *)
Theorem parenthesised_header_shadows_label (original : DataFrame)
    (self : DataProcessor) (p : string * Series) (a g b : string) :
  init (Ok original) = Ok self ->
  forallb (fun p => sall (fun c => negb (Ascii.eqb c newline)) (column_line self p))
    (cols (df self)) = true ->
  In p (cols (df self)) ->
  is_object (snd p) || Query.is_numeric (snd p) || (0 <? count_missing (snd p))%nat = true ->
  default (fst p) (column_mapping self !! fst p) = a +:+ "(" +:+ g +:+ ")" +:+ b ->
  sall (fun c => negb (Ascii.eqb c open_paren)) a = true ->
  is_empty g = false ->
  sall (fun c => negb (Ascii.eqb c close_paren)) g = true ->
  exists text,
    get_data_context self = Ok text
    /\ In g (_extract_columns_from_context text)
    /\ search_paren (column_line self p) = Some g.
Proof.
  intros Hinit Hplain Hp Hmarked Horig Ha Hne Hg.
  assert (Hnd : List.NoDup (columns (df self)))
    by now destruct (column_mapping_entries original self Hinit) as (_ & Hnd & _).
  assert (Hsearch : search_paren (column_line self p) = Some g).
  { unfold column_line. rewrite Horig, !sapp_assoc, <- (sapp_assoc "- " a).
    apply search_paren_first; try assumption;
      rewrite sall_app, Ha; reflexivity. }
  assert (Hparens : contains "(" (column_line self p) = true
                    /\ contains ")" (column_line self p) = true).
  { destruct (search_paren_inv _ _ Hsearch) as (_ & _ & Hc). split.
    - apply (contains_trans _ _ _ Hc). apply contains_prefix, startswith_app.
    - apply (contains_trans _ _ _ Hc). rewrite <- sapp_assoc. apply contains_suffix. }
  eexists. split; [now apply context_of_distinct|]. split; [|exact Hsearch].
  unfold _extract_columns_from_context. rewrite List.in_flat_map.
  exists (column_line self p). split.
  - unfold header_lines at 1. cbn [app]. rewrite split_join.
    + assert (Hin : In (column_line self p)
                      (header_lines self
                       ++ List.map (column_line self) (cols (df self))))
        by (apply in_or_app; right; now apply in_map).
      exact Hin.
    + change (Forall (fun l => sall not_newline l = true)
                (header_lines self ++ List.map (column_line self) (cols (df self)))).
      apply Forall_app. split; [apply header_lines_plain|].
      apply List.Forall_forall. intros line Hin.
      apply in_map_iff in Hin as (q & <- & Hq).
      rewrite forallb_forall in Hplain. now apply Hplain.
  - destruct Hparens as [-> ->]. rewrite (column_line_marked self p Hmarked), Hsearch.
    now left.
Qed.

End Loaded.

Lemma context_layout_witness :
  @get_data_context ContextExamples.demo_display ContextExamples.survey_processor
  = Ok (join nl
          (header_lines ContextExamples.survey_processor
           ++ List.map (@column_line ContextExamples.demo_display
                          ContextExamples.survey_processor)
                (cols (df ContextExamples.survey_processor)))).
Proof.
  apply (@context_layout Demo.demo_pandas ContextExamples.demo_display Demo.survey).
  vm_compute. reflexivity.
Defined.

Lemma context_names_columns_witness :
  exists text,
    @get_data_context ContextExamples.demo_display ContextExamples.survey_processor
    = Ok text
    /\ _extract_columns_from_context text
       = columns (df ContextExamples.survey_processor).
Proof.
  apply (@context_names_columns Demo.demo_pandas ContextExamples.demo_display
           Demo.survey ContextExamples.survey_processor);
    vm_compute; reflexivity.
Defined.

Lemma context_names_numeric_columns_witness :
  exists text,
    @get_data_context ContextExamples.demo_display ContextExamples.survey_processor
    = Ok text
    /\ _extract_numeric_columns_from_context text
       = Query.numeric_columns (df ContextExamples.survey_processor).
Proof.
  apply (@context_names_numeric_columns Demo.demo_pandas ContextExamples.demo_display
           Demo.survey ContextExamples.survey_processor);
    vm_compute; reflexivity.
Defined.

Lemma parenthesised_header_shadows_label_witness :
  exists text,
    @get_data_context ContextExamples.demo_display ContextExamples.priced_processor
    = Ok text
    /\ In "USD" (_extract_columns_from_context text)
    /\ search_paren
         (@column_line ContextExamples.demo_display ContextExamples.priced_processor
            ("price_usd", mkSeries DInt64 [Scalar "3"; Scalar "5"]))
       = Some "USD".
Proof.
  apply (@parenthesised_header_shadows_label Demo.demo_pandas
           ContextExamples.demo_display ContextExamples.priced
           ContextExamples.priced_processor
           ("price_usd", mkSeries DInt64 [Scalar "3"; Scalar "5"])
           "Price " "USD" EmptyString);
    try (vm_compute; reflexivity).
  left. reflexivity.
Defined.

End SummaryFacts.

(** ** Plots for failed dashboard items *)
Module DashboardFacts.
Import PyStr PyStrFacts PyList Pd Normalizer NormalizerFacts NormalizerMore.
Import Loader LoaderFacts Summary Sandbox SandboxMore FallbackFacts SummaryFacts Dashboard.

Local Abbreviation not_newline := (fun c => negb (Ascii.eqb c newline)).

Lemma selected_in_columns (keep : Series -> bool) (df : DataFrame) (col : string) :
  In col (select_dtypes keep df) -> In col (columns df).
Proof.
  unfold select_dtypes, columns. intros Hin.
  apply in_map_iff in Hin as (p & <- & Hp). apply filter_In in Hp as [Hp _].
  apply in_map_iff. now exists p.
Qed.

Lemma item_at_in (i : nat) (l : list string) :
  (i < List.length l)%nat -> In (item_at i l) l.
Proof. intros Hi. unfold item_at. now apply nth_In. Qed.

Lemma nonempty_length {A} (l : list A) : nonempty l = true -> (0 < List.length l)%nat.
Proof. destruct l; [discriminate|]. simpl. lia. Qed.

Lemma selected_none (keep : Series -> bool) (df : DataFrame) :
  nonempty (select_dtypes keep df) = false
  <-> forallb (fun p => negb (keep (snd p))) (cols df) = true.
Proof.
  unfold select_dtypes. induction (cols df) as [|p ps IH]; [easy|].
  cbn [List.filter forallb]. destruct (keep (snd p)); cbn [negb andb List.map nonempty].
  - easy.
  - exact IH.
Qed.

(** X28.  Whatever the index, a plot is proposed for a failed item of a
    dashboard unless the table has neither a numeric nor a textual
    column. *)
Theorem simple_fallback_plot_none (plot_index : nat) (data_processor : DataProcessor) :
  _create_simple_fallback_plot plot_index data_processor = None
  <-> forallb
        (fun p => negb (Query.is_numeric (snd p)) && negb (is_object (snd p)))
        (cols (df data_processor)) = true.
Proof.
  unfold _create_simple_fallback_plot, get_data_summary.
  cbn [numeric_columns categorical_columns].
  change (Query.numeric_columns (df data_processor))
    with (select_dtypes Query.is_numeric (df data_processor)).
  pose proof (selected_none Query.is_numeric (df data_processor)) as Hn.
  pose proof (selected_none is_object (df data_processor)) as Ho.
  assert (Hsplit : forallb
            (fun p => negb (Query.is_numeric (snd p)) && negb (is_object (snd p)))
            (cols (df data_processor)) = true
          <-> forallb (fun p => negb (Query.is_numeric (snd p))) (cols (df data_processor)) = true
              /\ forallb (fun p => negb (is_object (snd p))) (cols (df data_processor)) = true).
  { rewrite !forallb_forall. split.
    - intros Hall. split; intros p Hp; specialize (Hall p Hp);
        now apply andb_true_iff in Hall.
    - intros [H1 H2] p Hp. now rewrite (H1 p Hp), (H2 p Hp). }
  rewrite Hsplit, <- Hn, <- Ho. clear Hn Ho Hsplit.
  generalize (select_dtypes Query.is_numeric (df data_processor)),
    (select_dtypes is_object (df data_processor)).
  intros [|a [|b n]] [|c cs];
    destruct (plot_index =? 0)%nat, (plot_index =? 1)%nat, (plot_index =? 2)%nat;
    cbn [nonempty List.length Nat.leb andb];
    split; try discriminate; try (intros [? ?]; discriminate); auto.
Qed.

Section Loaded.
Context `{Pandas}.

Lemma plain_label (original : DataFrame) (self : DataProcessor) (col : string) :
  Loader.init (Ok original) = Ok self -> In col (columns (df self)) ->
  sall not_newline col = true.
Proof.
  intros Hinit Hin.
  pose proof (loaded_label_canonical original self col Hinit Hin) as Hcan.
  unfold is_canonical in Hcan. do 3 (apply andb_true_iff in Hcan as [Hcan _]).
  apply (sall_impl canonical_char); [|exact Hcan].
  intros c Hc. now destruct (canonical_char_plain_text c Hc).
Qed.

Lemma simple_histogram_clean (col heading : string) :
  sall not_newline col = true ->
  sall not_newline heading = true ->
  clean (simple_histogram col heading) = simple_histogram col heading
  /\ contains "fig = " (simple_histogram col heading) = true.
Proof.
  intros Hc Hh. unfold simple_histogram. split.
  - apply tidy_fixed. refine (conj _ (conj _ (conj _ _))).
    + now apply lstrip_app.
    + rewrite <- !sapp_assoc. now apply rstrip_app.
    + rewrite !sapp_cons. reflexivity.
    + rewrite !sall_app, Hc, Hh. reflexivity.
  - apply contains_prefix. now apply startswith_weaken.
Qed.

Lemma simple_bar_clean (col heading : string) :
  sall not_newline col = true ->
  sall not_newline heading = true ->
  clean (simple_bar col heading) = simple_bar col heading
  /\ contains "fig = " (simple_bar col heading) = true.
Proof.
  intros Hc Hh. unfold simple_bar. split.
  - apply tidy_fixed. refine (conj _ (conj _ (conj _ _))).
    + now apply lstrip_app.
    + rewrite <- !sapp_assoc. now apply rstrip_app.
    + rewrite !sapp_cons. reflexivity.
    + rewrite !sall_app, Hc, Hh. reflexivity.
  - rewrite <- (sapp_assoc "counts = df['"). now apply contains_inside.
Qed.

Lemma simple_scatter_clean (col1 col2 : string) :
  sall not_newline col1 = true ->
  sall not_newline col2 = true ->
  let code := "fig = px.scatter(df, x='" +:+ col1 +:+ "', y='" +:+ col2
              +:+ "', title='Data Relationship')" in
  clean code = code /\ contains "fig = " code = true.
Proof.
  intros H1 H2. cbv zeta. split.
  - apply tidy_fixed. refine (conj _ (conj _ (conj _ _))).
    + now apply lstrip_app.
    + rewrite <- !sapp_assoc. now apply rstrip_app.
    + rewrite !sapp_cons. reflexivity.
    + rewrite !sall_app, H1, H2. reflexivity.
  - apply contains_prefix. now apply startswith_weaken.
Qed.

(** X29.  The plot proposed for a failed item of the dashboard of a
    loaded table is one line that the cleaning of [execute_plot_code]
    leaves as it is, and it assigns [fig]. *)
Theorem simple_fallback_plot_runs_as_is (original : DataFrame) (self : DataProcessor)
    (plot_index : nat) (code : string) :
  Loader.init (Ok original) = Ok self ->
  _create_simple_fallback_plot plot_index self = Some code ->
  clean code = code /\ contains "fig = " code = true.
Proof.
  intros Hinit. unfold _create_simple_fallback_plot, get_data_summary.
  cbn [numeric_columns categorical_columns].
  change (Query.numeric_columns (df self))
    with (select_dtypes Query.is_numeric (df self)).
  assert (Hnum : forall i,
            (i < List.length (select_dtypes Query.is_numeric (df self)))%nat ->
            sall not_newline (item_at i (select_dtypes Query.is_numeric (df self))) = true).
  { intros i Hi. apply (plain_label original self _ Hinit).
    apply (selected_in_columns Query.is_numeric). now apply item_at_in. }
  assert (Hobj : forall i,
            (i < List.length (select_dtypes is_object (df self)))%nat ->
            sall not_newline (item_at i (select_dtypes is_object (df self))) = true).
  { intros i Hi. apply (plain_label original self _ Hinit).
    apply (selected_in_columns is_object). now apply item_at_in. }
  revert Hnum Hobj.
  generalize (select_dtypes Query.is_numeric (df self)),
    (select_dtypes is_object (df self)).
  intros numeric categorical Hnum Hobj.
  destruct ((plot_index =? 0)%nat && nonempty numeric) eqn:E0.
  { apply andb_true_iff in E0 as [_ E0]. intros [= <-].
    apply simple_histogram_clean; [|reflexivity].
    apply Hnum. now apply nonempty_length. }
  destruct ((plot_index =? 1)%nat && nonempty categorical) eqn:E1.
  { apply andb_true_iff in E1 as [_ E1]. intros [= <-].
    apply simple_bar_clean; [|reflexivity].
    apply Hobj. now apply nonempty_length. }
  destruct ((plot_index =? 2)%nat && (2 <=? List.length numeric)%nat) eqn:E2.
  { apply andb_true_iff in E2 as [_ E2]. apply Nat.leb_le in E2. intros [= <-].
    apply simple_scatter_clean; apply Hnum; lia. }
  destruct (nonempty numeric) eqn:E3.
  { intros [= <-]. apply simple_histogram_clean; [|reflexivity].
    apply Hnum. now apply nonempty_length. }
  destruct (nonempty categorical) eqn:E4; [|discriminate].
  intros [= <-]. apply simple_bar_clean; [|reflexivity].
  apply Hobj. now apply nonempty_length.
Qed.

End Loaded.

Lemma simple_fallback_plot_runs_as_is_witness :
  clean "fig = px.histogram(df, x='total_score', title='Data Distribution')"
  = "fig = px.histogram(df, x='total_score', title='Data Distribution')"
  /\ contains "fig = "
       "fig = px.histogram(df, x='total_score', title='Data Distribution')" = true.
Proof.
  apply (@simple_fallback_plot_runs_as_is Demo.demo_pandas Demo.survey
           ContextExamples.survey_processor 0
           "fig = px.histogram(df, x='total_score', title='Data Distribution')");
    vm_compute; reflexivity.
Defined.

End DashboardFacts.
